(** * download_dryad_dataset: a shallow embedding of [download_dryad_dataset.py]

    The program downloads one file from Dryad: it normalises a file
    identifier, fetches the file's metadata, streams the file to disk and
    checks a SHA-256 digest of what it wrote against the metadata's digest.

    Conventions of the model.
    - A Python [str] is a Rocq [string] holding its UTF-8 encoding, which
      is what a string literal of Rocq is. [Str.chars] cuts a text into its
      characters. A byte that is part of no well-formed sequence counts as
      a character of its own, neither a digit nor white space: Python
      reads such a byte of the command line as a lone surrogate. [isdigit]
      and [isspace] are Python's [\d] and [str.isspace] on every
      character, with the decimal digits of Unicode 14.0 (CPython 3.11).
      Equality, concatenation, search for a text and [str.format] are the
      same on the bytes as on the characters.
    - [lower] is [str.lower] for the characters below U+0100 and leaves
      the others as they are. The program lowers two digests to compare
      them, and the one it has computed is ASCII: the two are equal
      exactly when the other one is that text up to the case of its
      letters, here as in Python, where no character but A to F becomes a
      hexadecimal digit in lower case.
    - [bytes] are [list byte].
    - Code that may raise returns a [result]; code that also changes the
      world (the file system, the requests made, what is printed) is a
      computation [M A], a function from the world to the new world and a
      result. An uncaught exception ends the process with status 1.
    - Library calls ([re], [str.format], [pathlib], [requests], [hashlib],
      [tqdm]) are modelled by their documented behaviour. The file system
      has directories and regular files, no symbolic links and no
      permissions; input and output themselves do not fail.
    - What the outside world answers (HTTP responses, home directories, the
      working directory, the encoding of standard output) is an explicit
      [env] argument, and every statement about a run holds for all of
      them.
    - [main] starts after [parse_args]: its arguments are the two required
      options. *)

From stdpp Require Import gmap strings list fin_maps.
From Stdlib Require Import ZArith String Ascii Lia.
From Stdlib.Strings Require Import Byte.

Open Scope string_scope.
Open Scope list_scope.

(* ===================================================================== *)
(** ** Characters and strings *)
(* ===================================================================== *)

Module Str.

Definition code (c : ascii) : N := N_of_ascii c.

(** *** UTF-8 *)

(** The length of the sequence that the byte [a] begins: 1 for an ASCII
    byte, 2 to 4 for a lead byte, 0 for a byte that begins none (a
    continuation byte, or one that no sequence has). *)
Definition lead (a : ascii) : nat :=
  if (code a <? 128)%N then 1
  else if (code a <? 194)%N then 0
  else if (code a <? 224)%N then 2
  else if (code a <? 240)%N then 3
  else if (code a <? 245)%N then 4
  else 0.

(** A continuation byte. *)
Definition cont (b : ascii) : bool :=
  ((128 <=? code b) && (code b <? 192))%N.

Definition point2 (a b : ascii) : N :=
  ((code a - 192) * 64 + (code b - 128))%N.
Definition point3 (a b c : ascii) : N :=
  ((code a - 224) * 4096 + (code b - 128) * 64 + (code c - 128))%N.
Definition point4 (a b c d : ascii) : N :=
  ((code a - 240) * 262144 + (code b - 128) * 4096 + (code c - 128) * 64
   + (code d - 128))%N.

(** The bytes are a well-formed sequence of two, three or four: the
    shortest one for its code point, which is no surrogate and at most
    U+10FFFF. *)
Definition two (a b : ascii) : bool :=
  (lead a =? 2)%nat && cont b.
Definition three (a b c : ascii) : bool :=
  (lead a =? 3)%nat && cont b && cont c
  && ((2048 <=? point3 a b c)
      && negb ((55296 <=? point3 a b c) && (point3 a b c <=? 57343)))%N.
Definition four (a b c d : ascii) : bool :=
  (lead a =? 4)%nat && cont b && cont c && cont d
  && ((65536 <=? point4 a b c d) && (point4 a b c d <=? 1114111))%N.

(** The characters of a text, each as its bytes. A byte that begins no
    well-formed sequence is a character of its own. *)
Fixpoint chars (s : string) : list string :=
  match s with
  | EmptyString => []
  | String a r =>
      match r with
      | String b r1 =>
          if two a b then String a (String b "") :: chars r1
          else
            match r1 with
            | String c r2 =>
                if three a b c then
                  String a (String b (String c "")) :: chars r2
                else
                  match r2 with
                  | String d r3 =>
                      if four a b c d then
                        String a (String b (String c (String d "")))
                          :: chars r3
                      else String a "" :: chars r
                  | EmptyString => String a "" :: chars r
                  end
            | EmptyString => String a "" :: chars r
            end
      | EmptyString => [String a ""]
      end
  end.

(** [ord(c)]: the code point of a character; none for a byte that is not
    well-formed text. *)
Definition ord (c : string) : option N :=
  match c with
  | String a EmptyString =>
      if (lead a =? 1)%nat then Some (code a) else None
  | String a (String b EmptyString) =>
      if two a b then Some (point2 a b) else None
  | String a (String b (String c EmptyString)) =>
      if three a b c then Some (point3 a b c) else None
  | String a (String b (String c (String d EmptyString))) =>
      if four a b c d then Some (point4 a b c d) else None
  | _ => None
  end.

(** [chr(n)]: the character with code point [n]. *)
Definition chr (n : N) : string :=
  if (n <? 128)%N then String (ascii_of_N n) ""
  else if (n <? 2048)%N then
    String (ascii_of_N (192 + n / 64))
      (String (ascii_of_N (128 + n mod 64)) "")
  else if (n <? 65536)%N then
    String (ascii_of_N (224 + n / 4096))
      (String (ascii_of_N (128 + (n / 64) mod 64))
         (String (ascii_of_N (128 + n mod 64)) ""))
  else
    String (ascii_of_N (240 + n / 262144))
      (String (ascii_of_N (128 + (n / 4096) mod 64))
         (String (ascii_of_N (128 + (n / 64) mod 64))
            (String (ascii_of_N (128 + n mod 64)) ""))).

(** [''.join(l)] *)
Definition join (l : list string) : string := fold_right String.append "" l.

(** The digit zero of each run of decimal digits (category Nd): a run is
    ten code points, zero to nine. *)
Definition zeros : list N :=
  [ 48; 1632; 1776; 1984; 2406; 2534; 2662; 2790; 2918; 3046; 3174; 3302;
    3430; 3558; 3664; 3792; 3872; 4160; 4240; 6112; 6160; 6470; 6608; 6784;
    6800; 6992; 7088; 7232; 7248; 42528; 43216; 43264; 43472; 43504; 43600;
    44016; 65296; 66720; 68912; 69734; 69872; 69942; 70096; 70384; 70736;
    70864; 71248; 71360; 71472; 71904; 72016; 72784; 73040; 73120; 92768;
    92864; 93008; 120782; 120792; 120802; 120812; 120822; 123200; 123632;
    125264; 130032 ]%N.

Definition decimal (n : N) : bool :=
  existsb (fun z => (z <=? n) && (n <? z + 10))%N zeros.

(** White space: TAB..CR, FS..US, space, NEL, NBSP, the Ogham space mark,
    the spaces U+2000..U+200A, the line and paragraph separators, the
    narrow and the mathematical space, and the ideographic space. *)
Definition whitespace (n : N) : bool :=
  (((9 <=? n) && (n <=? 13)) || ((28 <=? n) && (n <=? 32))
   || (n =? 133) || (n =? 160) || (n =? 5760)
   || ((8192 <=? n) && (n <=? 8202)) || (n =? 8232) || (n =? 8233)
   || (n =? 8239) || (n =? 8287) || (n =? 12288))%N.

(** [\d] of a [str] pattern: a decimal digit of any script. *)
Definition isdigit (c : string) : bool :=
  match ord c with
  | Some n => decimal n
  | None => false
  end.

(** [c.isspace()] *)
Definition isspace (c : string) : bool :=
  match ord c with
  | Some n => whitespace n
  | None => false
  end.

(** An upper-case letter below U+0100: A..Z, and the Latin-1 capitals but
    the multiplication sign. Its lower-case form is 32 code points on. *)
Definition upper (n : N) : bool :=
  (((65 <=? n) && (n <=? 90))
   || ((192 <=? n) && (n <=? 222) && negb (n =? 215)))%N.

Definition isupper (c : string) : bool :=
  match ord c with
  | Some n => upper n
  | None => false
  end.

Definition lower_char (c : string) : string :=
  match ord c with
  | Some n => if upper n then chr (n + 32) else c
  | None => c
  end.

(** [s.lower()], for the letters below U+0100; the other characters are
    left as they are. *)
Definition lower (s : string) : string := join (map lower_char (chars s)).

Fixpoint lstrip_chars (l : list string) : list string :=
  match l with
  | [] => []
  | c :: r => if isspace c then lstrip_chars r else l
  end.

Fixpoint rstrip_chars (l : list string) : list string :=
  match l with
  | [] => []
  | c :: r =>
      match rstrip_chars r with
      | [] => if isspace c then [] else [c]
      | r' => c :: r'
      end
  end.

(** [s.strip()] *)
Definition strip (s : string) : string :=
  join (rstrip_chars (lstrip_chars (chars s))).

(** [s[len(p):]] when [s.startswith(p)]. *)
Fixpoint strip_prefix (p s : string) : option string :=
  match p with
  | EmptyString => Some s
  | String a p' =>
      match s with
      | EmptyString => None
      | String b s' => if Ascii.eqb a b then strip_prefix p' s' else None
      end
  end.

Fixpoint digits_chars (l : list string) : list string :=
  match l with
  | [] => []
  | c :: r => if isdigit c then c :: digits_chars r else []
  end.

(** The longest run of digits at the head of [s]: what a greedy [\d*]
    consumes. *)
Definition take_digits (s : string) : string :=
  join (digits_chars (chars s)).

Definition all_chars (P : string -> bool) (s : string) : bool :=
  forallb P (chars s).

Definition first_char (s : string) : option string := head (chars s).

Definition last_char (s : string) : option string := last (chars s).

(** [t in s] *)
Definition contains (t s : string) : Prop :=
  exists pre post, s = pre +:+ t +:+ post.

End Str.

(* ===================================================================== *)
(** ** The identifier extractor *)
(* ===================================================================== *)

(** [re.match(r'/files/(\d+)', s)]: group 1 of a match anchored at the
    head of [s]. *)
Definition match_here (s : string) : option string :=
  match Str.strip_prefix "/files/" s with
  | Some r =>
      match Str.take_digits r with
      | EmptyString => None
      | d => Some d
      end
  | None => None
  end.

(** [re.search(r'/files/(\d+)', s)]: group 1 of the leftmost match. *)
Fixpoint re_search (s : string) : option string :=
  match match_here s with
  | Some d => Some d
  | None =>
      match s with
      | EmptyString => None
      | String _ r => re_search r
      end
  end.

(** [extract_file_id(arg)] *)
Definition extract_file_id (arg : string) : string :=
  match re_search arg with
  | Some d => d
  | None => Str.strip arg
  end.

(** The input has a substring of the form [/files/<digits>]: [/files/]
    and a digit after it. *)
Definition has_files_pattern (s : string) : Prop :=
  exists pre d post,
    Str.isdigit d = true /\ s = pre +:+ "/files/" +:+ d +:+ post.

(** No match of the pattern begins at one of the first [n] positions of
    [s]. *)
Fixpoint no_match_before (n : nat) (s : string) : bool :=
  match n, s with
  | S n', String _ r =>
      match match_here s with
      | Some _ => false
      | None => no_match_before n' r
      end
  | _, _ => true
  end.

(* ===================================================================== *)
(** ** SHA-256 (FIPS 180-4), the function behind [hashlib.sha256] *)
(* ===================================================================== *)

Module SHA256.
Local Open Scope Z_scope.

(** 32-bit words are [Z] reduced modulo [2^32]. *)
Definition w32 (x : Z) : Z := x mod 2 ^ 32.
Definition add32 (a b : Z) : Z := w32 (a + b).
Definition rotr (n x : Z) : Z :=
  Z.lor (Z.shiftr x n) (w32 (Z.shiftl x (32 - n))).

Definition Ch (x y z : Z) : Z :=
  Z.lxor (Z.land x y) (Z.land (Z.lnot x) z).
Definition Maj (x y z : Z) : Z :=
  Z.lxor (Z.lxor (Z.land x y) (Z.land x z)) (Z.land y z).
Definition Sigma0 (x : Z) : Z :=
  Z.lxor (Z.lxor (rotr 2 x) (rotr 13 x)) (rotr 22 x).
Definition Sigma1 (x : Z) : Z :=
  Z.lxor (Z.lxor (rotr 6 x) (rotr 11 x)) (rotr 25 x).
Definition sigma0 (x : Z) : Z :=
  Z.lxor (Z.lxor (rotr 7 x) (rotr 18 x)) (Z.shiftr x 3).
Definition sigma1 (x : Z) : Z :=
  Z.lxor (Z.lxor (rotr 17 x) (rotr 19 x)) (Z.shiftr x 10).

(** The constants of the standard are the first 32 bits of the fractional
    parts of roots of the first primes: cube roots of the first 64 for
    the round constants, square roots of the first 8 for the initial
    hash value. *)
Definition is_prime (n : Z) : bool :=
  forallb (fun d => negb (n mod d =? 0))
          (map Z.of_nat (seq 2 (Z.to_nat n - 2))).

Definition primes : list Z :=
  filter (fun n => Is_true (is_prime n)) (map Z.of_nat (seq 2 310)).

(** The integer cube root of [x], one bit at a time from bit [n - 1]. *)
Fixpoint cube_root (n : nat) (x acc : Z) : Z :=
  match n with
  | O => acc
  | S n' =>
      let c := acc + 2 ^ Z.of_nat n' in
      if c * c * c <=? x then cube_root n' x c else cube_root n' x acc
  end.

Definition K : list Z :=
  Eval vm_compute in
    map (fun p => w32 (cube_root 40 (p * 2 ^ 96) 0)) (firstn 64 primes).

Definition H0 : list Z :=
  Eval vm_compute in
    map (fun p => w32 (Z.sqrt (p * 2 ^ 64))) (firstn 8 primes).

(** Padding: a 1 bit, zeros up to 56 modulo 64 bytes, then the length in
    bits as a 64-bit big-endian number. *)
Fixpoint be_bytes (n : nat) (x : Z) : list Z :=
  match n with
  | O => []
  | S n' => (Z.shiftr x (8 * Z.of_nat n')) mod 256 :: be_bytes n' x
  end.

Definition pad (msg : list Z) : list Z :=
  let len := Z.of_nat (List.length msg) in
  msg ++ [0x80] ++ repeat 0 (Z.to_nat ((55 - len) mod 64))
      ++ be_bytes 8 (8 * len).

Fixpoint be_word (bs : list Z) (acc : Z) : Z :=
  match bs with
  | [] => acc
  | b :: r => be_word r (acc * 256 + b)
  end.

(** Group a list by [n] elements at a time; [fuel] bounds the number of
    groups. *)
Fixpoint groups {A} (fuel n : nat) (l : list A) : list (list A) :=
  match fuel, l with
  | O, _ | _, [] => []
  | S fuel', _ => firstn n l :: groups fuel' n (skipn n l)
  end.

Definition words_of_block (block : list Z) : list Z :=
  map (fun bs => be_word bs 0) (groups 16 4 block).

(** The message schedule past the block's own 16 words; [w] holds the
    last 16 words, oldest first. *)
Fixpoint schedule (n : nat) (w : list Z) : list Z :=
  match n with
  | O => []
  | S n' =>
      let x := add32 (add32 (sigma1 (nth 14 w 0)) (nth 9 w 0))
                     (add32 (sigma0 (nth 1 w 0)) (nth 0 w 0)) in
      x :: schedule n' (tl w ++ [x])
  end.

Record regs := Regs { ra : Z; rb : Z; rc : Z; rd : Z;
                      re : Z; rf : Z; rg : Z; rh : Z }.

Definition round (s : regs) (kw : Z * Z) : regs :=
  let t1 := add32 (add32 (add32 (rh s) (Sigma1 (re s)))
                         (add32 (Ch (re s) (rf s) (rg s)) (fst kw)))
                  (snd kw) in
  let t2 := add32 (Sigma0 (ra s)) (Maj (ra s) (rb s) (rc s)) in
  Regs (add32 t1 t2) (ra s) (rb s) (rc s)
       (add32 (rd s) t1) (re s) (rf s) (rg s).

Definition regs_of (h : list Z) : regs :=
  Regs (nth 0 h 0) (nth 1 h 0) (nth 2 h 0) (nth 3 h 0)
       (nth 4 h 0) (nth 5 h 0) (nth 6 h 0) (nth 7 h 0).

Definition list_of (s : regs) : list Z :=
  [ra s; rb s; rc s; rd s; re s; rf s; rg s; rh s].

Definition compress (h : list Z) (block : list Z) : list Z :=
  let w16 := words_of_block block in
  let w := w16 ++ schedule 48 w16 in
  let s := fold_left round (combine K w) (regs_of h) in
  map (fun p => add32 (fst p) (snd p)) (combine h (list_of s)).

(** The digest, as eight 32-bit words. *)
Definition digest_words (msg : list byte) : list Z :=
  let m := pad (map (fun b => Z.of_N (Byte.to_N b)) msg) in
  fold_left compress (groups (List.length m) 64 m) H0.

Definition hex_digit (n : Z) : ascii :=
  ascii_of_N (Z.to_N (if n <? 10 then 48 + n else 87 + n)).

Fixpoint hex_of (digits : nat) (x : Z) : string :=
  match digits with
  | O => EmptyString
  | S d => String (hex_digit ((Z.shiftr x (4 * Z.of_nat d)) mod 16))
                  (hex_of d x)
  end.

Fixpoint concat_str (l : list string) : string :=
  match l with
  | [] => EmptyString
  | s :: r => s +:+ concat_str r
  end.

(** [hashlib.sha256(msg).hexdigest()] *)
Definition hexdigest (msg : list byte) : string :=
  concat_str (map (hex_of 8) (digest_words msg)).

End SHA256.

(** The [hashlib.sha256()] object: it holds the data fed so far, and its
    digest is the SHA-256 of all of it. *)
Module hashlib.
Definition sha256_obj : Type := list byte.
Definition sha256 : sha256_obj := [].
Definition update (h : sha256_obj) (chunk : list byte) : sha256_obj :=
  h ++ chunk.
Definition hexdigest (h : sha256_obj) : string := SHA256.hexdigest h.
End hashlib.

(* ===================================================================== *)
(** ** Exceptions, values and the outside world *)
(* ===================================================================== *)

Inductive exn : Type :=
| HTTPError (status : Z)
| RequestException
| JSONDecodeError
| KeyError (key : string)
| TypeError
| AttributeError
| IndexError
| ValueError
| RuntimeError
| UnicodeEncodeError
| FileNotFoundError
| FileExistsError
| NotADirectoryError
| IsADirectoryError
| SystemExit (msg : string).

Inductive result (A : Type) : Type :=
| Ok (a : A)
| Raise (e : exn).
Arguments Ok {A} a.
Arguments Raise {A} e.

(** What [r.json()] returns. *)
#[warnings="-register-all"]
Inductive json : Type :=
| JNull
| JBool (b : bool)
| JNum (z : Z)
| JStr (s : string)
| JArr (l : list json)
| JObj (items : list (string * json)).

Fixpoint dict_get (items : list (string * json)) (k : string) : option json :=
  match items with
  | [] => None
  | (k', v) :: r => if String.eqb k k' then Some v else dict_get r k
  end.

(** [v[k]] for a string key [k]. *)
Definition subscript (v : json) (k : string) : result json :=
  match v with
  | JObj items =>
      match dict_get items k with
      | Some x => Ok x
      | None => Raise (KeyError k)
      end
  | _ => Raise TypeError
  end.

(** [v.lower()]: only a [str] has the method. *)
Definition lower_method (v : json) : result string :=
  match v with
  | JStr s => Ok (Str.lower s)
  | _ => Raise AttributeError
  end.

(** A [pathlib.PurePosixPath]: whether it has a root, and its parts. *)
Record path : Type := MkPath { is_absolute : bool; parts : list string }.

Inductive node : Type :=
| File (content : list byte)
| Dir.

(** An HTTP response as the program observes it: the status, what
    [r.json()] gives ([None]: the body is not JSON), the chunks
    [r.iter_content] yields and whether the stream ends normally. *)
Record response : Type := MkResponse {
  status_code : Z;
  json_body : option json;
  content_chunks : list (list byte);
  stream_ok : bool
}.

Inductive http_result : Type :=
| ConnectionFailed
| Responded (r : response).

(** The environment of a run. [http n url] answers the GET of [url] made
    after [n] earlier requests. [home_of c] is [os.path.expanduser] on a
    first component [~] or [~user] ([None]: no home directory is known).
    [repr] is [str()] on what is not a [str]. [stdout_encodes] tells whether
    the encoding of standard output has a non-ASCII text. [tqdm_accepts]
    tells whether the progress bar runs with that [total]. *)
Record env : Type := MkEnv {
  http : nat -> string -> http_result;
  cwd : list string;
  home_of : string -> option string;
  repr : json -> string;
  stdout_encodes : string -> bool;
  tqdm_accepts : json -> bool
}.

(** The state a run changes: the file system (keys are absolute, normalised
    paths; the root is always a directory), the URLs requested, the lines
    printed and the progress reported. *)
Record world : Type := MkWorld {
  fs : gmap (list string) node;
  http_log : list string;
  stdout : list string;
  progress : list nat
}.

Definition set_fs (w : world) (m : gmap (list string) node) : world :=
  MkWorld m (http_log w) (stdout w) (progress w).

(** Computations that change the world and may raise. *)
Definition M (A : Type) : Type := world -> world * result A.

Definition ret {A} (a : A) : M A := fun w => (w, Ok a).
Definition raise {A} (e : exn) : M A := fun w => (w, Raise e).
Definition bind {A B} (m : M A) (k : A -> M B) : M B :=
  fun w =>
    match m w with
    | (w', Ok a) => k a w'
    | (w', Raise e) => (w', Raise e)
    end.
Definition lift {A} (r : result A) : M A := fun w => (w, r).

Notation "x <- m ;; k" := (bind m (fun x => k))
  (at level 100, m at next level, right associativity).
Notation "m ;;; k" := (bind m (fun _ => k))
  (at level 100, right associativity).

(** The exit status of the process when [main] ends with [r]: an uncaught
    exception, [SystemExit] with a message included, gives 1. *)
Definition exit_status {A} (r : result A) : Z :=
  match r with
  | Ok _ => 0
  | Raise _ => 1
  end.

(* ===================================================================== *)
(** ** [str.format] and printing *)
(* ===================================================================== *)

Definition map_result {A B} (f : A -> B) (r : result A) : result B :=
  match r with
  | Ok a => Ok (f a)
  | Raise e => Raise e
  end.

(** [template.format(a, ...)] for templates whose replacement fields are all
    the automatic [{}]; [{{] and [}}] are the escaped braces. Any other
    replacement field is outside the model (the program has none) and
    reported as [ValueError], like a single brace. *)
Fixpoint format (template : string) (args : list string) : result string :=
  match template with
  | EmptyString => Ok EmptyString
  | String c r =>
      if Ascii.eqb c "{" then
        match r with
        | String c' r' =>
            if Ascii.eqb c' "}" then
              match args with
              | a :: args' => map_result (String.append a) (format r' args')
              | [] => Raise IndexError
              end
            else if Ascii.eqb c' "{" then
              map_result (String "{") (format r' args)
            else Raise ValueError
        | EmptyString => Raise ValueError
        end
      else if Ascii.eqb c "}" then
        match r with
        | String c' r' =>
            if Ascii.eqb c' "}" then map_result (String "}") (format r' args)
            else Raise ValueError
        | EmptyString => Raise ValueError
        end
      else map_result (String c) (format r args)
  end.

(** [str(v)] *)
Definition py_str (e : env) (v : json) : string :=
  match v with
  | JStr s => s
  | _ => repr e v
  end.

(** An ASCII character. *)
Definition is_ascii (c : string) : bool :=
  match Str.ord c with
  | Some n => (n <? 128)%N
  | None => false
  end.

(** [print(s)]: the text must be encodable on standard output. *)
Definition print (e : env) (s : string) : M unit :=
  fun w =>
    if Str.all_chars is_ascii s || stdout_encodes e s
    then (MkWorld (fs w) (http_log w) (stdout w ++ [s]) (progress w), Ok tt)
    else (w, Raise UnicodeEncodeError).

(* ===================================================================== *)
(** ** Constants of the program *)
(* ===================================================================== *)

Definition DATADRYAD_URL : string := "https://datadryad.org/{}".
Definition API_FILE : result string := format DATADRYAD_URL ["/api/v2/files/{}"].
Definition TIMEOUT : Z * Z := (5, 30)%Z.
Definition CHUNK : N := (1024 * 1024)%N.

(* ===================================================================== *)
(** ** [pathlib] and the file system *)
(* ===================================================================== *)

Module pathlib.

Fixpoint split_slash (s : string) : list string :=
  match s with
  | EmptyString => [EmptyString]
  | String c r =>
      if Ascii.eqb c "/" then EmptyString :: split_slash r
      else match split_slash r with
           | h :: t => String c h :: t
           | [] => [String c EmptyString]
           end
  end.

Definition keep_part (c : string) : bool :=
  negb (String.eqb c "") && negb (String.eqb c ".").

(** [Path(s)]: empty and [.] components are dropped. A root of exactly
    two slashes is not told apart from a single one. *)
Definition Path (s : string) : path :=
  MkPath (match s with
          | String c _ => Ascii.eqb c "/"
          | EmptyString => false
          end)
         (filter keep_part (split_slash s)).

Fixpoint join_parts (l : list string) : string :=
  match l with
  | [] => EmptyString
  | [c] => c
  | c :: r => c +:+ "/" +:+ join_parts r
  end.

(** [str(p)] *)
Definition to_str (p : path) : string :=
  if is_absolute p then "/" +:+ join_parts (parts p)
  else match parts p with
       | [] => "."
       | l => join_parts l
       end.

(** [p / other] *)
Definition joinpath (p : path) (other : json) : result path :=
  match other with
  | JStr s =>
      let q := Path s in
      if is_absolute q then Ok q
      else Ok (MkPath (is_absolute p) (parts p ++ parts q))
  | _ => Raise TypeError
  end.

(** [p.expanduser()] *)
Definition expanduser (e : env) (p : path) : result path :=
  match is_absolute p, parts p with
  | false, (String c u as first) :: rest =>
      if Ascii.eqb c "~" then
        match home_of e first with
        | Some h =>
            let q := Path h in
            Ok (MkPath (is_absolute q) (parts q ++ rest))
        | None => Raise RuntimeError
        end
      else Ok p
  | _, _ => Ok p
  end.

(** Normalising parts on top of the reversed prefix [racc]: [..] drops
    the last component, and stays at the root. *)
Fixpoint normalize (racc : list string) (l : list string) : list string :=
  match l with
  | [] => rev racc
  | c :: r =>
      if String.eqb c ".." then normalize (tl racc) r
      else normalize (c :: racc) r
  end.

Definition start_of (e : env) (p : path) : list string :=
  if is_absolute p then [] else cwd e.

(** [p.resolve()], on a file system without symbolic links. *)
Definition resolve (e : env) (p : path) : path :=
  MkPath true (normalize (rev (start_of e p)) (parts p)).

Definition node_at (m : gmap (list string) node) (key : list string)
  : option node :=
  match key with
  | [] => Some Dir
  | _ => m !! key
  end.

(** The kernel's walk along a path: every component but the last has to
    be a directory; the result is the key of the last one. *)
Fixpoint walk (m : gmap (list string) node) (racc : list string)
         (l : list string) : result (list string) :=
  match l with
  | [] => Ok (rev racc)
  | c :: r =>
      if String.eqb c ".." then walk m (tl racc) r
      else
        match r with
        | [] => Ok (rev (c :: racc))
        | _ =>
            match node_at m (rev (c :: racc)) with
            | Some Dir => walk m (c :: racc) r
            | Some (File _) => Raise NotADirectoryError
            | None => Raise FileNotFoundError
            end
        end
  end.

Definition locate (e : env) (m : gmap (list string) node) (p : path)
  : result (list string) :=
  walk m (rev (start_of e p)) (parts p).

(** [os.mkdir(p)] *)
Definition os_mkdir (e : env) (m : gmap (list string) node) (p : path)
  : result (gmap (list string) node) :=
  match locate e m p with
  | Ok key =>
      match node_at m key with
      | Some _ => Raise FileExistsError
      | None => Ok (<[key := Dir]> m)
      end
  | Raise x => Raise x
  end.

(** [p.is_dir()] *)
Definition is_dir (e : env) (m : gmap (list string) node) (p : path) : bool :=
  match locate e m p with
  | Ok key =>
      match node_at m key with
      | Some Dir => true
      | _ => false
      end
  | Raise _ => false
  end.

Definition is_FileNotFoundError (x : exn) : bool :=
  match x with
  | FileNotFoundError => true
  | _ => false
  end.

(** [p.mkdir(parents=False, exist_ok=exist_ok)] *)
Definition mkdir_single (e : env) (exist_ok : bool)
           (m : gmap (list string) node) (p : path)
  : result (gmap (list string) node) :=
  match os_mkdir e m p with
  | Ok m' => Ok m'
  | Raise x =>
      if is_FileNotFoundError x then Raise x
      else if exist_ok && is_dir e m p then Ok m
      else Raise x
  end.

(** [p.mkdir(parents=True, exist_ok=exist_ok)], with the parts of [p] in
    reverse: the parent of a path drops its last part, and a path without
    parts is its own parent. *)
Fixpoint mkdir_parents (e : env) (exist_ok : bool)
         (m : gmap (list string) node) (absolute : bool)
         (rparts : list string) : result (gmap (list string) node) :=
  let p := MkPath absolute (rev rparts) in
  match os_mkdir e m p with
  | Ok m' => Ok m'
  | Raise x =>
      if is_FileNotFoundError x then
        match rparts with
        | [] => Raise x
        | _ :: rparent =>
            match mkdir_parents e true m absolute rparent with
            | Ok m1 => mkdir_single e exist_ok m1 p
            | Raise y => Raise y
            end
        end
      else if exist_ok && is_dir e m p then Ok m
      else Raise x
  end.

(** [p.mkdir(parents=True, exist_ok=True)] *)
Definition mkdir (e : env) (p : path) : M unit :=
  fun w =>
    match mkdir_parents e true (fs w) (is_absolute p) (rev (parts p)) with
    | Ok m => (set_fs w m, Ok tt)
    | Raise x => (w, Raise x)
    end.

(** [p.open('wb')]: the file is created, or emptied; the handle is the
    key of the file. *)
Definition open_wb (e : env) (p : path) : M (list string) :=
  fun w =>
    match locate e (fs w) p with
    | Ok key =>
        match node_at (fs w) key with
        | Some Dir => (w, Raise IsADirectoryError)
        | _ => (set_fs w (<[key := File []]> (fs w)), Ok key)
        end
    | Raise x => (w, Raise x)
    end.

(** [fh.write(chunk)] *)
Definition write (fh : list string) (chunk : list byte) : M unit :=
  fun w =>
    match fs w !! fh with
    | Some (File c) => (set_fs w (<[fh := File (c ++ chunk)]> (fs w)), Ok tt)
    | _ => (w, Raise ValueError)
    end.

(** [p.open('rb')]: the handle is what is left to read. *)
Definition open_rb (e : env) (p : path) : M (list byte) :=
  fun w =>
    match locate e (fs w) p with
    | Ok key =>
        match node_at (fs w) key with
        | Some (File c) => (w, Ok c)
        | Some Dir => (w, Raise IsADirectoryError)
        | None => (w, Raise FileNotFoundError)
        end
    | Raise x => (w, Raise x)
    end.

(** [f.read(n)]: at most [n] bytes, and what is left after them. *)
Fixpoint read (n : N) (rest : list byte) : list byte * list byte :=
  match rest with
  | [] => ([], [])
  | b :: r =>
      if (n =? 0)%N then ([], rest)
      else let (chunk, rest') := read (N.pred n) r in (b :: chunk, rest')
  end.

(** [p.unlink(missing_ok=missing_ok)] *)
Definition unlink (e : env) (missing_ok : bool) (p : path) : M unit :=
  fun w =>
    let missing := if missing_ok then (w, Ok tt)
                   else (w, Raise FileNotFoundError) in
    match locate e (fs w) p with
    | Ok key =>
        match node_at (fs w) key with
        | Some (File _) => (set_fs w (delete key (fs w)), Ok tt)
        | Some Dir => (w, Raise IsADirectoryError)
        | None => missing
        end
    | Raise x => if is_FileNotFoundError x then missing else (w, Raise x)
    end.

End pathlib.

(* ===================================================================== *)
(** ** [requests] *)
(* ===================================================================== *)

Module requests.

(** [requests.get(url, timeout=timeout)]: redirects are followed by the
    library, so the response is the final one. *)
Definition get (e : env) (url : string) (timeout : Z * Z) : M response :=
  fun w =>
    let w' := MkWorld (fs w) (http_log w ++ [url]) (stdout w) (progress w) in
    match http e (List.length (http_log w)) url with
    | Responded r => (w', Ok r)
    | ConnectionFailed => (w', Raise RequestException)
    end.

(** [r.raise_for_status()] *)
Definition raise_for_status (r : response) : result unit :=
  if ((400 <=? status_code r) && (status_code r <? 600))%Z
  then Raise (HTTPError (status_code r))
  else Ok tt.

(** [r.json()] *)
Definition json_of (r : response) : result json :=
  match json_body r with
  | Some v => Ok v
  | None => Raise JSONDecodeError
  end.

End requests.

(* ===================================================================== *)
(** ** The program *)
(* ===================================================================== *)

(** [get_metadata(fid)] *)
Definition get_metadata (e : env) (fid : string) : M json :=
  url <- lift (match API_FILE with
               | Ok t => format t [fid]
               | Raise x => Raise x
               end) ;;
  r <- requests.get e url TIMEOUT ;;
  lift (requests.raise_for_status r) ;;;
  lift (requests.json_of r).

(** The loop [for chunk in iter(lambda: f.read(CHUNK), b""): h.update(chunk)].
    It ends at the first empty read; [fuel] bounds the number of reads. *)
Fixpoint read_chunks (fuel : nat) (h : hashlib.sha256_obj) (rest : list byte)
  : hashlib.sha256_obj :=
  match fuel with
  | O => h
  | S fuel' =>
      let (chunk, rest') := pathlib.read CHUNK rest in
      match chunk with
      | [] => h
      | _ => read_chunks fuel' (hashlib.update h chunk) rest'
      end
  end.

(** [sha256sum(path)]. Every read but the last takes at least one byte, so
    one read more than the file has bytes is enough. *)
Definition sha256sum (e : env) (p : path) : M string :=
  f <- pathlib.open_rb e p ;;
  ret (hashlib.hexdigest (read_chunks (S (List.length f)) hashlib.sha256 f)).

(** [bar.update(n)] *)
Definition bar_update (n : nat) : M unit :=
  fun w => (MkWorld (fs w) (http_log w) (stdout w) (progress w ++ [n]), Ok tt).

(** The loop of [download] over the chunks [r.iter_content(CHUNK)] yields. *)
Fixpoint write_chunks (fh : list string) (chunks : list (list byte)) : M unit :=
  match chunks with
  | [] => ret tt
  | chunk :: r =>
      match chunk with
      | [] => ret tt
      | _ => pathlib.write fh chunk ;;; bar_update (List.length chunk)
      end ;;;
      write_chunks fh r
  end.

(** [download(url, dest, total_bytes)] *)
Definition download (e : env) (url : string) (dest : path) (total_bytes : json)
  : M unit :=
  r <- requests.get e url TIMEOUT ;;
  lift (requests.raise_for_status r) ;;;
  fh <- pathlib.open_wb e dest ;;
  (if tqdm_accepts e total_bytes then ret tt else raise TypeError) ;;;
  write_chunks fh (content_chunks r) ;;;
  (if stream_ok r then ret tt else raise RequestException).

(** The parsed command line: [args.fid] and [args.outdir]. *)
Record args : Type := MkArgs { arg_fid : string; arg_outdir : string }.

(** [main], first block: the identifier and the output directory. *)
Definition main_setup (e : env) (a : args) : M (string * path) :=
  let fid := extract_file_id (arg_fid a) in
  outdir <- lift (map_result (pathlib.resolve e)
                    (pathlib.expanduser e (pathlib.Path (arg_outdir a)))) ;;
  pathlib.mkdir e outdir ;;;
  ret (fid, outdir).

(** [main], second block: from the metadata to the digest of the file. *)
Definition main_fetch (e : env) (fid : string) (outdir : path)
  : M (path * json * string) :=
  meta <- get_metadata e fid ;;
  print e (py_str e meta) ;;;
  filename <- lift (subscript meta "path") ;;
  expected <- lift (subscript meta "digest") ;;
  size <- lift (subscript meta "size") ;;
  target <- lift (pathlib.joinpath outdir filename) ;;
  print e ("downloading " +:+ py_str e filename +:+ " (" +:+ py_str e size
             +:+ " bytes) to " +:+ pathlib.to_str target +:+ "...") ;;;
  links <- lift (subscript meta "_links") ;;
  stash <- lift (subscript links "stash:download") ;;
  href <- lift (subscript stash "href") ;;
  download_link <- lift (format DATADRYAD_URL [py_str e href]) ;;
  download e download_link target size ;;;
  print e "↪ download complete, verifying checksum..." ;;;
  actual <- sha256sum e target ;;
  ret (target, expected, actual).

(** The test [actual.lower() != expected.lower()] on two strings. *)
Definition digests_differ (actual expected : string) : bool :=
  negb (String.eqb (Str.lower actual) (Str.lower expected)).

Definition mismatch_message (e : env) (expected : json) (actual : string)
  : string :=
  "ERROR: MD5 mismatch! Expected " +:+ py_str e expected +:+ ", got " +:+ actual.

(** [main], last block: the comparison and its two outcomes. *)
Definition main_verify (e : env) (target : path) (expected : json)
           (actual : string) : M unit :=
  expected_lower <- lift (lower_method expected) ;;
  (if negb (String.eqb (Str.lower actual) expected_lower) then
     pathlib.unlink e true target ;;;
     raise (SystemExit (mismatch_message e expected actual))
   else ret tt) ;;;
  print e "OK - checksums match.".

(** [main()] after [parse_args]. *)
Definition main (e : env) (a : args) : M unit :=
  s <- main_setup e a ;;
  let '(fid, outdir) := s in
  f <- main_fetch e fid outdir ;;
  let '(target, expected, actual) := f in
  main_verify e target expected actual.

(* ===================================================================== *)
(** ** Notions the claims are stated with *)
(* ===================================================================== *)

(** [u] is an upper-case letter and [l] its lower-case form, 32 code
    points on. *)
Definition case_pair (u l : string) : Prop :=
  Str.isupper u = true
  /\ exists n, Str.ord u = Some n /\ Str.ord l = Some (n + 32)%N.

(** Two lists of characters that differ only in the case of letters. *)
Inductive same_chars : list string -> list string -> Prop :=
| same_nil : same_chars [] []
| same_cons (c1 c2 : string) (r1 r2 : list string) :
    c1 = c2 \/ case_pair c1 c2 \/ case_pair c2 c1 ->
    same_chars r1 r2 ->
    same_chars (c1 :: r1) (c2 :: r2).

(** Two strings that differ only in the case of their letters. *)
Definition same_letters (a b : string) : Prop :=
  same_chars (Str.chars a) (Str.chars b).

(** The path that the text [{outdir}/{filename}] names. *)
Definition template_path (outdir : path) (filename : string) : path :=
  pathlib.Path (pathlib.to_str outdir +:+ "/" +:+ filename).

(** A status of the 2xx class. *)
Definition is_success (status : Z) : bool :=
  ((200 <=? status) && (status <? 300))%Z.

(* ===================================================================== *)
(** ** A sample run, for the examples *)
(* ===================================================================== *)

Module Sample.

Definition sha256_abc : string :=
  "ba7816bf8f01cfea414140de5dae2223b00361a396177a9cb410ff61f20015ad".

Definition metadata (filename digest : string) : json :=
  JObj [ ("path", JStr filename);
         ("digest", JStr digest);
         ("size", JNum 3);
         ("_links",
           JObj [("stash:download",
                   JObj [("href", JStr "/api/v2/files/7/download")])]) ].

(** A server whose metadata answer for file 7 has the given status, file
    name and digest, and whose download sends the three bytes [abc] in
    two chunks with an empty one between them. *)
Definition server (status : Z) (filename digest : string)
           (n : nat) (url : string) : http_result :=
  if String.eqb url "https://datadryad.org//api/v2/files/7" then
    Responded (MkResponse status (Some (metadata filename digest)) [] true)
  else if String.eqb url "https://datadryad.org//api/v2/files/7/download" then
    Responded (MkResponse 200 None
                 [list_byte_of_string "a"; []; list_byte_of_string "bc"] true)
  else ConnectionFailed.

Definition environment (status : Z) (filename digest : string) : env :=
  MkEnv (server status filename digest) ["home"; "u"]
        (fun _ => None) (fun _ => "<object>")
        (fun _ => true) (fun _ => true).

Definition arguments : args :=
  MkArgs "https://datadryad.org/api/v2/files/7/download" "data".

Definition empty_world : world := MkWorld ∅ [] [] [].

Definition outdir : path := MkPath true ["home"; "u"; "data"].
Definition target : path := MkPath true ["home"; "u"; "data"; "f.bin"].

Definition sha256_abc_upper : string :=
  "BA7816BF8F01CFEA414140DE5DAE2223B00361A396177A9CB410FF61F20015AD".

(** The digest matches, in upper case. *)
Definition matching : env := environment 200 "f.bin" sha256_abc_upper.
(** The digest is another one. *)
Definition mismatching : env := environment 200 "f.bin" "00ff".
(** The file name is an absolute path. *)
Definition absolute_name : env := environment 200 "/f.bin" sha256_abc.
(** The metadata come with status 300. *)
Definition multiple_choices : env := environment 300 "f.bin" sha256_abc.
(** The metadata endpoint answers 404. *)
Definition not_found : env := environment 404 "f.bin" sha256_abc.

Definition after_setup (e : env) : world :=
  fst (main_setup e arguments empty_world).
Definition after_fetch (e : env) : world :=
  fst (main_fetch e "7" outdir (after_setup e)).

End Sample.

(** From [m] to [m'] nothing changed but directories that were added. *)
Definition only_dirs_added (m m' : gmap (list string) node) : Prop :=
  forall key, m' !! key = m !! key \/ (m !! key = None /\ m' !! key = Some Dir).

(** Every path that leads to [l], [l] included, is a directory. *)
Definition dirs_down_to (m : gmap (list string) node) (l : list string) : Prop :=
  forall q, q `prefix_of` l -> pathlib.node_at m q = Some Dir.

(** No regular file stands on the way to [l], or at [l]. *)
Definition no_file_on (m : gmap (list string) node) (l : list string) : Prop :=
  forall q content, q `prefix_of` l -> pathlib.node_at m q <> Some (File content).

(** A computation that removes no directory. *)
Definition keeps_dirs {A} (c : M A) : Prop :=
  forall w w' r, c w = (w', r) ->
    forall key, pathlib.node_at (fs w) key = Some Dir ->
                pathlib.node_at (fs w') key = Some Dir.

(* ===================================================================== *)
(** ** Notions for further properties of the program *)
(* ===================================================================== *)

(** The URL of the metadata of a file. *)
Definition metadata_url (fid : string) : string :=
  "https://datadryad.org//api/v2/files/" +:+ fid.

(** The URL [main] downloads from, given the [href] of the metadata. *)
Definition download_url (e : env) (href : json) : string :=
  "https://datadryad.org/" +:+ py_str e href.

(** A status for which [raise_for_status] raises. *)
Definition is_error_status (status : Z) : bool :=
  ((400 <=? status) && (status <? 600))%Z.

(** The progress [download] reports: the length of each chunk that is not
    empty. *)
Fixpoint chunk_lengths (chunks : list (list byte)) : list nat :=
  match chunks with
  | [] => []
  | [] :: r => chunk_lengths r
  | chunk :: r => List.length chunk :: chunk_lengths r
  end.

(** The metadata have all that [main] reads before it downloads. *)
Definition complete_metadata (meta : json) (filename : string)
           (expected size href : json) : Prop :=
  subscript meta "path" = Ok (JStr filename)
  /\ subscript meta "digest" = Ok expected
  /\ subscript meta "size" = Ok size
  /\ exists links stash,
       subscript meta "_links" = Ok links
       /\ subscript links "stash:download" = Ok stash
       /\ subscript stash "href" = Ok href.

(** Two file systems with the same directories. *)
Definition same_dirs (m m' : gmap (list string) node) : Prop :=
  forall key, pathlib.node_at m key = Some Dir
              <-> pathlib.node_at m' key = Some Dir.

(** Further sample runs. *)
Module Cases.

(** The metadata of [Sample], with any value as digest. *)
Definition metadata (digest : json) : json :=
  JObj [ ("path", JStr "f.bin");
         ("digest", digest);
         ("size", JNum 3);
         ("_links",
           JObj [("stash:download",
                   JObj [("href", JStr "/api/v2/files/7/download")])]) ].

(** A server like that of [Sample], whose download ends as [ok] tells. *)
Definition server (digest : json) (ok : bool) (n : nat) (url : string)
  : http_result :=
  if String.eqb url "https://datadryad.org//api/v2/files/7" then
    Responded (MkResponse 200 (Some (metadata digest)) [] true)
  else if String.eqb url "https://datadryad.org//api/v2/files/7/download" then
    Responded (MkResponse 200 None
                 [list_byte_of_string "a"; []; list_byte_of_string "bc"] ok)
  else ConnectionFailed.

Definition environment (digest : json) (ok utf8 : bool) : env :=
  MkEnv (server digest ok) ["home"; "u"]
        (fun _ => None) (fun _ => "<object>")
        (fun _ => utf8) (fun _ => true).

(** The digest is [null]. *)
Definition null_digest : env := environment JNull true true.
(** The download breaks off after its chunks. *)
Definition broken_stream : env :=
  environment (JStr Sample.sha256_abc) false true.
(** Standard output has ASCII only. *)
Definition ascii_stdout : env :=
  environment (JStr Sample.sha256_abc) true false.

(** A world in which the target of the sample run exists already. *)
Definition old_file_world : world :=
  MkWorld (<[["home"; "u"; "data"; "f.bin"] := File (list_byte_of_string "old")]>
             (<[["home"; "u"; "data"] := Dir]>
                (<[["home"; "u"] := Dir]> (<[["home"] := Dir]> ∅))))
          [] [] [].

(** A world in which a regular file stands where the output directory of
    the sample run is to be. *)
Definition file_in_the_way : world :=
  MkWorld (<[["home"; "u"; "data"] := File []]>
             (<[["home"; "u"] := Dir]> (<[["home"] := Dir]> ∅)))
          [] [] [].

End Cases.

(* ===================================================================== *)
(** ** Facts about strings *)
(* ===================================================================== *)

Section StringFacts.

Lemma append_nil_l (s : string) : "" +:+ s = s.
Proof. reflexivity. Qed.

Lemma append_cons (c : ascii) (s t : string) :
  String c s +:+ t = String c (s +:+ t).
Proof. reflexivity. Qed.

Lemma append_nil_r (s : string) : s +:+ "" = s.
Proof.
  induction s as [|c s IH]; [reflexivity |].
  now rewrite append_cons, IH.
Qed.

Lemma append_assoc (a b c : string) : (a +:+ b) +:+ c = a +:+ b +:+ c.
Proof.
  induction a as [|x a IH]; [reflexivity |].
  now rewrite !append_cons, IH.
Qed.

Lemma length_append (a b : string) :
  String.length (a +:+ b) = String.length a + String.length b.
Proof.
  induction a as [|x a IH]; [reflexivity |].
  rewrite append_cons. simpl. now rewrite IH.
Qed.

Lemma strip_prefix_append (p s : string) : Str.strip_prefix p (p +:+ s) = Some s.
Proof.
  induction p as [|a p IH]; [reflexivity |].
  rewrite append_cons. simpl. now rewrite Ascii.eqb_refl.
Qed.

Lemma strip_prefix_Some (p s r : string) :
  Str.strip_prefix p s = Some r -> s = p +:+ r.
Proof.
  revert s. induction p as [|a p IH]; intros s H; simpl in *.
  - now injection H as ->.
  - destruct s as [|b s]; [discriminate |].
    destruct (Ascii.eqb_spec a b) as [->|]; [| discriminate].
    rewrite append_cons. now rewrite (IH _ H).
Qed.

Lemma append_eq_prefix (a b c d : string) :
  a +:+ b = c +:+ d -> String.length c <= String.length a ->
  exists u, a = c +:+ u.
Proof.
  revert a. induction c as [|x c IH]; intros a H L.
  - now exists a.
  - destruct a as [|y a]; [simpl in L; lia |].
    rewrite (append_cons x c), (append_cons y a) in H.
    injection H as -> H. simpl in L.
    destruct (IH a H ltac:(lia)) as [u ->].
    now exists u.
Qed.

Lemma join_app (l1 l2 : list string) :
  Str.join (l1 ++ l2) = Str.join l1 +:+ Str.join l2.
Proof.
  induction l1 as [|c l1 IH]; [reflexivity |].
  cbn [Str.join fold_right app]. fold (Str.join (l1 ++ l2)).
  fold (Str.join l1). now rewrite IH, append_assoc.
Qed.

End StringFacts.

(* ===================================================================== *)
(** ** Characters *)
(* ===================================================================== *)

Section Characters.

Lemma two_true (a b : ascii) :
  Str.two a b = true -> Str.lead a = 2 /\ Str.cont b = true.
Proof.
  unfold Str.two. intros H. apply andb_true_iff in H as [L C].
  now apply Nat.eqb_eq in L.
Qed.

Lemma three_true (a b c : ascii) :
  Str.three a b c = true ->
  Str.lead a = 3 /\ Str.cont b = true /\ Str.cont c = true.
Proof.
  unfold Str.three. intros H.
  apply andb_true_iff in H as [H _]. apply andb_true_iff in H as [H C].
  apply andb_true_iff in H as [L B]. now apply Nat.eqb_eq in L.
Qed.

Lemma four_true (a b c d : ascii) :
  Str.four a b c d = true ->
  Str.lead a = 4 /\ Str.cont b = true /\ Str.cont c = true
  /\ Str.cont d = true.
Proof.
  unfold Str.four. intros H.
  apply andb_true_iff in H as [H _]. apply andb_true_iff in H as [H D].
  apply andb_true_iff in H as [H C]. apply andb_true_iff in H as [L B].
  now apply Nat.eqb_eq in L.
Qed.

Lemma lead_not_two (a b : ascii) : Str.lead a <> 2 -> Str.two a b = false.
Proof.
  intros N. unfold Str.two. apply Nat.eqb_neq in N. now rewrite N.
Qed.

Lemma lead_not_three (a b c : ascii) :
  Str.lead a <> 3 -> Str.three a b c = false.
Proof.
  intros N. unfold Str.three. apply Nat.eqb_neq in N. now rewrite N.
Qed.

Lemma lead_not_four (a b c d : ascii) :
  Str.lead a <> 4 -> Str.four a b c d = false.
Proof.
  intros N. unfold Str.four. apply Nat.eqb_neq in N. now rewrite N.
Qed.

Lemma chars_eq (a : ascii) (r : string) :
  Str.chars (String a r)
  = match r with
    | String b r1 =>
        if Str.two a b then String a (String b "") :: Str.chars r1
        else
          match r1 with
          | String c r2 =>
              if Str.three a b c then
                String a (String b (String c "")) :: Str.chars r2
              else
                match r2 with
                | String d r3 =>
                    if Str.four a b c d then
                      String a (String b (String c (String d "")))
                        :: Str.chars r3
                    else String a "" :: Str.chars r
                | EmptyString => String a "" :: Str.chars r
                end
          | EmptyString => String a "" :: Str.chars r
          end
    | EmptyString => String a "" :: Str.chars ""
    end.
Proof. destruct r; reflexivity. Qed.

(** One step of [chars]. *)
Lemma chars_step (a : ascii) (r : string) :
  exists c t,
    String a r = c +:+ t /\ c <> ""
    /\ Str.chars (String a r) = c :: Str.chars t
    /\ String.length t <= String.length r.
Proof.
  rewrite chars_eq. destruct r as [|b [|c [|d r]]];
    repeat match goal with
           | |- context [if ?x then _ else _] => destruct x
           end;
    match goal with
    | |- exists c t, _ /\ _ /\ ?c0 :: Str.chars ?t0 = _ /\ _ => exists c0, t0
    end;
    (split; [| split; [| split; [reflexivity |]]]);
    first [reflexivity | discriminate | simpl; lia].
Qed.

Lemma join_chars (s : string) : Str.join (Str.chars s) = s.
Proof.
  remember (String.length s) as n eqn:L. revert s L.
  induction n as [n IH] using lt_wf_ind. intros [|a r] L; [reflexivity |].
  destruct (chars_step a r) as (c & t & E & _ & -> & Lt).
  cbn [Str.join fold_right]. fold (Str.join (Str.chars t)).
  rewrite (IH (String.length t)) with (s := t); [now rewrite E | | reflexivity].
  subst n. simpl. lia.
Qed.

(** A well-formed character is read the same whatever follows it. *)
Lemma chars_proper (c t : string) :
  Str.ord c <> None -> Str.chars (c +:+ t) = c :: Str.chars t.
Proof.
  destruct c as [|a [|b [|c [|d [|x c']]]]]; cbn [Str.ord];
    try congruence.
  - destruct (Nat.eqb_spec (Str.lead a) 1) as [L|]; [intros _ | congruence].
    rewrite append_cons, append_nil_l.
    rewrite chars_eq. destruct t as [|b [|c [|d t]]];
      rewrite ?lead_not_two, ?lead_not_three, ?lead_not_four by congruence;
      reflexivity.
  - destruct (Str.two a b) eqn:T; [intros _ | congruence].
    rewrite !append_cons, append_nil_l, chars_eq. now rewrite T.
  - destruct (Str.three a b c) eqn:T; [intros _ | congruence].
    rewrite !append_cons, append_nil_l, chars_eq.
    apply three_true in T as T'. destruct T' as [L _].
    rewrite lead_not_two by congruence. now rewrite T.
  - destruct (Str.four a b c d) eqn:T; [intros _ | congruence].
    rewrite !append_cons, append_nil_l, chars_eq.
    apply four_true in T as T'. destruct T' as [L _].
    rewrite lead_not_two, lead_not_three by congruence. now rewrite T.
Qed.

Lemma chars_join_proper (l : list string) (t : string) :
  Forall (fun c => Str.ord c <> None) l ->
  Str.chars (Str.join l +:+ t) = l ++ Str.chars t.
Proof.
  induction 1 as [|c l P _ IH]; [reflexivity |].
  cbn [Str.join fold_right]. fold (Str.join l).
  rewrite append_assoc, chars_proper by assumption.
  now rewrite IH.
Qed.

Ltac split_ifs :=
  repeat match goal with
         | |- context [if ?x then _ else _] => destruct x eqn:?
         | H : context [if ?x then _ else _] |- _ => destruct x eqn:?
         end.

(** When [c] is the first character of [c +:+ t], what follows it are the
    characters of [t], and [c] is the first character still when [t] is
    cut short. *)
Lemma chars_head (c t : string) (Z : list string) :
  Str.chars (c +:+ t) = c :: Z ->
  Z = Str.chars t
  /\ forall t0 u, t = t0 +:+ u -> Str.chars (c +:+ t0) = c :: Str.chars t0.
Proof.
  destruct c as [|a [|b [|c [|d [|x c']]]]];
    rewrite ?append_cons, ?append_nil_l.
  - destruct t as [|a t]; [discriminate |]. rewrite chars_eq.
    destruct t as [|b [|c [|d t]]]; intros H; split_ifs; discriminate.
  - rewrite chars_eq. intros H. split.
    + destruct t as [|b [|c [|d t]]]; split_ifs; congruence.
    + intros t0 u ->. rewrite append_cons, append_nil_l, chars_eq.
      destruct t0 as [|b [|c [|d t0]]];
        rewrite ?append_cons, ?append_nil_l in H; [reflexivity | | |];
        destruct (Str.two a b) eqn:T2; try discriminate H;
        try reflexivity;
        try (destruct (Str.three a b c) eqn:T3; try discriminate H;
             try reflexivity);
        try (destruct (Str.four a b c d) eqn:T4; try discriminate H;
             try reflexivity);
        destruct u as [|y [|z u]]; split_ifs; try discriminate; reflexivity.
  - rewrite chars_eq. intros H.
    assert (T : Str.two a b = true).
    { destruct (Str.two a b); [reflexivity |]. exfalso.
      destruct t as [|c [|d t]]; split_ifs; discriminate. }
    rewrite T in H. split; [congruence |].
    intros t0 u _. rewrite !append_cons, append_nil_l, chars_eq.
    now rewrite T.
  - rewrite chars_eq. intros H.
    assert (T2 : Str.two a b = false).
    { destruct (Str.two a b) eqn:T; [| reflexivity]. discriminate H. }
    rewrite T2 in H.
    assert (T : Str.three a b c = true).
    { destruct (Str.three a b c) eqn:T; [reflexivity |]. exfalso.
      destruct t as [|d t]; split_ifs; discriminate. }
    rewrite T in H. split; [congruence |].
    intros t0 u _. rewrite !append_cons, append_nil_l, chars_eq.
    now rewrite T2, T.
  - rewrite chars_eq. intros H.
    assert (T2 : Str.two a b = false).
    { destruct (Str.two a b) eqn:T; [| reflexivity]. discriminate H. }
    rewrite T2 in H.
    assert (T3 : Str.three a b c = false).
    { destruct (Str.three a b c) eqn:T; [| reflexivity]. discriminate H. }
    rewrite T3 in H.
    assert (T : Str.four a b c d = true).
    { destruct (Str.four a b c d) eqn:T; [reflexivity |]. discriminate H. }
    rewrite T in H. split; [congruence |].
    intros t0 u _. rewrite !append_cons, append_nil_l, chars_eq.
    now rewrite T2, T3, T.
  - rewrite chars_eq. intros H. exfalso. split_ifs; discriminate.
Qed.

(** The characters of a text, cut between two of them, are the
    characters of the two parts. *)
Lemma chars_app_inv (l1 l2 : list string) (y : string) :
  Str.chars (Str.join l1 +:+ y) = l1 ++ l2 ->
  Str.chars (Str.join l1) = l1 /\ Str.chars y = l2.
Proof.
  revert l2. induction l1 as [|c l1 IH]; intros l2 H.
  - split; [reflexivity | exact H].
  - cbn [Str.join fold_right] in *. fold (Str.join l1) in *.
    rewrite append_assoc in H. cbn [app] in H.
    destruct (chars_head _ _ _ H) as [E T].
    destruct (IH l2 (eq_sym E)) as [E1 E2].
    split; [| exact E2].
    rewrite (T (Str.join l1) y eq_refl). now rewrite E1.
Qed.

Lemma chars_segments (s : string) (l1 l2 : list string) :
  Str.chars s = l1 ++ l2 ->
  s = Str.join l1 +:+ Str.join l2
  /\ Str.chars (Str.join l1) = l1 /\ Str.chars (Str.join l2) = l2.
Proof.
  intros H.
  assert (E : s = Str.join l1 +:+ Str.join l2)
    by now rewrite <- join_app, <- H, join_chars.
  split; [exact E |]. apply chars_app_inv. now rewrite <- E.
Qed.

Lemma chars_nil (s : string) : Str.chars s = [] -> s = "".
Proof. intros H. now rewrite <- (join_chars s), H. Qed.

End Characters.

Section Encoding.

Lemma ascii_of_code (a : ascii) : ascii_of_N (Str.code a) = a.
Proof. apply ascii_N_embedding. Qed.

Lemma lead_bounds (a : ascii) :
  match Str.lead a with
  | 1 => (Str.code a < 128)%N
  | 2 => (194 <= Str.code a < 224)%N
  | 3 => (224 <= Str.code a < 240)%N
  | 4 => (240 <= Str.code a < 245)%N
  | _ => True
  end.
Proof.
  unfold Str.lead.
  repeat match goal with
         | |- context [(?x <? ?y)%N] => destruct (N.ltb_spec x y)
         end; lia.
Qed.

Lemma cont_bounds (b : ascii) :
  Str.cont b = true -> (128 <= Str.code b < 192)%N.
Proof.
  unfold Str.cont. rewrite andb_true_iff, N.leb_le, N.ltb_lt. tauto.
Qed.

(** [chr] gives back a character from its code point. *)
Lemma chr_ord (c : string) (m : N) : Str.ord c = Some m -> Str.chr m = c.
Proof.
  destruct c as [|a [|b [|c [|d [|x c']]]]]; cbn [Str.ord]; try discriminate.
  - destruct (Nat.eqb_spec (Str.lead a) 1) as [L|]; [| discriminate].
    intros [= <-]. pose proof (lead_bounds a) as B. rewrite L in B.
    unfold Str.chr. destruct (N.ltb_spec (Str.code a) 128); [| lia].
    now rewrite ascii_of_code.
  - destruct (Str.two a b) eqn:T; [| discriminate]. intros [= <-].
    apply two_true in T as [L C]. apply cont_bounds in C.
    pose proof (lead_bounds a) as B. rewrite L in B.
    unfold Str.chr, Str.point2.
    set (A := Str.code a) in *. set (B' := Str.code b) in *.
    assert (Q : (((A - 192) * 64 + (B' - 128)) / 64 = A - 192)%N).
    { symmetry. apply (N.div_unique _ 64 _ (B' - 128)); lia. }
    assert (R : (((A - 192) * 64 + (B' - 128)) mod 64 = B' - 128)%N).
    { symmetry. apply (N.mod_unique _ 64 (A - 192)); lia. }
    destruct (N.ltb_spec ((A - 192) * 64 + (B' - 128)) 128); [lia |].
    destruct (N.ltb_spec ((A - 192) * 64 + (B' - 128)) 2048); [| lia].
    rewrite Q, R.
    replace (192 + (A - 192))%N with A by lia.
    replace (128 + (B' - 128))%N with B' by lia.
    unfold A, B'. now rewrite !ascii_of_code.
  - destruct (Str.three a b c) eqn:T; [| discriminate]. intros [= <-].
    pose proof T as T'. apply three_true in T' as (L & C1 & C2).
    apply cont_bounds in C1, C2.
    pose proof (lead_bounds a) as B. rewrite L in B.
    unfold Str.three in T. apply andb_true_iff in T as [_ T].
    apply andb_true_iff in T as [T _]. apply N.leb_le in T.
    unfold Str.chr. unfold Str.point3 in *.
    set (A := Str.code a) in *. set (B' := Str.code b) in *.
    set (C' := Str.code c) in *.
    set (m := ((A - 224) * 4096 + (B' - 128) * 64 + (C' - 128))%N) in *.
    assert (Q1 : (m / 64 = (A - 224) * 64 + (B' - 128))%N).
    { symmetry. apply (N.div_unique _ 64 _ (C' - 128)); unfold m; lia. }
    assert (R1 : (m mod 64 = C' - 128)%N).
    { symmetry. apply (N.mod_unique _ 64 ((A - 224) * 64 + (B' - 128)));
        unfold m; lia. }
    assert (Q2 : (m / 4096 = A - 224)%N).
    { symmetry.
      apply (N.div_unique _ 4096 _ ((B' - 128) * 64 + (C' - 128)));
        unfold m; lia. }
    assert (R2 : ((m / 64) mod 64 = B' - 128)%N).
    { rewrite Q1. symmetry. apply (N.mod_unique _ 64 (A - 224)); lia. }
    destruct (N.ltb_spec m 128); [lia |].
    destruct (N.ltb_spec m 2048); [lia |].
    destruct (N.ltb_spec m 65536); [| unfold m in *; lia].
    rewrite Q2, R2, R1.
    replace (224 + (A - 224))%N with A by lia.
    replace (128 + (B' - 128))%N with B' by lia.
    replace (128 + (C' - 128))%N with C' by lia.
    unfold A, B', C'. now rewrite !ascii_of_code.
  - destruct (Str.four a b c d) eqn:T; [| discriminate]. intros [= <-].
    pose proof T as T'. apply four_true in T' as (L & C1 & C2 & C3).
    apply cont_bounds in C1, C2, C3.
    pose proof (lead_bounds a) as B. rewrite L in B.
    unfold Str.four in T. apply andb_true_iff in T as [_ T].
    apply andb_true_iff in T as [T _]. apply N.leb_le in T.
    unfold Str.chr. unfold Str.point4 in *.
    set (A := Str.code a) in *. set (B' := Str.code b) in *.
    set (C' := Str.code c) in *. set (D' := Str.code d) in *.
    set (m := ((A - 240) * 262144 + (B' - 128) * 4096 + (C' - 128) * 64
               + (D' - 128))%N) in *.
    assert (Q1 : (m / 64
                  = (A - 240) * 4096 + (B' - 128) * 64 + (C' - 128))%N).
    { symmetry. apply (N.div_unique _ 64 _ (D' - 128)); unfold m; lia. }
    assert (R1 : (m mod 64 = D' - 128)%N).
    { symmetry.
      apply (N.mod_unique _ 64
               ((A - 240) * 4096 + (B' - 128) * 64 + (C' - 128)));
        unfold m; lia. }
    assert (Q2 : (m / 4096 = (A - 240) * 64 + (B' - 128))%N).
    { symmetry.
      apply (N.div_unique _ 4096 _ ((C' - 128) * 64 + (D' - 128)));
        unfold m; lia. }
    assert (Q3 : (m / 262144 = A - 240)%N).
    { symmetry.
      apply (N.div_unique _ 262144 _
               ((B' - 128) * 4096 + (C' - 128) * 64 + (D' - 128)));
        unfold m; lia. }
    assert (R2 : ((m / 64) mod 64 = C' - 128)%N).
    { rewrite Q1. symmetry.
      apply (N.mod_unique _ 64 ((A - 240) * 64 + (B' - 128))); lia. }
    assert (R3 : ((m / 4096) mod 64 = B' - 128)%N).
    { rewrite Q2. symmetry. apply (N.mod_unique _ 64 (A - 240)); lia. }
    destruct (N.ltb_spec m 128); [lia |].
    destruct (N.ltb_spec m 2048); [lia |].
    destruct (N.ltb_spec m 65536); [lia |].
    rewrite Q3, R3, R2, R1.
    replace (240 + (A - 240))%N with A by lia.
    replace (128 + (B' - 128))%N with B' by lia.
    replace (128 + (C' - 128))%N with C' by lia.
    replace (128 + (D' - 128))%N with D' by lia.
    unfold A, B', C', D'. now rewrite !ascii_of_code.
Qed.

End Encoding.

Section Classes.

Lemma whitespace_points (n : N) :
  Str.whitespace n = true ->
  In n [9; 10; 11; 12; 13; 28; 29; 30; 31; 32; 133; 160; 5760; 8192; 8193;
        8194; 8195; 8196; 8197; 8198; 8199; 8200; 8201; 8202; 8232; 8233;
        8239; 8287; 12288]%N.
Proof.
  unfold Str.whitespace.
  rewrite !orb_true_iff, !andb_true_iff, !N.leb_le, !N.eqb_eq.
  cbn [In]. lia.
Qed.

Lemma decimal_not_whitespace (n : N) :
  Str.decimal n = true -> Str.whitespace n = false.
Proof.
  intros D. destruct (Str.whitespace n) eqn:W; [exfalso | reflexivity].
  apply whitespace_points in W.
  assert (A : forallb (fun k => negb (Str.decimal k))
                [9; 10; 11; 12; 13; 28; 29; 30; 31; 32; 133; 160; 5760; 8192;
                 8193; 8194; 8195; 8196; 8197; 8198; 8199; 8200; 8201; 8202;
                 8232; 8233; 8239; 8287; 12288]%N = true)
    by (vm_compute; reflexivity).
  rewrite forallb_forall in A. specialize (A n W).
  rewrite D in A. discriminate A.
Qed.

Lemma digit_not_space (c : string) :
  Str.isdigit c = true -> Str.isspace c = false.
Proof.
  unfold Str.isdigit, Str.isspace. destruct (Str.ord c); [| discriminate].
  apply decimal_not_whitespace.
Qed.

Lemma digit_proper (c : string) : Str.isdigit c = true -> Str.ord c <> None.
Proof. unfold Str.isdigit. now destruct (Str.ord c). Qed.

Lemma space_proper (c : string) : Str.isspace c = true -> Str.ord c <> None.
Proof. unfold Str.isspace. now destruct (Str.ord c). Qed.

Lemma digit_nonempty (c : string) : Str.isdigit c = true -> c <> "".
Proof. now intros H ->. Qed.

(** A slash is a character of its own: no byte of a digit is one. *)
Lemma digit_no_slash (c x y : string) :
  Str.isdigit c = true -> c <> x +:+ String "/" y.
Proof.
  unfold Str.isdigit. intros D E.
  destruct c as [|a [|b [|c [|d [|z c']]]]]; cbn [Str.ord] in D;
    try discriminate D.
  - destruct (Nat.eqb (Str.lead a) 1); [| discriminate D].
    destruct x as [|x0 x]; rewrite ?append_cons, ?append_nil_l in E.
    + injection E as -> _. vm_compute in D. discriminate D.
    + injection E as _ E. destruct x; discriminate E.
  - destruct (Str.two a b) eqn:T; [| discriminate D].
    apply two_true in T as [L C].
    destruct x as [|x0 [|x1 x]]; rewrite ?append_cons, ?append_nil_l in E.
    + injection E as -> _. vm_compute in L. discriminate L.
    + injection E as _ -> _. vm_compute in C. discriminate C.
    + injection E as _ _ E. destruct x; discriminate E.
  - destruct (Str.three a b c) eqn:T; [| discriminate D].
    apply three_true in T as (L & C1 & C2).
    destruct x as [|x0 [|x1 [|x2 x]]];
      rewrite ?append_cons, ?append_nil_l in E.
    + injection E as -> _. vm_compute in L. discriminate L.
    + injection E as _ -> _. vm_compute in C1. discriminate C1.
    + injection E as _ _ -> _. vm_compute in C2. discriminate C2.
    + injection E as _ _ _ E. destruct x; discriminate E.
  - destruct (Str.four a b c d) eqn:T; [| discriminate D].
    apply four_true in T as (L & C1 & C2 & C3).
    destruct x as [|x0 [|x1 [|x2 [|x3 x]]]];
      rewrite ?append_cons, ?append_nil_l in E.
    + injection E as -> _. vm_compute in L. discriminate L.
    + injection E as _ -> _. vm_compute in C1. discriminate C1.
    + injection E as _ _ -> _. vm_compute in C2. discriminate C2.
    + injection E as _ _ _ -> _. vm_compute in C3. discriminate C3.
    + injection E as _ _ _ _ E. destruct x; discriminate E.
Qed.

Lemma append_inv_head (p a b : string) : p +:+ a = p +:+ b -> a = b.
Proof.
  induction p as [|x p IH]; [trivial |].
  rewrite !(append_cons x p). intros [= H]. now apply IH.
Qed.

Lemma join_no_slash (l : list string) (pre post : string) :
  forallb Str.isdigit l = true -> Str.join l <> pre +:+ String "/" post.
Proof.
  revert pre. induction l as [|c l IH]; intros pre A E.
  - destruct pre; discriminate E.
  - cbn [forallb] in A. apply andb_true_iff in A as [D A].
    cbn [Str.join fold_right] in E. fold (Str.join l) in E.
    destruct (le_lt_dec (String.length c) (String.length pre)) as [L|L].
    + destruct (append_eq_prefix _ _ _ _ (eq_sym E) L) as [u ->].
      rewrite append_assoc in E. apply append_inv_head in E.
      exact (IH u A E).
    + destruct (append_eq_prefix _ _ _ _ E) as [u ->]; [lia |].
      rewrite append_assoc in E. apply append_inv_head in E.
      rewrite length_append in L.
      destruct u as [|x u]; [simpl in L; lia |].
      rewrite append_cons in E. injection E as -> _.
      now apply (digit_no_slash _ pre u D).
Qed.

Lemma digits_no_slash (d : string) :
  Str.all_chars Str.isdigit d = true -> ~ Str.contains "/" d.
Proof.
  unfold Str.all_chars. intros A (pre & post & E).
  apply (join_no_slash (Str.chars d) pre post A).
  now rewrite join_chars.
Qed.

End Classes.

Section Digits.

Lemma digits_chars_all (l : list string) :
  forallb Str.isdigit (Str.digits_chars l) = true.
Proof.
  induction l as [|c l IH]; [reflexivity |]. cbn [Str.digits_chars].
  destruct (Str.isdigit c) eqn:E; [| reflexivity].
  cbn [forallb]. now rewrite E.
Qed.

Lemma forallb_proper (P : string -> bool) (l : list string) :
  (forall c, P c = true -> Str.ord c <> None) ->
  forallb P l = true -> Forall (fun c => Str.ord c <> None) l.
Proof.
  intros HP A. apply Forall_forall. intros c Hc. apply HP.
  rewrite forallb_forall in A. apply A. now apply list_elem_of_In.
Qed.

(** A text made of digits or of white space is read back as it was
    made. *)
Lemma chars_join_digits (l : list string) (t : string) :
  forallb Str.isdigit l = true ->
  Str.chars (Str.join l +:+ t) = l ++ Str.chars t.
Proof.
  intros A. apply chars_join_proper.
  exact (forallb_proper _ _ digit_proper A).
Qed.

Lemma take_digits_all (s : string) :
  Str.all_chars Str.isdigit (Str.take_digits s) = true.
Proof.
  unfold Str.all_chars, Str.take_digits.
  rewrite <- (append_nil_r (Str.join _)).
  rewrite chars_join_digits by apply digits_chars_all.
  cbn [Str.chars]. rewrite app_nil_r. apply digits_chars_all.
Qed.

Lemma digits_chars_app (l post : list string) :
  forallb Str.isdigit l = true ->
  (forall c, head post = Some c -> Str.isdigit c = false) ->
  Str.digits_chars (l ++ post) = l.
Proof.
  intros A P. induction l as [|c l IH].
  - destruct post as [|c post]; [reflexivity |]. cbn.
    now rewrite (P c eq_refl).
  - cbn [forallb] in A. apply andb_true_iff in A as [D A].
    cbn [app Str.digits_chars]. rewrite D. now rewrite IH.
Qed.

Lemma take_digits_append (ds post : string) :
  Str.all_chars Str.isdigit ds = true ->
  (forall c, Str.first_char post = Some c -> Str.isdigit c = false) ->
  Str.take_digits (ds +:+ post) = ds.
Proof.
  unfold Str.all_chars, Str.first_char, Str.take_digits. intros A P.
  rewrite <- (join_chars ds) at 1.
  rewrite chars_join_digits by assumption.
  rewrite digits_chars_app by assumption. apply join_chars.
Qed.

Lemma take_digits_head (c q : string) :
  Str.isdigit c = true -> Str.take_digits (c +:+ q) <> "".
Proof.
  intros D. unfold Str.take_digits.
  rewrite chars_proper by now apply digit_proper.
  cbn [Str.digits_chars]. rewrite D.
  cbn [Str.join fold_right].
  destruct c as [|a c]; [discriminate D | discriminate].
Qed.

Lemma take_digits_nonempty (s : string) :
  Str.take_digits s <> "" ->
  exists c q, Str.isdigit c = true /\ s = c +:+ q.
Proof.
  unfold Str.take_digits. intros N.
  destruct (Str.chars s) as [|c l] eqn:E; [now destruct N |].
  cbn [Str.digits_chars] in N.
  destruct (Str.isdigit c) eqn:D; [| now destruct N].
  exists c, (Str.join l). split; [exact D |].
  now rewrite <- (join_chars s), E.
Qed.

End Digits.

(* ===================================================================== *)
(** ** The identifier extractor *)
(* ===================================================================== *)

Section Extractor.

Lemma match_here_Some (s d : string) :
  match_here s = Some d ->
  exists c q, Str.isdigit c = true /\ s = "/files/" +:+ c +:+ q
              /\ d = Str.take_digits (c +:+ q).
Proof.
  unfold match_here. intros H.
  destruct (Str.strip_prefix "/files/" s) as [r|] eqn:E; [| discriminate].
  apply strip_prefix_Some in E.
  destruct (Str.take_digits r) as [|x d'] eqn:T; [discriminate |].
  destruct (take_digits_nonempty r) as (c & q & Hc & ->); [congruence |].
  exists c, q. split; [assumption |]. split; [assumption | congruence].
Qed.

Lemma match_here_None (s c q : string) :
  match_here s = None -> Str.isdigit c = true ->
  s <> "/files/" +:+ c +:+ q.
Proof.
  intros H Hc ->. unfold match_here in H.
  rewrite strip_prefix_append in H.
  pose proof (take_digits_head c q Hc) as N.
  destruct (Str.take_digits (c +:+ q)); [congruence | discriminate].
Qed.

Lemma match_here_digits (s d : string) :
  match_here s = Some d ->
  Str.all_chars Str.isdigit d = true /\ d <> "".
Proof.
  intros H. destruct (match_here_Some _ _ H) as (c & q & Hc & _ & ->).
  split; [apply take_digits_all | now apply take_digits_head].
Qed.

Lemma re_search_digits (s d : string) :
  re_search s = Some d ->
  Str.all_chars Str.isdigit d = true /\ d <> "".
Proof.
  induction s as [|x s IH]; cbn [re_search].
  - discriminate.
  - destruct (match_here (String x s)) eqn:E.
    + intros [= <-]. eapply match_here_digits; eassumption.
    + exact IH.
Qed.

Lemma re_search_None (s : string) :
  re_search s = None <-> ~ has_files_pattern s.
Proof.
  induction s as [|x s IH].
  - simpl. split.
    + intros _ (pre & d & post & _ & H).
      destruct pre; discriminate.
    + intros _. reflexivity.
  - cbn [re_search]. destruct (match_here (String x s)) as [d|] eqn:E.
    + split; [discriminate |]. intros N. exfalso. apply N.
      destruct (match_here_Some _ _ E) as (c & q & Hc & Hs & _).
      exists "", c, q. split; [assumption | exact Hs].
    + rewrite IH. split.
      * intros N (pre & d & post & Hd & H). destruct pre as [|y pre].
        -- now apply (match_here_None _ d post E Hd).
        -- rewrite (append_cons y pre) in H. injection H as _ H. apply N.
           now exists pre, d, post.
      * intros N (pre & d & post & Hd & H). apply N.
        exists (String x pre), d, post. split; [assumption |].
        rewrite (append_cons x pre). now rewrite H.
Qed.

(** The leftmost match decides: when [/files/] followed by the digits
    [ds] starts at [pre], no digit follows [ds] and no match starts
    earlier, the search captures [ds]. *)
Lemma re_search_first (pre ds post : string) :
  Str.all_chars Str.isdigit ds = true -> ds <> "" ->
  (forall c, Str.first_char post = Some c -> Str.isdigit c = false) ->
  (forall p d q, Str.isdigit d = true ->
     pre +:+ "/files/" +:+ ds +:+ post = p +:+ "/files/" +:+ d +:+ q ->
     String.length pre <= String.length p) ->
  re_search (pre +:+ "/files/" +:+ ds +:+ post) = Some ds.
Proof.
  intros Hds Hne Hpost. induction pre as [|x pre IH]; intros Hfirst.
  - assert (M : match_here ("" +:+ "/files/" +:+ ds +:+ post) = Some ds).
    { unfold match_here. rewrite append_nil_l.
      rewrite strip_prefix_append, take_digits_append by assumption.
      destruct ds; [congruence | reflexivity]. }
    destruct ("" +:+ "/files/" +:+ ds +:+ post) eqn:E;
      cbn [re_search]; now rewrite M.
  - rewrite (append_cons x pre). cbn [re_search].
    destruct (match_here (String x (pre +:+ "/files/" +:+ ds +:+ post)))
      as [d|] eqn:E.
    + exfalso. destruct (match_here_Some _ _ E) as (c & q & Hc & Hs & _).
      specialize (Hfirst "" c q Hc Hs). simpl in Hfirst. lia.
    + apply IH. intros p d q Hd H.
      assert (L : String.length (String x pre) <= String.length (String x p)).
      { apply (Hfirst (String x p) d q Hd).
        rewrite (append_cons x p), (append_cons x pre). now rewrite H. }
      simpl in L. lia.
Qed.

(** [no_match_before] tells that a match is the leftmost one. *)
Lemma leftmost_by_no_match (n : nat) (s : string) :
  no_match_before n s = true ->
  forall p d q, Str.isdigit d = true ->
    s = p +:+ "/files/" +:+ d +:+ q -> n <= String.length p.
Proof.
  revert s. induction n as [|n IH]; intros s H p d q Hd E; [lia |].
  destruct p as [|x p].
  - exfalso. rewrite append_nil_l in E.
    assert (M : match_here s <> None).
    { intros M. now apply (match_here_None s d q M Hd). }
    subst s. cbn [no_match_before append] in H.
    change (String "/" ("files/" +:+ d +:+ q)) with ("/files/" +:+ d +:+ q) in H.
    destruct (match_here ("/files/" +:+ d +:+ q)); [discriminate | congruence].
  - rewrite (append_cons x p) in E. subst s. cbn [no_match_before] in H.
    destruct (match_here _); [discriminate |].
    simpl. apply le_n_S. exact (IH _ H p d q Hd eq_refl).
Qed.

End Extractor.

Section StripFacts.

Lemma lstrip_chars_spec (l : list string) :
  exists ws, l = ws ++ Str.lstrip_chars l /\ forallb Str.isspace ws = true.
Proof.
  induction l as [|c l (ws & E & A)]; [now exists [] |].
  cbn [Str.lstrip_chars]. destruct (Str.isspace c) eqn:S.
  - exists (c :: ws). cbn [app forallb]. now rewrite <- E, S, A.
  - now exists [].
Qed.

Lemma lstrip_chars_head (l : list string) (c : string) :
  head (Str.lstrip_chars l) = Some c -> Str.isspace c = false.
Proof.
  induction l as [|x l IH]; cbn [Str.lstrip_chars]; [discriminate |].
  destruct (Str.isspace x) eqn:S; [exact IH |].
  now intros [= <-].
Qed.

Lemma lstrip_chars_fixed (l : list string) :
  (forall c, head l = Some c -> Str.isspace c = false) ->
  Str.lstrip_chars l = l.
Proof.
  destruct l as [|x l]; [reflexivity |]. intros H. cbn [Str.lstrip_chars].
  now rewrite (H x eq_refl).
Qed.

Lemma rstrip_chars_spec (l : list string) :
  exists ws, l = Str.rstrip_chars l ++ ws /\ forallb Str.isspace ws = true.
Proof.
  induction l as [|c l (ws & E & A)]; [now exists [] |].
  cbn [Str.rstrip_chars]. destruct (Str.rstrip_chars l) as [|y t] eqn:R.
  - cbn [app] in E. subst ws. destruct (Str.isspace c) eqn:S.
    + exists (c :: l). split; [reflexivity |]. cbn [forallb]. now rewrite S, A.
    + now exists l.
  - exists ws. split; [| assumption]. cbn [app]. f_equal. exact E.
Qed.

Lemma rstrip_chars_last (l : list string) (c : string) :
  last (Str.rstrip_chars l) = Some c -> Str.isspace c = false.
Proof.
  induction l as [|x l IH]; cbn [Str.rstrip_chars]; [discriminate |].
  destruct (Str.rstrip_chars l) as [|y t] eqn:R.
  - destruct (Str.isspace x) eqn:S; [discriminate |].
    now intros [= <-].
  - exact IH.
Qed.

Lemma rstrip_chars_head (l : list string) (c : string) :
  head (Str.rstrip_chars l) = Some c -> head l = Some c.
Proof.
  destruct l as [|x l]; cbn [Str.rstrip_chars]; [discriminate |].
  destruct (Str.rstrip_chars l); [destruct (Str.isspace x) |]; cbn;
    congruence.
Qed.

Lemma rstrip_chars_fixed (l : list string) :
  (forall c, last l = Some c -> Str.isspace c = false) ->
  Str.rstrip_chars l = l.
Proof.
  induction l as [|x l IH]; [reflexivity |]. intros H.
  cbn [Str.rstrip_chars]. destruct l as [|y t].
  - cbn. now rewrite (H x eq_refl).
  - rewrite IH by (intros c Hc; apply H; exact Hc). reflexivity.
Qed.

Lemma last_forallb (P : string -> bool) (l : list string) (c : string) :
  forallb P l = true -> last l = Some c -> P c = true.
Proof.
  intros A L. rewrite forallb_forall in A. apply A.
  apply list_elem_of_In. apply last_Some in L as [l' ->].
  apply elem_of_app. right. apply list_elem_of_singleton. reflexivity.
Qed.

Lemma head_forallb (P : string -> bool) (l : list string) (c : string) :
  forallb P l = true -> head l = Some c -> P c = true.
Proof.
  destruct l as [|x l]; [discriminate |]. cbn.
  intros A [= <-]. now apply andb_true_iff in A as [Px _].
Qed.

(** [strip] removes white space at both ends and nothing else. *)
Lemma strip_spec (s : string) :
  exists l r,
    s = l +:+ Str.strip s +:+ r
    /\ Str.all_chars Str.isspace l = true
    /\ Str.all_chars Str.isspace r = true
    /\ (forall c, Str.first_char (Str.strip s) = Some c -> Str.isspace c = false)
    /\ (forall c, Str.last_char (Str.strip s) = Some c -> Str.isspace c = false).
Proof.
  destruct (lstrip_chars_spec (Str.chars s)) as (ls & El & Al).
  destruct (rstrip_chars_spec (Str.lstrip_chars (Str.chars s)))
    as (rs & Er & Ar).
  set (mid := Str.rstrip_chars (Str.lstrip_chars (Str.chars s))) in *.
  rewrite Er in El.
  destruct (chars_segments _ _ _ El) as (Es & Cl & Cmr).
  destruct (chars_segments _ _ _ Cmr) as (Emr & Cm & Cr).
  exists (Str.join ls), (Str.join rs).
  unfold Str.strip, Str.all_chars, Str.first_char, Str.last_char.
  fold mid. rewrite Cl, Cr, Cm.
  split; [now rewrite Es, Emr |].
  split; [exact Al |]. split; [exact Ar |]. split.
  - intros c Hc. apply (lstrip_chars_head (Str.chars s)).
    now apply rstrip_chars_head.
  - apply rstrip_chars_last.
Qed.

Lemma strip_fixed (s : string) :
  (forall c, Str.first_char s = Some c -> Str.isspace c = false) ->
  (forall c, Str.last_char s = Some c -> Str.isspace c = false) ->
  Str.strip s = s.
Proof.
  unfold Str.first_char, Str.last_char, Str.strip. intros F L.
  rewrite (lstrip_chars_fixed _ F), (rstrip_chars_fixed _ L).
  apply join_chars.
Qed.

Lemma strip_digits (d : string) :
  Str.all_chars Str.isdigit d = true -> Str.strip d = d.
Proof.
  unfold Str.all_chars. intros A.
  apply strip_fixed; intros c Hc; apply digit_not_space.
  - exact (head_forallb _ _ _ A Hc).
  - exact (last_forallb _ _ _ A Hc).
Qed.

End StripFacts.

Section ExtractorClaims.

Lemma pattern_has_slash (s : string) :
  has_files_pattern s -> Str.contains "/" s.
Proof.
  intros (pre & d & post & _ & ->).
  now exists pre, ("files/" +:+ d +:+ post).
Qed.

Lemma digits_no_pattern (d : string) :
  Str.all_chars Str.isdigit d = true -> ~ has_files_pattern d.
Proof.
  intros A P. now apply (digits_no_slash d A), pattern_has_slash.
Qed.

Lemma pattern_in_substring (l m r : string) :
  has_files_pattern m -> has_files_pattern (l +:+ m +:+ r).
Proof.
  intros (pre & c & post & Hc & ->).
  exists (l +:+ pre), c, (post +:+ r). split; [assumption |].
  rewrite !append_assoc. reflexivity.
Qed.

End ExtractorClaims.

Section ExtractorTheorems.

(** C5, as amended: when [/files/12345] occurs in the input with no digit
    right after it and no [/files/<digit>] starts earlier, the extractor
    returns ["12345"]. A digit is a decimal digit of any script. *)
Theorem extract_file_id_leftmost_12345 (pre post : string) :
  (forall c, Str.first_char post = Some c -> Str.isdigit c = false) ->
  (forall p d q, Str.isdigit d = true ->
     pre +:+ "/files/12345" +:+ post = p +:+ "/files/" +:+ d +:+ q ->
     String.length pre <= String.length p) ->
  extract_file_id (pre +:+ "/files/12345" +:+ post) = "12345".
Proof.
  intros Hpost Hfirst. unfold extract_file_id.
  change ("/files/12345" +:+ post) with ("/files/" +:+ "12345" +:+ post) in *.
  rewrite (re_search_first pre "12345" post); try assumption;
    [reflexivity | vm_compute; reflexivity | discriminate].
Qed.

Lemma extract_file_id_leftmost_12345_witness :
  (forall c, Str.first_char "/download" = Some c -> Str.isdigit c = false)
  /\ extract_file_id
       ("https://datadryad.org/api/v2" +:+ "/files/12345" +:+ "/download")
     = "12345".
Proof.
  assert (H : forall c, Str.first_char "/download" = Some c ->
                        Str.isdigit c = false)
    by (intros c [= <-]; vm_compute; reflexivity).
  split; [exact H |].
  apply (extract_file_id_leftmost_12345 "https://datadryad.org/api/v2"
           "/download" H).
  apply (leftmost_by_no_match (String.length "https://datadryad.org/api/v2")).
  vm_compute. reflexivity.
Defined.

(** C5 as stated fails: an input can contain [/files/12345] and yield
    another identifier, because the digits are taken greedily and because
    the leftmost match is the one that counts. *)
Lemma extract_file_id_longer_digits :
  Str.contains "/files/12345" "https://datadryad.org/api/v2/files/123456/download"
  /\ extract_file_id "https://datadryad.org/api/v2/files/123456/download"
     = "123456"
  /\ extract_file_id "https://datadryad.org/api/v2/files/123456/download"
     <> "12345"
  /\ Str.contains "/files/12345" "/files/1/files/12345"
  /\ extract_file_id "/files/1/files/12345" = "1".
Proof.
  split; [| split; [| split; [| split]]].
  - exists "https://datadryad.org/api/v2", "6/download". reflexivity.
  - vm_compute. reflexivity.
  - vm_compute. discriminate.
  - exists "/files/1", "". reflexivity.
  - vm_compute. reflexivity.
Qed.

(** C6: an input without [/files/<digits>] comes back with the white
    space at its two ends removed and nothing else changed; the extractor
    is a total function, so no error is raised. *)
Theorem extract_file_id_no_pattern (s : string) :
  ~ has_files_pattern s ->
  extract_file_id s = Str.strip s
  /\ exists l r,
       s = l +:+ extract_file_id s +:+ r
       /\ Str.all_chars Str.isspace l = true
       /\ Str.all_chars Str.isspace r = true
       /\ (forall c, Str.first_char (extract_file_id s) = Some c ->
                     Str.isspace c = false)
       /\ (forall c, Str.last_char (extract_file_id s) = Some c ->
                     Str.isspace c = false).
Proof.
  intros N. apply re_search_None in N.
  assert (E : extract_file_id s = Str.strip s)
    by (unfold extract_file_id; now rewrite N).
  split; [exact E |]. rewrite E. apply strip_spec.
Qed.

Lemma extract_file_id_no_pattern_witness :
  ~ has_files_pattern "　 files/12 3	 "
  /\ extract_file_id "　 files/12 3	 " = "files/12 3".
Proof.
  assert (N : ~ has_files_pattern "　 files/12 3	 ")
    by (apply re_search_None; vm_compute; reflexivity).
  split; [exact N |].
  rewrite (proj1 (extract_file_id_no_pattern _ N)).
  vm_compute. reflexivity.
Defined.

(** C9: the extractor is idempotent. *)
Theorem extract_file_id_idempotent (s : string) :
  extract_file_id (extract_file_id s) = extract_file_id s.
Proof.
  unfold extract_file_id at 2 3.
  destruct (re_search s) as [d|] eqn:E.
  - destruct (re_search_digits _ _ E) as [A _].
    unfold extract_file_id.
    rewrite (proj2 (re_search_None d) (digits_no_pattern d A)).
    now apply strip_digits.
  - destruct (strip_spec s) as (l & r & Es & _ & _ & F & L).
    unfold extract_file_id.
    assert (N : re_search (Str.strip s) = None).
    { apply re_search_None. intros P. apply re_search_None in E. apply E.
      rewrite Es. now apply pattern_in_substring. }
    rewrite N. now apply strip_fixed.
Qed.

End ExtractorTheorems.

(* ===================================================================== *)
(** ** The comparison of digests *)
(* ===================================================================== *)

Section Comparison.

Lemma upper_lower_form (n : N) :
  Str.upper n = true -> Str.upper (n + 32) = false.
Proof.
  unfold Str.upper.
  rewrite orb_true_iff, !andb_true_iff, negb_true_iff, !N.leb_le, N.eqb_neq.
  intros H.
  apply orb_false_iff. split; apply andb_false_iff.
  - destruct (N.leb_spec (n + 32) 90); [| now right]. left.
    apply N.leb_gt. lia.
  - left. apply andb_false_iff.
    destruct (N.leb_spec (n + 32) 222); [| now right]. left.
    apply N.leb_gt. lia.
Qed.

Lemma case_pair_lower (u l : string) :
  case_pair u l -> Str.lower_char u = Str.lower_char l.
Proof.
  intros [U (n & Hu & Hl)]. unfold Str.isupper in U. rewrite Hu in U.
  unfold Str.lower_char. rewrite Hu, Hl, U, (upper_lower_form n U).
  now apply chr_ord.
Qed.

Lemma same_chars_lower (l1 l2 : list string) :
  same_chars l1 l2 -> map Str.lower_char l1 = map Str.lower_char l2.
Proof.
  induction 1 as [|c1 c2 r1 r2 [-> | [P | P]] _ IH]; cbn [map];
    [reflexivity | | |]; rewrite IH; f_equal.
  - now apply case_pair_lower.
  - symmetry. now apply case_pair_lower.
Qed.

Lemma same_letters_lower (a b : string) :
  same_letters a b -> Str.lower a = Str.lower b.
Proof.
  intros H. unfold Str.lower. now rewrite (same_chars_lower _ _ H).
Qed.

Lemma main_verify_test (e : env) (target : path) (exp actual : string) :
  main_verify e target (JStr exp) actual
  = ((if digests_differ actual exp then
        pathlib.unlink e true target ;;;
        raise (SystemExit (mismatch_message e (JStr exp) actual))
      else ret tt) ;;;
     print e "OK - checksums match.").
Proof. reflexivity. Qed.

(** C7: the comparison ignores the case of letters. Two digests that
    differ only in case are not a mismatch, so that the verifier ends well
    on them, and replacing either operand by a string that differs from it
    only in case leaves the outcome as it was. *)
Theorem digests_differ_case_insensitive (a a' b b' : string) :
  same_letters a a' -> same_letters b b' ->
  digests_differ a a' = false
  /\ digests_differ a b = digests_differ a' b'
  /\ forall e target w, snd (main_verify e target (JStr a') a w) = Ok tt.
Proof.
  intros Ha Hb. unfold digests_differ.
  rewrite (same_letters_lower _ _ Ha), (same_letters_lower _ _ Hb).
  rewrite String.eqb_refl. repeat split.
  intros e target w. rewrite main_verify_test. unfold digests_differ.
  rewrite (same_letters_lower _ _ Ha), String.eqb_refl.
  unfold bind, ret, print. reflexivity.
Qed.

Lemma same_letters_AB12 : same_letters "AB12" "ab12".
Proof.
  unfold same_letters.
  change (same_chars ["A"; "B"; "1"; "2"] ["a"; "b"; "1"; "2"]).
  constructor; [right; left; split; [reflexivity | now exists 65%N] |].
  constructor; [right; left; split; [reflexivity | now exists 66%N] |].
  repeat constructor.
Qed.

Lemma same_letters_refl (a : string) : same_letters a a.
Proof.
  unfold same_letters. induction (Str.chars a) as [|c l IH]; constructor;
    [now left | exact IH].
Qed.

Lemma digests_differ_case_insensitive_witness :
  same_letters "AB12" "ab12" /\ same_letters "ab12" "ab12"
  /\ digests_differ "AB12" "ab12" = false
  /\ digests_differ "AB12" "ab12" = digests_differ "ab12" "ab12"
  /\ forall e target w, snd (main_verify e target (JStr "ab12") "AB12" w) = Ok tt.
Proof.
  assert (H1 : same_letters "AB12" "ab12") by exact same_letters_AB12.
  assert (H2 : same_letters "ab12" "ab12") by apply same_letters_refl.
  split; [exact H1 |]. split; [exact H2 |].
  exact (digests_differ_case_insensitive "AB12" "ab12" "ab12" "ab12" H1 H2).
Defined.

End Comparison.

(* ===================================================================== *)
(** ** The URLs *)
(* ===================================================================== *)

Section Urls.

Lemma API_FILE_value : API_FILE = Ok "https://datadryad.org//api/v2/files/{}".
Proof. reflexivity. Qed.

Lemma format_API_FILE (fid : string) :
  format "https://datadryad.org//api/v2/files/{}" [fid]
  = Ok ("https://datadryad.org//api/v2/files/" +:+ fid).
Proof. cbn. now rewrite append_nil_r. Qed.

Lemma format_DATADRYAD_URL (h : string) :
  format DATADRYAD_URL [h] = Ok ("https://datadryad.org/" +:+ h).
Proof. cbn. now rewrite append_nil_r. Qed.

Lemma get_metadata_log (e : env) (fid : string) (w : world) :
  http_log (fst (get_metadata e fid w))
  = http_log w ++ ["https://datadryad.org//api/v2/files/" +:+ fid].
Proof.
  unfold get_metadata, bind, lift. rewrite API_FILE_value, format_API_FILE.
  unfold requests.get.
  destruct (http e _ _) as [|r]; [reflexivity |].
  destruct (requests.raise_for_status r); [| reflexivity].
  destruct (requests.json_of r); reflexivity.
Qed.

End Urls.

(* ===================================================================== *)
(** ** Computations *)
(* ===================================================================== *)

Section Computations.

Context {A B : Type}.

Lemma bind_Ok_inv (m : M A) (k : A -> M B) (w w' : world) (b : B) :
  bind m k w = (w', Ok b) ->
  exists a w1, m w = (w1, Ok a) /\ k a w1 = (w', Ok b).
Proof.
  unfold bind. destruct (m w) as [w1 [a|x]]; [| discriminate].
  intros H. now exists a, w1.
Qed.

Lemma bind_Ok (m : M A) (k : A -> M B) (w w1 : world) (a : A) :
  m w = (w1, Ok a) -> bind m k w = k a w1.
Proof. unfold bind. now intros ->. Qed.

Lemma bind_Raise (m : M A) (k : A -> M B) (w w1 : world) (x : exn) :
  m w = (w1, Raise x) -> bind m k w = (w1, Raise x).
Proof. unfold bind. now intros ->. Qed.

Lemma lift_Ok_inv (r : result A) (w w' : world) (a : A) :
  lift r w = (w', Ok a) -> w' = w /\ r = Ok a.
Proof. unfold lift. now intros [= -> ->]. Qed.

Lemma ret_Ok_inv (a a' : A) (w w' : world) :
  ret a w = (w', Ok a') -> w' = w /\ a' = a.
Proof. unfold ret. now intros [= -> ->]. Qed.

End Computations.

Tactic Notation "bind_inv" hyp(H) "as" ident(a) ident(w) ident(H1) :=
  apply bind_Ok_inv in H as (a & w & H1 & H).

Section Steps.

Lemma print_ascii (e : env) (s : string) (w : world) :
  Str.all_chars is_ascii s = true ->
  print e s w
  = (MkWorld (fs w) (http_log w) (stdout w ++ [s]) (progress w), Ok tt).
Proof. unfold print. now intros ->. Qed.

Lemma read_append (n : N) (rest chunk rest' : list byte) :
  pathlib.read n rest = (chunk, rest') -> chunk ++ rest' = rest.
Proof.
  revert n chunk rest'. induction rest as [|b r IH]; intros n chunk rest'.
  - now intros [= <- <-].
  - simpl. destruct (n =? 0)%N; [now intros [= <- <-] |].
    destruct (pathlib.read (N.pred n) r) as [c r'] eqn:E.
    intros [= <- <-]. simpl. now rewrite (IH _ _ _ E).
Qed.

Lemma read_nonempty (n : N) (b : byte) (r : list byte) :
  n <> 0%N -> fst (pathlib.read n (b :: r)) <> [].
Proof.
  intros Hn. simpl. destruct (N.eqb_spec n 0); [contradiction |].
  now destruct (pathlib.read (N.pred n) r).
Qed.

(** The loop of [sha256sum] feeds the whole file to the hash object,
    whatever the positive chunk size cuts it into. *)
Lemma read_chunks_all (fuel : nat) (h rest : list byte) :
  List.length rest < fuel -> read_chunks fuel h rest = h ++ rest.
Proof.
  revert h rest. induction fuel as [|fuel IH]; intros h rest L; [lia |].
  cbn [read_chunks].
  destruct (pathlib.read CHUNK rest) as [chunk rest'] eqn:E.
  pose proof (read_append _ _ _ _ E) as App.
  destruct chunk as [|b chunk].
  - destruct rest as [|b r]; [now rewrite app_nil_r |].
    exfalso. apply (read_nonempty CHUNK b r); [discriminate |].
    now rewrite E.
  - unfold hashlib.update. rewrite IH.
    + now rewrite <- App, <- app_assoc.
    + rewrite <- App in L. rewrite length_app in L. simpl in L. lia.
Qed.

Lemma sha256sum_Ok_inv (e : env) (p : path) (w w' : world) (d : string) :
  sha256sum e p w = (w', Ok d) ->
  w' = w /\ exists key content,
    pathlib.locate e (fs w) p = Ok key
    /\ pathlib.node_at (fs w) key = Some (File content)
    /\ d = SHA256.hexdigest content.
Proof.
  unfold sha256sum. intros H. bind_inv H as f w1 Hstep.
  apply ret_Ok_inv in H as [-> ->].
  unfold pathlib.open_rb in Hstep.
  destruct (pathlib.locate e (fs w) p) as [key|] eqn:L; [| discriminate].
  destruct (pathlib.node_at (fs w) key) as [[c|]|] eqn:Nd; try discriminate.
  injection Hstep as <- <-. split; [reflexivity |].
  exists key, c. repeat split; try assumption.
  unfold hashlib.hexdigest. rewrite read_chunks_all by lia. reflexivity.
Qed.

Lemma get_metadata_Ok_inv (e : env) (fid : string) (w w' : world) (meta : json) :
  get_metadata e fid w = (w', Ok meta) ->
  fs w' = fs w
  /\ exists r,
       http e (List.length (http_log w))
            ("https://datadryad.org//api/v2/files/" +:+ fid) = Responded r
       /\ requests.raise_for_status r = Ok tt
       /\ json_body r = Some meta.
Proof.
  unfold get_metadata. rewrite API_FILE_value, format_API_FILE. intros H.
  bind_inv H as url w1 Hurl. apply lift_Ok_inv in Hurl as [-> [= <-]].
  bind_inv H as r w2 Hget. bind_inv H as u w3 Hstatus.
  apply lift_Ok_inv in Hstatus as [-> R].
  apply lift_Ok_inv in H as [-> J].
  unfold requests.get in Hget.
  destruct (http e _ _) as [|r'] eqn:E; [discriminate |].
  injection Hget as <- <-. split; [reflexivity |]. exists r'.
  destruct u. repeat split; try assumption.
  unfold requests.json_of in J. destruct (json_body r'); congruence.
Qed.

(** What a successful [main_fetch] has done. *)
Lemma main_fetch_Ok_inv (e : env) (fid : string) (outdir target : path)
      (expected : json) (actual : string) (w w' : world) :
  main_fetch e fid outdir w = (w', Ok (target, expected, actual)) ->
  (exists r meta filename,
      http e (List.length (http_log w))
           ("https://datadryad.org//api/v2/files/" +:+ fid) = Responded r
      /\ json_body r = Some meta
      /\ subscript meta "digest" = Ok expected
      /\ subscript meta "path" = Ok filename
      /\ pathlib.joinpath outdir filename = Ok target)
  /\ exists key content,
       pathlib.locate e (fs w') target = Ok key
       /\ pathlib.node_at (fs w') key = Some (File content)
       /\ actual = SHA256.hexdigest content.
Proof.
  unfold main_fetch. intros H.
  bind_inv H as meta w1 Hmeta.
  apply get_metadata_Ok_inv in Hmeta as (_ & r & Hr & _ & J).
  bind_inv H as u1 w2 Hp1. clear Hp1.
  bind_inv H as filename w3 Hpath. apply lift_Ok_inv in Hpath as [-> Hpath].
  bind_inv H as exp w4 Hdigest. apply lift_Ok_inv in Hdigest as [-> Hdigest].
  bind_inv H as size w5 Hsize. apply lift_Ok_inv in Hsize as [-> Hsize].
  bind_inv H as tgt w6 Htarget. apply lift_Ok_inv in Htarget as [-> Htarget].
  bind_inv H as u2 w7 Hp2. clear Hp2.
  bind_inv H as links w8 Hl. apply lift_Ok_inv in Hl as [-> _].
  bind_inv H as stash w9 Hs. apply lift_Ok_inv in Hs as [-> _].
  bind_inv H as href w10 Hh. apply lift_Ok_inv in Hh as [-> _].
  bind_inv H as link w11 Hk. apply lift_Ok_inv in Hk as [-> _].
  bind_inv H as u3 w12 Hdl. clear Hdl.
  bind_inv H as u4 w13 Hp3. clear Hp3.
  bind_inv H as act w14 Hsum. apply ret_Ok_inv in H as [-> [= -> -> ->]].
  apply sha256sum_Ok_inv in Hsum as (-> & key & content & L & Nd & D).
  split.
  - exists r, meta, filename. repeat split; assumption.
  - exists key, content. repeat split; assumption.
Qed.

End Steps.

(* ===================================================================== *)
(** ** The integrity check *)
(* ===================================================================== *)

Section Sha256Shape.

(** Cutting into groups loses nothing. *)
Lemma concat_groups {A} (n fuel : nat) (l : list A) :
  0 < n -> List.length l <= fuel -> List.concat (SHA256.groups fuel n l) = l.
Proof.
  intros Hn. revert l. induction fuel as [|fuel IH]; intros l L.
  - destruct l; [reflexivity | simpl in L; lia].
  - destruct l as [|x r]; [reflexivity |].
    cbn [SHA256.groups List.concat]. rewrite IH.
    + apply firstn_skipn.
    + rewrite length_skipn. simpl in L |- *. lia.
Qed.

Lemma length_compress (h block : list Z) :
  List.length h = 8 -> List.length (SHA256.compress h block) = 8.
Proof.
  intros L. unfold SHA256.compress.
  rewrite length_map, length_combine, L. reflexivity.
Qed.

Lemma length_fold_compress (blocks : list (list Z)) (h : list Z) :
  List.length h = 8 ->
  List.length (fold_left SHA256.compress blocks h) = 8.
Proof.
  revert h. induction blocks as [|b r IH]; intros h L; [assumption |].
  simpl. apply IH. now apply length_compress.
Qed.

Lemma length_hex_of (n : nat) (x : Z) :
  String.length (SHA256.hex_of n x) = n.
Proof. induction n as [|n IH]; simpl; [reflexivity | now rewrite IH]. Qed.

Lemma length_concat_hex (ws : list Z) :
  String.length (SHA256.concat_str (map (SHA256.hex_of 8) ws))
  = 8 * List.length ws.
Proof.
  induction ws as [|x ws IH]; [reflexivity |].
  cbn [map SHA256.concat_str List.length].
  rewrite length_append, length_hex_of, IH. lia.
Qed.

(** A SHA-256 digest in hexadecimal has 64 characters. *)
Lemma length_hexdigest (msg : list byte) :
  String.length (SHA256.hexdigest msg) = 64.
Proof.
  unfold SHA256.hexdigest, SHA256.digest_words.
  rewrite length_concat_hex, length_fold_compress; reflexivity.
Qed.

(** The test vector of FIPS 180-4 for the message [abc]. *)
Lemma hexdigest_abc :
  SHA256.hexdigest (list_byte_of_string "abc") = Sample.sha256_abc.
Proof. vm_compute. reflexivity. Qed.

End Sha256Shape.

Section Verification.

Lemma main_after_fetch (e : env) (a : args) (w w1 w2 : world)
      (fid : string) (outdir target : path) (expected : json)
      (actual : string) :
  main_setup e a w = (w1, Ok (fid, outdir)) ->
  main_fetch e fid outdir w1 = (w2, Ok (target, expected, actual)) ->
  main e a w = main_verify e target expected actual w2.
Proof.
  intros S F. unfold main.
  rewrite (bind_Ok _ _ _ _ _ S). now rewrite (bind_Ok _ _ _ _ _ F).
Qed.

Lemma main_verify_match (e : env) (target : path) (exp actual : string)
      (w : world) :
  Str.lower actual = Str.lower exp ->
  main_verify e target (JStr exp) actual w
  = (MkWorld (fs w) (http_log w) (stdout w ++ ["OK - checksums match."])
             (progress w), Ok tt).
Proof.
  intros E. unfold main_verify, bind, lift, lower_method.
  rewrite E, String.eqb_refl. simpl. unfold ret.
  now rewrite print_ascii.
Qed.

Lemma main_verify_mismatch (e : env) (target : path) (exp actual : string)
      (w : world) (key : list string) (content : list byte) :
  Str.lower actual <> Str.lower exp ->
  pathlib.locate e (fs w) target = Ok key ->
  pathlib.node_at (fs w) key = Some (File content) ->
  main_verify e target (JStr exp) actual w
  = (set_fs w (delete key (fs w)),
     Raise (SystemExit (mismatch_message e (JStr exp) actual))).
Proof.
  intros D L Nd. unfold main_verify, bind, lift, lower_method.
  apply String.eqb_neq in D. rewrite D. simpl.
  unfold pathlib.unlink. now rewrite L, Nd.
Qed.

Lemma main_verify_no_lower (e : env) (target : path) (expected : json)
      (actual : string) (w : world) :
  (forall s, expected <> JStr s) ->
  main_verify e target expected actual w = (w, Raise AttributeError).
Proof.
  intros N. unfold main_verify, bind, lift.
  destruct expected; try reflexivity. now destruct (N s).
Qed.

(** C1: the digest the program compares is the SHA-256 of the whole
    downloaded file in hexadecimal (64 characters), whatever the chunks it
    was read in, and it is compared with the [digest] field of the
    metadata response: from there on the run is the comparison of the
    two, which ends well exactly when they agree up to case. *)
Theorem sha256_digest_compared (e : env) (a : args) (w w1 w2 : world)
        (fid : string) (outdir target : path) (expected : json)
        (actual : string) :
  main_setup e a w = (w1, Ok (fid, outdir)) ->
  main_fetch e fid outdir w1 = (w2, Ok (target, expected, actual)) ->
  (exists key content,
      pathlib.locate e (fs w2) target = Ok key
      /\ pathlib.node_at (fs w2) key = Some (File content)
      /\ actual = hashlib.hexdigest
                    (read_chunks (S (List.length content)) hashlib.sha256
                       content)
      /\ actual = SHA256.hexdigest content
      /\ String.length actual = 64)
  /\ (exists r meta,
        http e (List.length (http_log w1))
             ("https://datadryad.org//api/v2/files/" +:+ fid) = Responded r
        /\ json_body r = Some meta
        /\ subscript meta "digest" = Ok expected)
  /\ main e a w = main_verify e target expected actual w2
  /\ (snd (main e a w) = Ok tt <->
      exists exp, expected = JStr exp /\ Str.lower actual = Str.lower exp).
Proof.
  intros S F.
  destruct (main_fetch_Ok_inv _ _ _ _ _ _ _ _ F)
    as ((r & meta & filename & Hr & J & Hd & _ & _)
        & key & content & L & Nd & D).
  pose proof (main_after_fetch _ _ _ _ _ _ _ _ _ _ S F) as M.
  split; [| split; [| split]].
  - exists key, content. subst actual. repeat split; try assumption.
    + unfold hashlib.hexdigest. now rewrite read_chunks_all by lia.
    + apply length_hexdigest.
  - now exists r, meta.
  - exact M.
  - rewrite M. split.
    + intros V. destruct expected as [| | |exp| |];
        try (rewrite main_verify_no_lower in V by discriminate;
             discriminate V).
      exists exp. split; [reflexivity |].
      destruct (String.eqb_spec (Str.lower actual) (Str.lower exp))
        as [|N]; [assumption |].
      rewrite (main_verify_mismatch _ _ _ _ _ key content N L Nd) in V.
      discriminate V.
    + intros (exp & -> & E). now rewrite main_verify_match.
Qed.

(** C2, as amended: when the download completes, the expected digest is a
    string and the digest computed differs from it, case set aside, the
    downloaded file is deleted and nothing else on disk changes, the exit
    status is not zero, and the message has both digests. A file that is
    gone by the time [main] deletes it is not an error: the last block of
    [main] ends with the same message then, the disk as it was. *)
Theorem mismatch_deletes_and_fails (e : env) (a : args) (w w1 w2 : world)
        (fid : string) (outdir target : path) (exp actual : string) :
  main_setup e a w = (w1, Ok (fid, outdir)) ->
  main_fetch e fid outdir w1 = (w2, Ok (target, JStr exp, actual)) ->
  Str.lower actual <> Str.lower exp ->
  (exists w3 msg key,
      main e a w = (w3, Raise (SystemExit msg))
      /\ exit_status (snd (main e a w)) <> 0%Z
      /\ Str.contains exp msg /\ Str.contains actual msg
      /\ pathlib.locate e (fs w2) target = Ok key
      /\ fs w3 = delete key (fs w2)
      /\ pathlib.node_at (fs w3) key = None)
  /\ (forall w' key,
        pathlib.locate e (fs w') target = Ok key ->
        pathlib.node_at (fs w') key = None ->
        main_verify e target (JStr exp) actual w'
        = (w', Raise (SystemExit (mismatch_message e (JStr exp) actual)))).
Proof.
  intros S F D. split.
  - destruct (main_fetch_Ok_inv _ _ _ _ _ _ _ _ F)
      as (_ & key & content & L & Nd & _).
    pose proof (main_after_fetch _ _ _ _ _ _ _ _ _ _ S F) as M.
    rewrite (main_verify_mismatch _ _ _ _ _ key content D L Nd) in M.
    exists (set_fs w2 (delete key (fs w2))),
           (mismatch_message e (JStr exp) actual), key.
    rewrite M. repeat split; try assumption.
    + discriminate.
    + exists "ERROR: MD5 mismatch! Expected ", (", got " +:+ actual).
      reflexivity.
    + exists ("ERROR: MD5 mismatch! Expected " +:+ exp +:+ ", got "), "".
      unfold mismatch_message, py_str.
      now rewrite append_nil_r, !append_assoc.
    + destruct key as [|c key]; [discriminate Nd |].
      simpl. apply lookup_delete_eq.
  - intros w' key L Nd. unfold main_verify, bind, lift, lower_method.
    apply String.eqb_neq in D. rewrite D. cbn [negb].
    unfold pathlib.unlink. now rewrite L, Nd.
Qed.

(** C3, as amended: when the download completes and the digest computed
    equals the expected one, case set aside, the run ends with status 0
    and leaves the disk as the download left it, the file still there
    with its content, at the path [outdir / filename], where [filename]
    is the [path] of the metadata answer: the parts of [filename] after
    those of [outdir] when [filename] is relative, [filename] alone when
    it is absolute. *)
Theorem verified_file_kept (e : env) (a : args) (w w1 w2 : world)
        (fid : string) (outdir target : path) (exp actual : string) :
  main_setup e a w = (w1, Ok (fid, outdir)) ->
  main_fetch e fid outdir w1 = (w2, Ok (target, JStr exp, actual)) ->
  Str.lower actual = Str.lower exp ->
  exists w3 r meta filename key content,
    main e a w = (w3, Ok tt)
    /\ exit_status (snd (main e a w)) = 0%Z
    /\ fs w3 = fs w2
    /\ pathlib.locate e (fs w3) target = Ok key
    /\ pathlib.node_at (fs w3) key = Some (File content)
    /\ actual = SHA256.hexdigest content
    /\ http e (List.length (http_log w1))
             ("https://datadryad.org//api/v2/files/" +:+ fid) = Responded r
    /\ json_body r = Some meta
    /\ subscript meta "path" = Ok (JStr filename)
    /\ pathlib.joinpath outdir (JStr filename) = Ok target
    /\ target = (if is_absolute (pathlib.Path filename)
                 then pathlib.Path filename
                 else MkPath (is_absolute outdir)
                        (parts outdir ++ parts (pathlib.Path filename))).
Proof.
  intros S F E.
  destruct (main_fetch_Ok_inv _ _ _ _ _ _ _ _ F)
    as ((r & meta & filename & Hr & Hm & _ & Hp & J)
        & key & content & L & Nd & D).
  pose proof (main_after_fetch _ _ _ _ _ _ _ _ _ _ S F) as M.
  rewrite (main_verify_match _ _ _ _ _ E) in M.
  destruct filename as [| | |f| |]; try discriminate J.
  eexists _, r, meta, f, key, content. rewrite M. cbn [fs snd exit_status].
  repeat split; try assumption.
  unfold pathlib.joinpath in J.
  destruct (is_absolute (pathlib.Path f)); congruence.
Qed.

End Verification.

(* ===================================================================== *)
(** ** Creating the output directory *)
(* ===================================================================== *)

Section Mkdir.

Lemma only_dirs_added_refl (m : gmap (list string) node) :
  only_dirs_added m m.
Proof. intros key. now left. Qed.

Lemma only_dirs_added_trans (m1 m2 m3 : gmap (list string) node) :
  only_dirs_added m1 m2 -> only_dirs_added m2 m3 -> only_dirs_added m1 m3.
Proof.
  intros H12 H23 key.
  destruct (H12 key) as [E|[E1 E2]], (H23 key) as [F|[F1 F2]].
  - left. congruence.
  - right. split; congruence.
  - right. split; congruence.
  - congruence.
Qed.

Lemma only_dirs_added_files (m m' : gmap (list string) node)
      (key : list string) (c : list byte) :
  only_dirs_added m m' ->
  (m' !! key = Some (File c) <-> m !! key = Some (File c)).
Proof. intros H. destruct (H key) as [E|[E1 E2]]; split; congruence. Qed.

Lemma only_dirs_added_node (m m' : gmap (list string) node)
      (key : list string) :
  only_dirs_added m m' ->
  pathlib.node_at m' key = pathlib.node_at m key
  \/ (pathlib.node_at m key = None /\ pathlib.node_at m' key = Some Dir).
Proof. intros H. destruct key as [|c key]; [now left | apply H]. Qed.

Lemma os_mkdir_added (e : env) (m m' : gmap (list string) node) (p : path) :
  pathlib.os_mkdir e m p = Ok m' -> only_dirs_added m m'.
Proof.
  unfold pathlib.os_mkdir.
  destruct (pathlib.locate e m p) as [key|]; [| discriminate].
  destruct (pathlib.node_at m key) eqn:Nd; [discriminate |].
  intros [= <-] k. destruct (decide (k = key)) as [->|N].
  - right. rewrite lookup_insert_eq. split; [| reflexivity].
    destruct key; [discriminate Nd | exact Nd].
  - left. now rewrite lookup_insert_ne.
Qed.

Lemma mkdir_single_added (e : env) (ok : bool)
      (m m' : gmap (list string) node) (p : path) :
  pathlib.mkdir_single e ok m p = Ok m' -> only_dirs_added m m'.
Proof.
  unfold pathlib.mkdir_single.
  destruct (pathlib.os_mkdir e m p) as [m1|x] eqn:E.
  - intros [= <-]. eapply os_mkdir_added; eassumption.
  - destruct (pathlib.is_FileNotFoundError x); [discriminate |].
    destruct (ok && pathlib.is_dir e m p); [| discriminate].
    intros [= <-]. apply only_dirs_added_refl.
Qed.

Lemma mkdir_parents_added (e : env) (absolute : bool) (rparts : list string) :
  forall (ok : bool) (m m' : gmap (list string) node),
    pathlib.mkdir_parents e ok m absolute rparts = Ok m' ->
    only_dirs_added m m'.
Proof.
  induction rparts as [|c rp IH]; intros ok m m'; cbn [pathlib.mkdir_parents];
    destruct (pathlib.os_mkdir e m _) as [m1|x] eqn:E;
    try (intros [= <-]; eapply os_mkdir_added; eassumption);
    destruct (pathlib.is_FileNotFoundError x).
  - discriminate.
  - destruct (ok && pathlib.is_dir e m _); [| discriminate].
    intros [= <-]. apply only_dirs_added_refl.
  - destruct (pathlib.mkdir_parents e true m absolute rp) as [m1|y] eqn:P;
      [| discriminate].
    intros S. eapply only_dirs_added_trans.
    + eapply IH; eassumption.
    + eapply mkdir_single_added; eassumption.
  - destruct (ok && pathlib.is_dir e m _); [| discriminate].
    intros [= <-]. apply only_dirs_added_refl.
Qed.

(** The first block of [main] requests nothing, changes no file, and
    leaves the world as it was when it raises. *)
Lemma main_setup_inv (e : env) (a : args) (w w1 : world)
      (r : result (string * path)) :
  main_setup e a w = (w1, r) ->
  http_log w1 = http_log w
  /\ only_dirs_added (fs w) (fs w1)
  /\ match r with
     | Ok (fid, outdir) =>
         fid = extract_file_id (arg_fid a)
         /\ map_result (pathlib.resolve e)
              (pathlib.expanduser e (pathlib.Path (arg_outdir a)))
            = Ok outdir
         /\ exists m, pathlib.mkdir_parents e true (fs w)
                        (is_absolute outdir) (rev (parts outdir)) = Ok m
                      /\ w1 = set_fs w m
     | Raise _ => w1 = w
     end.
Proof.
  unfold main_setup, bind, lift.
  destruct (map_result _ _) as [outdir|x] eqn:R.
  - unfold pathlib.mkdir.
    destruct (pathlib.mkdir_parents e true (fs w) _ _) as [m|x] eqn:P.
    + unfold ret. intros [= <- <-]. repeat split.
      * eapply mkdir_parents_added; eassumption.
      * now exists m.
    + intros [= <- <-]. repeat split. apply only_dirs_added_refl.
  - intros [= <- <-]. repeat split. apply only_dirs_added_refl.
Qed.

End Mkdir.

(* ===================================================================== *)
(** ** A failing metadata request *)
(* ===================================================================== *)

Section MetadataFailure.

Lemma get_metadata_error (e : env) (fid : string) (w : world) (r : response) :
  http e (List.length (http_log w))
       ("https://datadryad.org//api/v2/files/" +:+ fid) = Responded r ->
  (400 <= status_code r < 600)%Z ->
  get_metadata e fid w
  = (MkWorld (fs w)
       (http_log w ++ ["https://datadryad.org//api/v2/files/" +:+ fid])
       (stdout w) (progress w),
     Raise (HTTPError (status_code r))).
Proof.
  intros H S. unfold get_metadata, bind, lift.
  rewrite API_FILE_value, format_API_FILE. unfold requests.get.
  rewrite H. unfold requests.raise_for_status.
  destruct (Z.leb_spec 400 (status_code r)); [| lia].
  destruct (Z.ltb_spec (status_code r) 600); [| lia].
  reflexivity.
Qed.

(** C4, as amended: when the metadata endpoint answers with a status of
    the 4xx or 5xx class, 404 among them, the run ends with a status
    that is not zero, having made no request but the metadata one and
    having written or changed no file. *)
Theorem metadata_error_aborts (e : env) (a : args) (w : world) (r : response) :
  http e (List.length (http_log w))
       ("https://datadryad.org//api/v2/files/" +:+ extract_file_id (arg_fid a))
  = Responded r ->
  (400 <= status_code r < 600)%Z ->
  exit_status (snd (main e a w)) <> 0%Z
  /\ (http_log (fst (main e a w)) = http_log w
      \/ http_log (fst (main e a w))
         = http_log w ++ ["https://datadryad.org//api/v2/files/"
                            +:+ extract_file_id (arg_fid a)])
  /\ (forall key content,
        fs (fst (main e a w)) !! key = Some (File content)
        <-> fs w !! key = Some (File content)).
Proof.
  intros H S. unfold main.
  destruct (main_setup e a w) as [w1 [[fid outdir]|x]] eqn:Setup;
    destruct (main_setup_inv _ _ _ _ _ Setup) as (Log & Added & R).
  - destruct R as (-> & _ & _).
    rewrite (bind_Ok _ _ _ _ _ Setup).
    assert (F : main_fetch e (extract_file_id (arg_fid a)) outdir w1
                = (MkWorld (fs w1)
                     (http_log w1 ++ ["https://datadryad.org//api/v2/files/"
                                        +:+ extract_file_id (arg_fid a)])
                     (stdout w1) (progress w1),
                   Raise (HTTPError (status_code r)))).
    { unfold main_fetch. apply bind_Raise. apply get_metadata_error.
      - now rewrite Log.
      - assumption. }
    rewrite (bind_Raise _ _ _ _ _ F). cbn [fst snd fs http_log exit_status].
    split; [discriminate |]. split.
    + right. now rewrite Log.
    + intros key content. now apply only_dirs_added_files.
  - subst w1. rewrite (bind_Raise _ _ _ _ _ Setup).
    cbn [fst snd exit_status]. split; [discriminate |].
    split; [now left | reflexivity].
Qed.

End MetadataFailure.

Section Walk.

Variable m : gmap (list string) node.

Lemma prefix_cons_inv_nonempty (c : string) (r q : list string) :
  q `prefix_of` (c :: r) -> q <> [] -> exists q', q = c :: q' /\ q' `prefix_of` r.
Proof.
  intros [k E] N. destruct q as [|x q']; [contradiction |].
  simpl in E. injection E as -> ->. exists q'. split; [reflexivity |].
  now exists k.
Qed.

(** On parts without [..], a walk that arrives has gone through
    directories only, and ends at the parts themselves. *)
Lemma walk_Ok_inv (l : list string) :
  forall (racc key : list string),
    ".." ∉ l -> pathlib.walk m racc l = Ok key ->
    key = rev racc ++ l
    /\ forall q, q `prefix_of` l -> q <> [] -> q <> l ->
                 pathlib.node_at m (rev racc ++ q) = Some Dir.
Proof.
  induction l as [|c r IH]; intros racc key N.
  - simpl. intros [= <-]. split; [now rewrite app_nil_r |].
    intros q [k E] Q. destruct q; [contradiction | discriminate].
  - apply not_elem_of_cons in N as [Nc Nr]. cbn [pathlib.walk].
    destruct (String.eqb_spec c ".."); [congruence |].
    destruct r as [|c' r'].
    + intros [= <-]. split; [reflexivity |].
      intros q P Q1 Q2.
      destruct (prefix_cons_inv_nonempty _ _ _ P Q1) as (q' & -> & [k E]).
      destruct q'; [contradiction | discriminate].
    + destruct (pathlib.node_at m (rev (c :: racc))) as [[f|]|] eqn:Nd;
        try discriminate.
      intros W. destruct (IH (c :: racc) key Nr W) as [-> D].
      simpl. rewrite <- app_assoc. split; [reflexivity |].
      intros q P Q1 Q2.
      destruct (prefix_cons_inv_nonempty _ _ _ P Q1) as (q' & -> & P').
      destruct q' as [|x q''].
      * simpl in Nd. exact Nd.
      * specialize (D (x :: q'') P' ltac:(discriminate) ltac:(congruence)).
        simpl in D. now rewrite <- app_assoc in D.
Qed.

Lemma walk_ok (l : list string) :
  forall (racc : list string),
    ".." ∉ l ->
    (forall q, q `prefix_of` l -> q <> [] -> q <> l ->
               pathlib.node_at m (rev racc ++ q) = Some Dir) ->
    pathlib.walk m racc l = Ok (rev racc ++ l).
Proof.
  induction l as [|c r IH]; intros racc N D.
  - simpl. now rewrite app_nil_r.
  - apply not_elem_of_cons in N as [Nc Nr]. cbn [pathlib.walk].
    destruct (String.eqb_spec c ".."); [congruence |].
    destruct r as [|c' r']; [reflexivity |].
    assert (Nd : pathlib.node_at m (rev (c :: racc)) = Some Dir).
    { simpl. apply (D [c]); [| discriminate | discriminate].
      now exists (c' :: r'). }
    rewrite Nd. rewrite IH; [simpl; now rewrite <- app_assoc | assumption |].
    intros q P Q1 Q2. simpl. rewrite <- app_assoc. simpl.
    apply (D (c :: q)); [| discriminate | congruence].
    now apply prefix_cons.
Qed.

(** A walk fails with one of two errors, the second because of a regular
    file on the way. *)
Lemma walk_Raise_inv (l : list string) :
  forall (racc : list string) (x : exn),
    ".." ∉ l -> pathlib.walk m racc l = Raise x ->
    x = FileNotFoundError
    \/ (x = NotADirectoryError
        /\ exists q content, q `prefix_of` l
             /\ pathlib.node_at m (rev racc ++ q) = Some (File content)).
Proof.
  induction l as [|c r IH]; intros racc x N; [discriminate |].
  apply not_elem_of_cons in N as [Nc Nr]. cbn [pathlib.walk].
  destruct (String.eqb_spec c ".."); [congruence |].
  destruct r as [|c' r']; [discriminate |].
  destruct (pathlib.node_at m (rev (c :: racc))) as [[f|]|] eqn:Nd.
  - intros [= <-]. right. split; [reflexivity |].
    exists [c], f. split; [now exists (c' :: r') | exact Nd].
  - intros W. destruct (IH _ _ Nr W) as [->|(-> & q & f & P & F)];
      [now left | right].
    split; [reflexivity |]. exists (c :: q), f.
    split; [now apply prefix_cons |].
    simpl in F. now rewrite <- app_assoc in F.
  - intros [= <-]. now left.
Qed.

End Walk.

Section MkdirParents.

Variable e : env.

Lemma not_elem_of_rev (x : string) (l : list string) : x ∉ l -> x ∉ rev l.
Proof.
  intros N H. apply N. apply list_elem_of_In, in_rev.
  now apply list_elem_of_In.
Qed.

Lemma locate_absolute (m : gmap (list string) node) (l : list string) :
  pathlib.locate e m (MkPath true l) = pathlib.walk m [] l.
Proof. reflexivity. Qed.

Lemma dirs_down_to_insert (m : gmap (list string) node) (l : list string) :
  (forall q, q `prefix_of` l -> q <> [] -> q <> l ->
             pathlib.node_at m q = Some Dir) ->
  l <> [] ->
  dirs_down_to (<[l := Dir]> m) l.
Proof.
  intros D N q P. destruct q as [|c q]; [reflexivity |].
  cbn [pathlib.node_at]. destruct (decide (c :: q = l)) as [<-|Q].
  - apply lookup_insert_eq.
  - rewrite lookup_insert_ne by congruence.
    now apply (D (c :: q)).
Qed.

Lemma dirs_down_to_last (m : gmap (list string) node) (l : list string) :
  (forall q, q `prefix_of` l -> q <> [] -> q <> l ->
             pathlib.node_at m q = Some Dir) ->
  pathlib.node_at m l = Some Dir ->
  dirs_down_to m l.
Proof.
  intros D L q P. destruct q as [|c q]; [reflexivity |].
  destruct (decide (c :: q = l)) as [<-|Q]; [assumption |].
  now apply D.
Qed.

(** What [mkdir] without parents leaves behind when it succeeds. *)
Lemma mkdir_single_Ok_dirs (m m' : gmap (list string) node) (l : list string) :
  ".." ∉ l ->
  pathlib.mkdir_single e true m (MkPath true l) = Ok m' ->
  dirs_down_to m' l.
Proof.
  intros N. unfold pathlib.mkdir_single, pathlib.os_mkdir, pathlib.is_dir.
  rewrite locate_absolute.
  destruct (pathlib.walk m [] l) as [key|x] eqn:W.
  - destruct (walk_Ok_inv m l [] key N W) as [-> D]. simpl in D |- *.
    destruct (pathlib.node_at m l) as [[f|]|] eqn:Nd; simpl.
    + discriminate.
    + intros [= <-]. now apply dirs_down_to_last.
    + intros [= <-]. apply dirs_down_to_insert; [assumption |].
      intros ->. discriminate Nd.
  - destruct (pathlib.is_FileNotFoundError x); discriminate.
Qed.

(** [mkdir] without parents succeeds when the parents are there and no
    regular file has the name. *)
Lemma mkdir_single_ok (m : gmap (list string) node) (l : list string) :
  ".." ∉ l ->
  (forall q, q `prefix_of` l -> q <> l -> pathlib.node_at m q = Some Dir) ->
  (forall content, pathlib.node_at m l <> Some (File content)) ->
  exists m', pathlib.mkdir_single e true m (MkPath true l) = Ok m'.
Proof.
  intros N D F. unfold pathlib.mkdir_single, pathlib.os_mkdir, pathlib.is_dir.
  rewrite locate_absolute, (walk_ok m l [] N); simpl.
  - destruct (pathlib.node_at m l) as [[f|]|] eqn:Nd; simpl.
    + now destruct (F f).
    + now exists m.
    + now eexists.
  - intros q P _ Q. now apply D.
Qed.

Lemma mkdir_parents_single (ok : bool) (m : gmap (list string) node)
      (rparts : list string) :
  pathlib.os_mkdir e m (MkPath true (rev rparts)) <> Raise FileNotFoundError ->
  pathlib.mkdir_parents e ok m true rparts
  = pathlib.mkdir_single e ok m (MkPath true (rev rparts)).
Proof.
  intros H. unfold pathlib.mkdir_single.
  destruct rparts as [|c rp]; cbn [pathlib.mkdir_parents];
    destruct (pathlib.os_mkdir e m _) as [m1|x]; try reflexivity;
    destruct x; try reflexivity; contradiction.
Qed.

Lemma mkdir_parents_missing (ok : bool) (m : gmap (list string) node)
      (c : string) (rp : list string) :
  pathlib.os_mkdir e m (MkPath true (rev (c :: rp))) = Raise FileNotFoundError ->
  pathlib.mkdir_parents e ok m true (c :: rp)
  = match pathlib.mkdir_parents e true m true rp with
    | Ok m1 => pathlib.mkdir_single e ok m1 (MkPath true (rev (c :: rp)))
    | Raise y => Raise y
    end.
Proof. intros E. cbn [pathlib.mkdir_parents]. now rewrite E. Qed.

(** Success of [mkdir(parents=True, exist_ok=True)] means the directory
    and all its parents are there. *)
Lemma mkdir_parents_Ok_dirs (rparts : list string) :
  forall (m m' : gmap (list string) node),
    ".." ∉ rparts ->
    pathlib.mkdir_parents e true m true rparts = Ok m' ->
    dirs_down_to m' (rev rparts).
Proof.
  induction rparts as [|c rp IH]; intros m m' N.
  - rewrite mkdir_parents_single.
    + apply mkdir_single_Ok_dirs. apply not_elem_of_nil.
    + unfold pathlib.os_mkdir. rewrite locate_absolute. discriminate.
  - destruct (pathlib.os_mkdir e m (MkPath true (rev (c :: rp)))) as [m1|x] eqn:E.
    + rewrite mkdir_parents_single by congruence.
      apply mkdir_single_Ok_dirs. now apply not_elem_of_rev.
    + destruct (pathlib.is_FileNotFoundError x) eqn:X.
      * destruct x; try discriminate X.
        rewrite (mkdir_parents_missing _ _ _ _ E).
        destruct (pathlib.mkdir_parents e true m true rp) as [m1|y];
          [| discriminate].
        apply mkdir_single_Ok_dirs. now apply not_elem_of_rev.
      * rewrite mkdir_parents_single
          by (rewrite E; intros [= ->]; discriminate X).
        apply mkdir_single_Ok_dirs. now apply not_elem_of_rev.
Qed.

Lemma no_file_on_added (m m' : gmap (list string) node) (l : list string) :
  only_dirs_added m m' -> no_file_on m l -> no_file_on m' l.
Proof.
  intros A F q content P Nd.
  destruct (only_dirs_added_node m m' q A) as [E|[_ E]].
  - apply (F q content P). congruence.
  - congruence.
Qed.

(** [mkdir(parents=True, exist_ok=True)] succeeds when no regular file
    stands on the path. *)
Lemma mkdir_parents_ok (rparts : list string) :
  forall (m : gmap (list string) node),
    ".." ∉ rparts ->
    no_file_on m (rev rparts) ->
    exists m', pathlib.mkdir_parents e true m true rparts = Ok m'.
Proof.
  induction rparts as [|c rp IH]; intros m N F.
  - rewrite mkdir_parents_single.
    + apply mkdir_single_ok; [apply not_elem_of_nil | |].
      * intros q [k E] Q. destruct q; [contradiction | discriminate].
      * intros content. apply (F [] content). reflexivity.
    + unfold pathlib.os_mkdir. rewrite locate_absolute. discriminate.
  - apply not_elem_of_cons in N as [Nc Nr].
    assert (Nl : ".." ∉ rev (c :: rp))
      by (apply not_elem_of_rev, not_elem_of_cons; now split).
    destruct (pathlib.os_mkdir e m (MkPath true (rev (c :: rp)))) as [m1|x] eqn:E.
    + rewrite mkdir_parents_single by congruence.
      unfold pathlib.mkdir_single. rewrite E. now exists m1.
    + unfold pathlib.os_mkdir in E. rewrite locate_absolute in E.
      destruct (pathlib.walk m [] (rev (c :: rp))) as [key|y] eqn:W.
      * destruct (walk_Ok_inv m _ [] key Nl W) as [-> D]. simpl in D.
        rewrite mkdir_parents_single.
        -- apply mkdir_single_ok; [assumption | |].
           ++ intros q P Q. destruct q as [|z q]; [reflexivity |].
              now apply D.
           ++ intros content. apply (F _ content). reflexivity.
        -- unfold pathlib.os_mkdir. rewrite locate_absolute, W.
           destruct (pathlib.node_at m _); discriminate.
      * injection E as <-.
        destruct (walk_Raise_inv m _ [] y Nl W)
          as [->|(-> & q & content & P & Nd)].
        -- rewrite mkdir_parents_missing
             by (unfold pathlib.os_mkdir; now rewrite locate_absolute, W).
           destruct (IH m) as [m1 P1]; [assumption | |].
           { intros q content [k Ek] Nd.
             apply (F q content); [| exact Nd].
             exists (k ++ [c]). simpl. rewrite Ek. now rewrite <- app_assoc. }
           rewrite P1.
           pose proof (mkdir_parents_added _ _ _ _ _ _ P1) as A.
           pose proof (mkdir_parents_Ok_dirs _ _ _ Nr P1) as D.
           apply mkdir_single_ok; [assumption | |].
           ++ intros q [k Ek] Q. apply D. simpl in Ek.
              destruct k as [|z k] using rev_ind.
              ** rewrite app_nil_r in Ek. exfalso. apply Q. now rewrite <- Ek.
              ** rewrite app_assoc in Ek. apply app_inj_tail in Ek as [-> _].
                 now exists k.
           ++ intros content. apply (no_file_on_added m m1 _ A F).
              reflexivity.
        -- exfalso. now apply (F q content P).
Qed.

End MkdirParents.

Section KeepsDirs.

Variable e : env.

Lemma keeps_dirs_bind {A B} (c : M A) (k : A -> M B) :
  keeps_dirs c -> (forall x, keeps_dirs (k x)) -> keeps_dirs (bind c k).
Proof.
  intros Hc Hk w w' r. unfold bind.
  destruct (c w) as [w1 [x|y]] eqn:E.
  - intros K key D. eapply Hk; [eassumption |]. eapply Hc; eassumption.
  - intros [= <- <-]. eapply Hc; eassumption.
Qed.

Lemma keeps_dirs_same_fs {A} (c : M A) :
  (forall w w' r, c w = (w', r) -> fs w' = fs w) -> keeps_dirs c.
Proof. intros H w w' r E key D. now rewrite (H _ _ _ E). Qed.

Lemma keeps_dirs_ret {A} (x : A) : keeps_dirs (ret x).
Proof. apply keeps_dirs_same_fs. unfold ret. now intros w w' r [= <- _]. Qed.

Lemma keeps_dirs_raise {A} (x : exn) : keeps_dirs (@raise A x).
Proof. apply keeps_dirs_same_fs. unfold raise. now intros w w' r [= <- _]. Qed.

Lemma keeps_dirs_lift {A} (r : result A) : keeps_dirs (lift r).
Proof. apply keeps_dirs_same_fs. unfold lift. now intros w w' r' [= <- _]. Qed.

Lemma keeps_dirs_print (s : string) : keeps_dirs (print e s).
Proof.
  apply keeps_dirs_same_fs. unfold print. intros w w' r.
  destruct (_ || _); now intros [= <- _].
Qed.

Lemma keeps_dirs_get (url : string) (t : Z * Z) :
  keeps_dirs (requests.get e url t).
Proof.
  apply keeps_dirs_same_fs. unfold requests.get. intros w w' r.
  destruct (http e _ _); now intros [= <- _].
Qed.

Lemma keeps_dirs_bar_update (n : nat) : keeps_dirs (bar_update n).
Proof.
  apply keeps_dirs_same_fs. unfold bar_update. now intros w w' r [= <- _].
Qed.

Lemma node_at_insert_file (m : gmap (list string) node)
      (k key : list string) (c : list byte) :
  pathlib.node_at m k <> Some Dir ->
  pathlib.node_at m key = Some Dir ->
  pathlib.node_at (<[k := File c]> m) key = Some Dir.
Proof.
  intros Nk D. destruct key as [|x key]; [reflexivity |].
  cbn [pathlib.node_at] in *. rewrite lookup_insert_ne; [assumption |].
  intros ->. contradiction.
Qed.

Lemma keeps_dirs_open_wb (p : path) : keeps_dirs (pathlib.open_wb e p).
Proof.
  intros w w' r. unfold pathlib.open_wb.
  destruct (pathlib.locate e (fs w) p) as [k|x]; [| now intros [= <- _]].
  destruct (pathlib.node_at (fs w) k) as [[c|]|] eqn:Nd;
    try (now intros [= <- _]);
    intros [= <- _] key D; cbn [fs set_fs];
    apply node_at_insert_file; congruence.
Qed.

Lemma keeps_dirs_write (fh : list string) (chunk : list byte) :
  keeps_dirs (pathlib.write fh chunk).
Proof.
  intros w w' r. unfold pathlib.write.
  destruct (fs w !! fh) as [[c|]|] eqn:Nd; try (now intros [= <- _]).
  intros [= <- _] key D. cbn [fs set_fs].
  destruct key as [|x key]; [reflexivity |].
  cbn [pathlib.node_at] in *. rewrite lookup_insert_ne; [assumption |].
  intros ->. congruence.
Qed.

Lemma keeps_dirs_unlink (ok : bool) (p : path) :
  keeps_dirs (pathlib.unlink e ok p).
Proof.
  intros w w' r. unfold pathlib.unlink.
  destruct (pathlib.locate e (fs w) p) as [k|x].
  - destruct (pathlib.node_at (fs w) k) as [[c|]|] eqn:Nd.
    + intros [= <- _] key D. cbn [fs set_fs].
      destruct key as [|y key]; [reflexivity |].
      cbn [pathlib.node_at] in *. rewrite lookup_delete_ne; [assumption |].
      intros ->. cbn [pathlib.node_at] in Nd. congruence.
    + now intros [= <- _].
    + destruct ok; now intros [= <- _].
  - destruct (pathlib.is_FileNotFoundError x); [destruct ok |];
      now intros [= <- _].
Qed.

Lemma keeps_dirs_write_chunks (fh : list string) (chunks : list (list byte)) :
  keeps_dirs (write_chunks fh chunks).
Proof.
  induction chunks as [|c r IH]; cbn [write_chunks].
  - apply keeps_dirs_ret.
  - apply keeps_dirs_bind; [| intros _; exact IH].
    destruct c; [apply keeps_dirs_ret |].
    apply keeps_dirs_bind; [apply keeps_dirs_write |].
    intros _. apply keeps_dirs_bar_update.
Qed.

Lemma keeps_dirs_if {A} (b : bool) (c1 c2 : M A) :
  keeps_dirs c1 -> keeps_dirs c2 -> keeps_dirs (if b then c1 else c2).
Proof. now destruct b. Qed.

Create HintDb keeps discriminated.
Hint Resolve keeps_dirs_ret keeps_dirs_raise keeps_dirs_lift keeps_dirs_print
  keeps_dirs_get keeps_dirs_bar_update keeps_dirs_open_wb keeps_dirs_write
  keeps_dirs_unlink keeps_dirs_write_chunks keeps_dirs_if : keeps.

Ltac keeps :=
  repeat (first [ solve [auto with keeps]
                | apply keeps_dirs_bind; [| intros ? ] ]).

Lemma keeps_dirs_get_metadata (fid : string) : keeps_dirs (get_metadata e fid).
Proof. unfold get_metadata. keeps. Qed.

Lemma keeps_dirs_download (url : string) (dest : path) (total : json) :
  keeps_dirs (download e url dest total).
Proof. unfold download. keeps. Qed.

Lemma keeps_dirs_sha256sum (p : path) : keeps_dirs (sha256sum e p).
Proof.
  unfold sha256sum. apply keeps_dirs_bind; [| intros f; apply keeps_dirs_ret].
  apply keeps_dirs_same_fs. unfold pathlib.open_rb. intros w w' r.
  destruct (pathlib.locate e (fs w) p) as [k|x]; [| now intros [= <- _]].
  destruct (pathlib.node_at (fs w) k) as [[c|]|]; now intros [= <- _].
Qed.

Lemma keeps_dirs_main_fetch (fid : string) (outdir : path) :
  keeps_dirs (main_fetch e fid outdir).
Proof.
  unfold main_fetch.
  pose proof keeps_dirs_get_metadata. pose proof keeps_dirs_download.
  pose proof keeps_dirs_sha256sum. keeps.
Qed.

Lemma keeps_dirs_main_verify (target : path) (expected : json)
      (actual : string) :
  keeps_dirs (main_verify e target expected actual).
Proof.
  unfold main_verify.
  apply keeps_dirs_bind; [apply keeps_dirs_lift | intros lowered].
  apply keeps_dirs_bind; [| intros _; apply keeps_dirs_print].
  apply keeps_dirs_if; keeps.
Qed.

End KeepsDirs.

(* ===================================================================== *)
(** ** The output directory *)
(* ===================================================================== *)

Section OutputDirectory.

Lemma normalize_no_dotdot (l : list string) :
  forall racc, ".." ∉ racc -> ".." ∉ pathlib.normalize racc l.
Proof.
  induction l as [|c r IH]; intros racc N; cbn [pathlib.normalize].
  - now apply not_elem_of_rev.
  - destruct (String.eqb_spec c "..") as [->|Nc]; apply IH.
    + destruct racc as [|x racc]; [assumption |].
      now apply not_elem_of_cons in N as [_ N].
    + apply not_elem_of_cons. split; [congruence | assumption].
Qed.

Lemma resolve_no_dotdot (e : env) (p : path) :
  ".." ∉ cwd e -> ".." ∉ parts (pathlib.resolve e p).
Proof.
  intros N. apply normalize_no_dotdot, not_elem_of_rev.
  unfold pathlib.start_of. destruct (is_absolute p);
    [apply not_elem_of_nil | assumption].
Qed.

Lemma set_fs_same (w : world) : set_fs w (fs w) = w.
Proof. now destruct w. Qed.

Lemma mkdir_existing (e : env) (m : gmap (list string) node) (p : path) :
  is_absolute p = true ->
  pathlib.is_dir e m p = true ->
  pathlib.mkdir_parents e true m (is_absolute p) (rev (parts p)) = Ok m.
Proof.
  destruct p as [absolute l]. cbn [is_absolute parts]. intros -> D.
  assert (E : pathlib.os_mkdir e m (MkPath true l) = Raise FileExistsError).
  { unfold pathlib.is_dir in D. unfold pathlib.os_mkdir.
    destruct (pathlib.locate e m (MkPath true l)) as [key|]; [| discriminate].
    destruct (pathlib.node_at m key); [reflexivity | discriminate]. }
  rewrite mkdir_parents_single; rewrite rev_involutive.
  - unfold pathlib.mkdir_single. now rewrite E, D.
  - now rewrite E.
Qed.

(** C8, as amended: for an output directory that [expanduser] expands, the
    output directory is resolved to an absolute path, and the
    first thing a run does is to create it with its missing parents.
    Whenever the run gets past that, the directory and all its parents
    are directories, nothing has been requested or written yet, and they
    stay directories to the end of the run; when the directory cannot be
    created the run stops there. The creation succeeds when no regular
    file stands on the path, and a directory that is already there is
    not an error: the disk is left as it was. *)
Theorem outdir_resolved_and_created (e : env) (a : args) (w : world) (p : path) :
  ".." ∉ cwd e ->
  pathlib.expanduser e (pathlib.Path (arg_outdir a)) = Ok p ->
  is_absolute (pathlib.resolve e p) = true
  /\ (forall w1 fid outdir,
        main_setup e a w = (w1, Ok (fid, outdir)) ->
        outdir = pathlib.resolve e p
        /\ dirs_down_to (fs w1) (parts outdir)
        /\ http_log w1 = http_log w
        /\ only_dirs_added (fs w) (fs w1)
        /\ forall w' r, main e a w = (w', r) ->
                        dirs_down_to (fs w') (parts outdir))
  /\ (forall w1 x,
        main_setup e a w = (w1, Raise x) -> main e a w = (w, Raise x))
  /\ (no_file_on (fs w) (parts (pathlib.resolve e p)) ->
      exists w1,
        main_setup e a w
        = (w1, Ok (extract_file_id (arg_fid a), pathlib.resolve e p)))
  /\ (pathlib.is_dir e (fs w) (pathlib.resolve e p) = true ->
      main_setup e a w
      = (w, Ok (extract_file_id (arg_fid a), pathlib.resolve e p))).
Proof.
  intros N X. pose proof (resolve_no_dotdot e p N) as Nr.
  split; [reflexivity |]. split; [| split; [| split]].
  - intros w1 fid outdir S.
    destruct (main_setup_inv _ _ _ _ _ S) as (Log & Added & _ & R & m & P & ->).
    rewrite X in R. injection R as <-.
    assert (D : dirs_down_to m (parts (pathlib.resolve e p))).
    { rewrite <- (rev_involutive (parts (pathlib.resolve e p))).
      apply (mkdir_parents_Ok_dirs e _ (fs w) m);
        [now apply not_elem_of_rev | exact P]. }
    repeat split; try assumption.
    intros w' r Run q Q. unfold main in Run.
    rewrite (bind_Ok _ _ _ _ _ S) in Run.
    refine (keeps_dirs_bind _ _ (keeps_dirs_main_fetch e _ _) _ _ _ _ Run q
              (D q Q)).
    intros [[target expected] actual]. apply keeps_dirs_main_verify.
  - intros w1 x S.
    destruct (main_setup_inv _ _ _ _ _ S) as (_ & _ & ->).
    unfold main. now rewrite (bind_Raise _ _ _ _ _ S).
  - intros F.
    destruct (mkdir_parents_ok e (rev (parts (pathlib.resolve e p))) (fs w))
      as [m P]; [now apply not_elem_of_rev | now rewrite rev_involutive |].
    exists (set_fs w m). unfold main_setup, bind, lift. rewrite X.
    cbn [map_result]. unfold pathlib.mkdir.
    change (is_absolute (pathlib.resolve e p)) with true. now rewrite P.
  - intros D. unfold main_setup, bind, lift. rewrite X.
    cbn [map_result]. unfold pathlib.mkdir.
    rewrite (mkdir_existing e (fs w) (pathlib.resolve e p) eq_refl D).
    now rewrite set_fs_same.
Qed.

End OutputDirectory.

(* ===================================================================== *)
(** ** The sample run *)
(* ===================================================================== *)

Section SampleRuns.

Lemma sample_cwd (status : Z) (filename digest : string) :
  ".." ∉ cwd (Sample.environment status filename digest).
Proof.
  cbn [cwd Sample.environment]. rewrite !not_elem_of_cons.
  repeat split; try discriminate. apply not_elem_of_nil.
Qed.

Lemma outdir_resolved_and_created_witness :
  pathlib.expanduser Sample.matching (pathlib.Path "data")
  = Ok (MkPath false ["data"])
  /\ main_setup Sample.matching Sample.arguments Sample.empty_world
     = (Sample.after_setup Sample.matching, Ok ("7", Sample.outdir))
  /\ dirs_down_to (fs (Sample.after_setup Sample.matching))
       ["home"; "u"; "data"].
Proof.
  assert (X : pathlib.expanduser Sample.matching
                (pathlib.Path (arg_outdir Sample.arguments))
              = Ok (MkPath false ["data"])) by (vm_compute; reflexivity).
  assert (S : main_setup Sample.matching Sample.arguments Sample.empty_world
              = (Sample.after_setup Sample.matching, Ok ("7", Sample.outdir)))
    by (vm_compute; reflexivity).
  destruct (outdir_resolved_and_created Sample.matching Sample.arguments
              Sample.empty_world (MkPath false ["data"])
              (sample_cwd _ _ _) X) as (_ & Created & _).
  destruct (Created _ _ _ S) as (_ & D & _).
  split; [exact X |]. split; [exact S | exact D].
Defined.

(** C8 as stated fails for an output directory that begins with [~] and
    the name of a user who has no home directory: [expanduser] raises,
    no path is resolved and nothing is created. It fails too when a
    regular file stands where the directory is to be: the run stops with
    [FileExistsError] before any request, the disk as it was. *)
Lemma outdir_of_unknown_user :
  pathlib.expanduser Sample.matching (pathlib.Path "~nosuchuser/out")
  = Raise RuntimeError
  /\ main Sample.matching (MkArgs "7" "~nosuchuser/out") Sample.empty_world
     = (Sample.empty_world, Raise RuntimeError)
  /\ main Sample.matching Sample.arguments Cases.file_in_the_way
     = (Cases.file_in_the_way, Raise FileExistsError).
Proof. repeat apply conj; vm_compute; reflexivity. Qed.

Lemma sha256_digest_compared_witness :
  main_fetch Sample.matching "7" Sample.outdir
    (Sample.after_setup Sample.matching)
  = (Sample.after_fetch Sample.matching,
     Ok (Sample.target, JStr Sample.sha256_abc_upper, Sample.sha256_abc))
  /\ snd (main Sample.matching Sample.arguments Sample.empty_world) = Ok tt.
Proof.
  assert (S : main_setup Sample.matching Sample.arguments Sample.empty_world
              = (Sample.after_setup Sample.matching, Ok ("7", Sample.outdir)))
    by (vm_compute; reflexivity).
  assert (F : main_fetch Sample.matching "7" Sample.outdir
                (Sample.after_setup Sample.matching)
              = (Sample.after_fetch Sample.matching,
                 Ok (Sample.target, JStr Sample.sha256_abc_upper,
                     Sample.sha256_abc)))
    by (vm_compute; reflexivity).
  split; [exact F |].
  destruct (sha256_digest_compared _ _ _ _ _ _ _ _ _ _ S F) as (_ & _ & _ & V).
  apply V. exists Sample.sha256_abc_upper.
  apply conj; vm_compute; reflexivity.
Defined.

Lemma mismatch_deletes_and_fails_witness :
  main_fetch Sample.mismatching "7" Sample.outdir
    (Sample.after_setup Sample.mismatching)
  = (Sample.after_fetch Sample.mismatching,
     Ok (Sample.target, JStr "00ff", Sample.sha256_abc))
  /\ Str.lower Sample.sha256_abc <> Str.lower "00ff"
  /\ (exists w3 msg,
        main Sample.mismatching Sample.arguments Sample.empty_world
        = (w3, Raise (SystemExit msg))
        /\ fs w3 !! ["home"; "u"; "data"; "f.bin"] = None)
  /\ snd (main_verify Sample.mismatching Sample.target (JStr "00ff")
            Sample.sha256_abc (Sample.after_setup Sample.mismatching))
     = Raise (SystemExit
                (mismatch_message Sample.mismatching (JStr "00ff")
                   Sample.sha256_abc)).
Proof.
  assert (S : main_setup Sample.mismatching Sample.arguments Sample.empty_world
              = (Sample.after_setup Sample.mismatching,
                 Ok ("7", Sample.outdir)))
    by (vm_compute; reflexivity).
  assert (F : main_fetch Sample.mismatching "7" Sample.outdir
                (Sample.after_setup Sample.mismatching)
              = (Sample.after_fetch Sample.mismatching,
                 Ok (Sample.target, JStr "00ff", Sample.sha256_abc)))
    by (vm_compute; reflexivity).
  assert (D : Str.lower Sample.sha256_abc <> Str.lower "00ff")
    by (vm_compute; discriminate).
  split; [exact F |]. split; [exact D |].
  destruct (mismatch_deletes_and_fails _ _ _ _ _ _ _ _ _ _ S F D)
    as ((w3 & msg & key & M & _ & _ & _ & L & _ & Gone) & Absent).
  split.
  - exists w3, msg. split; [exact M |].
    assert (K : key = ["home"; "u"; "data"; "f.bin"]).
    { vm_compute in L. now injection L as <-. }
    subst key. exact Gone.
  - rewrite (Absent (Sample.after_setup Sample.mismatching)
               ["home"; "u"; "data"; "f.bin"]);
      [reflexivity | vm_compute; reflexivity | vm_compute; reflexivity].
Defined.

(** C2 as stated fails when the digest of the metadata is not a string.
    With [null] for a digest the download completes and the digest
    computed is not that value, but the run ends with [AttributeError]:
    the file stays on disk, and no message names the two digests. *)
Lemma null_digest_not_deleted :
  subscript (Cases.metadata JNull) "digest" = Ok JNull
  /\ snd (main_fetch Cases.null_digest "7" Sample.outdir
            (Sample.after_setup Cases.null_digest))
     = Ok (Sample.target, JNull, Sample.sha256_abc)
  /\ snd (main Cases.null_digest Sample.arguments Sample.empty_world)
     = Raise AttributeError
  /\ fs (fst (main Cases.null_digest Sample.arguments Sample.empty_world))
       !! ["home"; "u"; "data"; "f.bin"]
     = Some (File (list_byte_of_string "abc")).
Proof. repeat apply conj; vm_compute; reflexivity. Qed.

Lemma verified_file_kept_witness :
  main_fetch Sample.matching "7" Sample.outdir
    (Sample.after_setup Sample.matching)
  = (Sample.after_fetch Sample.matching,
     Ok (Sample.target, JStr Sample.sha256_abc_upper, Sample.sha256_abc))
  /\ Str.lower Sample.sha256_abc = Str.lower Sample.sha256_abc_upper
  /\ exists w3,
       main Sample.matching Sample.arguments Sample.empty_world = (w3, Ok tt)
       /\ fs w3 = fs (Sample.after_fetch Sample.matching).
Proof.
  assert (S : main_setup Sample.matching Sample.arguments Sample.empty_world
              = (Sample.after_setup Sample.matching, Ok ("7", Sample.outdir)))
    by (vm_compute; reflexivity).
  assert (F : main_fetch Sample.matching "7" Sample.outdir
                (Sample.after_setup Sample.matching)
              = (Sample.after_fetch Sample.matching,
                 Ok (Sample.target, JStr Sample.sha256_abc_upper,
                     Sample.sha256_abc)))
    by (vm_compute; reflexivity).
  assert (E : Str.lower Sample.sha256_abc = Str.lower Sample.sha256_abc_upper)
    by (vm_compute; reflexivity).
  split; [exact F |]. split; [exact E |].
  destruct (verified_file_kept _ _ _ _ _ _ _ _ _ _ S F E)
    as (w3 & r & meta & filename & key & content & M & _ & Same & _).
  exists w3. exact (conj M Same).
Defined.

(** C3 as stated fails for a file name that is an absolute path: the run
    ends well, the file is at that path, and nothing is at
    [{outdir}/{filename}]. *)
Lemma absolute_filename_leaves_outdir :
  subscript (Sample.metadata "/f.bin" Sample.sha256_abc) "path"
  = Ok (JStr "/f.bin")
  /\ snd (main Sample.absolute_name Sample.arguments Sample.empty_world)
     = Ok tt
  /\ fs (fst (main Sample.absolute_name Sample.arguments Sample.empty_world))
       !! ["f.bin"]
     = Some (File (list_byte_of_string "abc"))
  /\ pathlib.locate Sample.absolute_name
       (fs (fst (main Sample.absolute_name Sample.arguments
                   Sample.empty_world)))
       (template_path Sample.outdir "/f.bin")
     = Ok ["home"; "u"; "data"; "f.bin"]
  /\ fs (fst (main Sample.absolute_name Sample.arguments Sample.empty_world))
       !! ["home"; "u"; "data"; "f.bin"]
     = None.
Proof. repeat apply conj; vm_compute; reflexivity. Qed.

Lemma metadata_error_aborts_witness :
  exit_status (snd (main Sample.not_found Sample.arguments Sample.empty_world))
  <> 0%Z
  /\ http_log (fst (main Sample.not_found Sample.arguments Sample.empty_world))
     = ["https://datadryad.org//api/v2/files/7"].
Proof.
  assert (H : http Sample.not_found
                (List.length (http_log Sample.empty_world))
                ("https://datadryad.org//api/v2/files/"
                   +:+ extract_file_id (arg_fid Sample.arguments))
              = Responded (MkResponse 404
                  (Some (Sample.metadata "f.bin" Sample.sha256_abc)) [] true))
    by (vm_compute; reflexivity).
  assert (R : (400 <= status_code (MkResponse 404
                  (Some (Sample.metadata "f.bin" Sample.sha256_abc)) [] true)
               < 600)%Z) by (cbn [status_code]; lia).
  destruct (metadata_error_aborts _ _ _ _ H R) as (E & _ & _).
  split; [exact E |]. vm_compute. reflexivity.
Defined.

(** C4 as stated fails for a status that is neither a success nor of the
    4xx or 5xx class. Status 300 is not one the library follows as a
    redirect, and [raise_for_status] lets it pass: with metadata in the
    body the run goes on to the download and ends well. *)
Lemma status_300_goes_on :
  http Sample.multiple_choices 0 "https://datadryad.org//api/v2/files/7"
  = Responded (MkResponse 300
      (Some (Sample.metadata "f.bin" Sample.sha256_abc)) [] true)
  /\ is_success 300 = false
  /\ http_log (fst (main Sample.multiple_choices Sample.arguments
                      Sample.empty_world))
     = ["https://datadryad.org//api/v2/files/7";
        "https://datadryad.org//api/v2/files/7/download"]
  /\ fs (fst (main Sample.multiple_choices Sample.arguments
                Sample.empty_world))
       !! ["home"; "u"; "data"; "f.bin"]
     = Some (File (list_byte_of_string "abc"))
  /\ exit_status (snd (main Sample.multiple_choices Sample.arguments
                         Sample.empty_world)) = 0%Z.
Proof. repeat apply conj; vm_compute; reflexivity. Qed.

End SampleRuns.

(* ===================================================================== *)
(** ** More on the identifier extractor *)
(* ===================================================================== *)

Section ExtractorMore.

Lemma extract_file_id_digits_fixed (d : string) :
  Str.all_chars Str.isdigit d = true -> extract_file_id d = d.
Proof.
  intros A. unfold extract_file_id.
  rewrite (proj2 (re_search_None d) (digits_no_pattern d A)).
  now apply strip_digits.
Qed.

(** X1: when the argument has a [/files/<digits>] in it, the result is a
    string of digits, not empty: the numeric identifier the docstring
    promises. *)
Theorem extract_file_id_numeric (s : string) :
  has_files_pattern s ->
  Str.all_chars Str.isdigit (extract_file_id s) = true
  /\ extract_file_id s <> "".
Proof.
  intros P. unfold extract_file_id.
  destruct (re_search s) as [d|] eqn:E.
  - now apply re_search_digits in E.
  - apply re_search_None in E. contradiction.
Qed.

Lemma extract_file_id_numeric_witness :
  has_files_pattern "https://datadryad.org/api/v2/files/7/download"
  /\ Str.all_chars Str.isdigit
       (extract_file_id "https://datadryad.org/api/v2/files/7/download") = true.
Proof.
  assert (P : has_files_pattern "https://datadryad.org/api/v2/files/7/download").
  { exists "https://datadryad.org/api/v2", "7", "/download".
    split; reflexivity. }
  split; [exact P |].
  exact (proj1 (extract_file_id_numeric _ P)).
Defined.

(** X2: whatever the argument, the result has no white space at either
    end: stripping it again changes nothing. *)
Theorem extract_file_id_stripped (s : string) :
  Str.strip (extract_file_id s) = extract_file_id s.
Proof.
  unfold extract_file_id. destruct (re_search s) as [d|] eqn:E.
  - apply strip_digits. now apply re_search_digits in E.
  - destruct (strip_spec s) as (l & r & _ & _ & _ & F & L).
    now apply strip_fixed.
Qed.

(** X3: the identifier captured is the whole run of digits after the
    leftmost [/files/] that a digit follows, whatever stands before and
    after. The digits are the decimal digits of any script, as [\d] has
    them. *)
Theorem extract_file_id_captures (pre ds post : string) :
  Str.all_chars Str.isdigit ds = true -> ds <> "" ->
  (forall c, Str.first_char post = Some c -> Str.isdigit c = false) ->
  (forall p d q, Str.isdigit d = true ->
     pre +:+ "/files/" +:+ ds +:+ post = p +:+ "/files/" +:+ d +:+ q ->
     String.length pre <= String.length p) ->
  extract_file_id (pre +:+ "/files/" +:+ ds +:+ post) = ds.
Proof.
  intros A N P L. unfold extract_file_id.
  now rewrite (re_search_first pre ds post A N P L).
Qed.

Lemma extract_file_id_captures_witness :
  extract_file_id
    ("  see https://datadryad.org/api/v2" +:+ "/files/" +:+ "0٤2"
       +:+ "?x=/files/9")
  = "0٤2".
Proof.
  apply (extract_file_id_captures "  see https://datadryad.org/api/v2" "0٤2"
           "?x=/files/9").
  - vm_compute. reflexivity.
  - discriminate.
  - intros c [= <-]. vm_compute. reflexivity.
  - apply (leftmost_by_no_match
             (String.length "  see https://datadryad.org/api/v2")).
    vm_compute. reflexivity.
Defined.

(** X4: a download URL and the identifier in it give the same run: [main]
    uses its first argument through the extractor only. *)
Theorem main_same_for_url_and_id (e : env) (pre ds post outdir : string)
        (w : world) :
  Str.all_chars Str.isdigit ds = true -> ds <> "" ->
  (forall c, Str.first_char post = Some c -> Str.isdigit c = false) ->
  (forall p d q, Str.isdigit d = true ->
     pre +:+ "/files/" +:+ ds +:+ post = p +:+ "/files/" +:+ d +:+ q ->
     String.length pre <= String.length p) ->
  main e (MkArgs (pre +:+ "/files/" +:+ ds +:+ post) outdir) w
  = main e (MkArgs ds outdir) w.
Proof.
  intros A N P L. unfold main, main_setup. cbn [arg_fid arg_outdir].
  rewrite (extract_file_id_digits_fixed ds A).
  unfold extract_file_id at 1.
  now rewrite (re_search_first pre ds post A N P L).
Qed.

Lemma main_same_for_url_and_id_witness :
  main Sample.matching
    (MkArgs ("https://datadryad.org/api/v2" +:+ "/files/" +:+ "7"
               +:+ "/download") "data")
    Sample.empty_world
  = main Sample.matching (MkArgs "7" "data") Sample.empty_world.
Proof.
  apply (main_same_for_url_and_id Sample.matching
           "https://datadryad.org/api/v2" "7" "/download").
  - vm_compute. reflexivity.
  - discriminate.
  - intros c [= <-]. vm_compute. reflexivity.
  - apply (leftmost_by_no_match
             (String.length "https://datadryad.org/api/v2")).
    vm_compute. reflexivity.
Defined.

End ExtractorMore.

(* ===================================================================== *)
(** ** The metadata fetcher and the hash of a file *)
(* ===================================================================== *)

Section FetchAndHash.

(** X5: [get_metadata] makes exactly one request, to the URL of the
    identifier, and changes nothing else, whatever comes back; it returns
    the parsed body exactly when the answer has no 4xx or 5xx status and a
    JSON body. *)
Theorem get_metadata_outcome (e : env) (fid : string) (w : world) :
  fst (get_metadata e fid w)
  = MkWorld (fs w) (http_log w ++ [metadata_url fid]) (stdout w) (progress w)
  /\ forall meta,
       snd (get_metadata e fid w) = Ok meta
       <-> exists r,
             http e (List.length (http_log w)) (metadata_url fid) = Responded r
             /\ is_error_status (status_code r) = false
             /\ json_body r = Some meta.
Proof.
  unfold get_metadata, bind, lift, metadata_url.
  rewrite API_FILE_value, format_API_FILE. unfold requests.get.
  destruct (http e _ _) as [|r] eqn:H.
  - split; [reflexivity |]. intros meta. split; [discriminate |].
    intros (r & R & _). discriminate R.
  - unfold requests.raise_for_status, is_error_status, requests.json_of.
    destruct ((400 <=? status_code r)%Z && (status_code r <? 600)%Z) eqn:S.
    + split; [reflexivity |]. intros meta. split; [discriminate |].
      intros (r' & [= <-] & S' & _). congruence.
    + destruct (json_body r) as [v|] eqn:J.
      * split; [reflexivity |]. intros meta. cbn [fst snd]. split.
        -- intros [= <-]. now exists r.
        -- intros (r' & [= <-] & _ & J'). congruence.
      * split; [reflexivity |]. intros meta. cbn [fst snd].
        split; [discriminate |].
        intros (r' & [= <-] & _ & J'). congruence.
Qed.

(** X6: [sha256sum] only reads. On a regular file it returns the SHA-256
    of the whole content in hexadecimal; a path where nothing is raises
    [FileNotFoundError] and a directory [IsADirectoryError]. *)
Theorem sha256sum_outcome (e : env) (p : path) (w : world) :
  fst (sha256sum e p w) = w
  /\ forall key,
       pathlib.locate e (fs w) p = Ok key ->
       snd (sha256sum e p w)
       = match pathlib.node_at (fs w) key with
         | Some (File content) => Ok (SHA256.hexdigest content)
         | Some Dir => Raise IsADirectoryError
         | None => Raise FileNotFoundError
         end.
Proof.
  unfold sha256sum, bind, ret, pathlib.open_rb.
  destruct (pathlib.locate e (fs w) p) as [key|x].
  - destruct (pathlib.node_at (fs w) key) as [[c|]|] eqn:Nd;
      (split; [reflexivity |]); intros k [= <-]; rewrite Nd; try reflexivity.
    cbn [snd]. unfold hashlib.hexdigest. now rewrite read_chunks_all by lia.
  - split; [reflexivity |]. discriminate.
Qed.

Lemma lower_ascii_cons (c : ascii) (s : string) :
  Str.lead c = 1 ->
  Str.lower (String c s) = Str.lower_char (String c "") +:+ Str.lower s.
Proof.
  intros L. unfold Str.lower.
  change (String c s) with (String c "" +:+ s).
  rewrite chars_proper; [reflexivity |].
  cbn [Str.ord]. now rewrite L.
Qed.

Lemma lower_hex_digit (d : Z) :
  (0 <= d < 16)%Z ->
  Str.lead (SHA256.hex_digit d) = 1
  /\ Str.lower_char (String (SHA256.hex_digit d) "")
     = String (SHA256.hex_digit d) "".
Proof.
  intros R. rewrite <- (Z2Nat.id d) by lia.
  assert (L : Z.to_nat d < 16) by lia. revert L.
  generalize (Z.to_nat d). intros n L.
  do 16 (destruct n as [|n]; [split; reflexivity |]). lia.
Qed.

Lemma lower_hex_of (n : nat) (x : Z) (t : string) :
  Str.lower (SHA256.hex_of n x +:+ t) = SHA256.hex_of n x +:+ Str.lower t.
Proof.
  induction n as [|n IH]; [reflexivity |].
  cbn [SHA256.hex_of]. rewrite append_cons.
  destruct (lower_hex_digit (Z.shiftr x (4 * Z.of_nat n) mod 16)) as [L E];
    [apply Z.mod_pos_bound; lia |].
  rewrite (lower_ascii_cons _ _ L), E, IH. reflexivity.
Qed.

(** X7: the digest [sha256sum] returns is in lower case already, so the
    comparison of [main] comes to comparing it with the expected digest in
    lower case. *)
Theorem hexdigest_lower_case (msg : list byte) (expected : string) :
  Str.lower (SHA256.hexdigest msg) = SHA256.hexdigest msg
  /\ digests_differ (SHA256.hexdigest msg) expected
     = negb (String.eqb (SHA256.hexdigest msg) (Str.lower expected)).
Proof.
  assert (L : Str.lower (SHA256.hexdigest msg) = SHA256.hexdigest msg).
  { unfold SHA256.hexdigest. induction (SHA256.digest_words msg) as [|x l IH];
      [reflexivity |].
    cbn [map SHA256.concat_str]. now rewrite lower_hex_of, IH. }
  split; [exact L |]. unfold digests_differ. now rewrite L.
Qed.

End FetchAndHash.

(* ===================================================================== *)
(** ** The downloader *)
(* ===================================================================== *)

Section Downloader.

Lemma world_eta (w : world) :
  MkWorld (fs w) (http_log w) (stdout w) (progress w) = w.
Proof. now destruct w. Qed.

(** The loop of [download] appends every chunk to the open file and
    reports the length of each one that is not empty. *)
Lemma write_chunks_spec (fh : list string) (chunks : list (list byte)) :
  forall (w : world) (c : list byte),
    fs w !! fh = Some (File c) ->
    write_chunks fh chunks w
    = (MkWorld (<[fh := File (c ++ List.concat chunks)]> (fs w)) (http_log w)
         (stdout w) (progress w ++ chunk_lengths chunks), Ok tt).
Proof.
  induction chunks as [|chunk r IH]; intros w c F.
  - cbn [write_chunks List.concat chunk_lengths]. unfold ret.
    rewrite !app_nil_r, (insert_id _ _ _ F). now rewrite world_eta.
  - cbn [write_chunks]. destruct chunk as [|b chunk].
    + unfold bind at 1. unfold ret at 1. rewrite (IH w c F). reflexivity.
    + unfold bind at 1. unfold bind at 1. unfold pathlib.write at 1.
      rewrite F. unfold bar_update. cbn [fs set_fs http_log stdout progress].
      rewrite (IH _ (c ++ b :: chunk)) by apply lookup_insert_eq.
      cbn [fs http_log stdout progress List.concat chunk_lengths].
      rewrite insert_insert_eq, <- !app_assoc. reflexivity.
Qed.

Lemma sum_chunk_lengths (chunks : list (list byte)) :
  sum_list (chunk_lengths chunks) = List.length (List.concat chunks).
Proof.
  induction chunks as [|chunk r IH]; [reflexivity |].
  destruct chunk as [|b chunk]; [exact IH |].
  cbn [chunk_lengths sum_list List.concat]. rewrite length_app, IH. reflexivity.
Qed.

(** What [download] does once the server has answered without an error
    status and the destination can be opened. *)
Lemma download_streamed (e : env) (url : string) (dest : path) (total : json)
      (w : world) (r : response) (key : list string) :
  http e (List.length (http_log w)) url = Responded r ->
  is_error_status (status_code r) = false ->
  pathlib.locate e (fs w) dest = Ok key ->
  pathlib.node_at (fs w) key <> Some Dir ->
  tqdm_accepts e total = true ->
  download e url dest total w
  = (MkWorld (<[key := File (List.concat (content_chunks r))]> (fs w))
       (http_log w ++ [url]) (stdout w)
       (progress w ++ chunk_lengths (content_chunks r)),
     if stream_ok r then Ok tt else Raise RequestException).
Proof.
  intros H S L Nd T. unfold download.
  unfold bind at 1. unfold requests.get. rewrite H.
  unfold bind at 1. unfold lift, requests.raise_for_status.
  unfold is_error_status in S. rewrite S.
  unfold bind at 1. unfold pathlib.open_wb. cbn [fs]. rewrite L.
  assert (O : match pathlib.node_at (fs w) key with
              | Some Dir =>
                  (MkWorld (fs w) (http_log w ++ [url]) (stdout w) (progress w),
                   @Raise (list string) IsADirectoryError)
              | _ =>
                  (set_fs (MkWorld (fs w) (http_log w ++ [url]) (stdout w)
                             (progress w))
                     (<[key := File []]> (fs w)), Ok key)
              end
              = (set_fs (MkWorld (fs w) (http_log w ++ [url]) (stdout w)
                           (progress w))
                   (<[key := File []]> (fs w)), Ok key)).
  { destruct (pathlib.node_at (fs w) key) as [[c|]|]; congruence. }
  rewrite O. unfold bind at 1. rewrite T. unfold ret at 1.
  unfold bind at 1.
  rewrite (write_chunks_spec key (content_chunks r) _ [])
    by apply lookup_insert_eq.
  cbn [fs set_fs http_log stdout progress app]. rewrite insert_insert_eq.
  destruct (stream_ok r); reflexivity.
Qed.

(** X8: a download that goes through leaves at the destination exactly the
    bytes of the chunks received, in their order, in place of whatever was
    there; it makes one request and reports as progress as many bytes as
    it wrote. The declared size plays no part. *)
Theorem download_writes_all (e : env) (url : string) (dest : path)
        (total : json) (w : world) (r : response) (key : list string) :
  http e (List.length (http_log w)) url = Responded r ->
  is_error_status (status_code r) = false ->
  pathlib.locate e (fs w) dest = Ok key ->
  pathlib.node_at (fs w) key <> Some Dir ->
  tqdm_accepts e total = true ->
  stream_ok r = true ->
  download e url dest total w
  = (MkWorld (<[key := File (List.concat (content_chunks r))]> (fs w))
       (http_log w ++ [url]) (stdout w)
       (progress w ++ chunk_lengths (content_chunks r)), Ok tt)
  /\ sum_list (chunk_lengths (content_chunks r))
     = List.length (List.concat (content_chunks r)).
Proof.
  intros H S L Nd T K. split; [| apply sum_chunk_lengths].
  rewrite (download_streamed e url dest total w r key H S L Nd T).
  now rewrite K.
Qed.

(** X10: when the stream breaks off, [download] raises and leaves at the
    destination what it had received: the partial file is not removed. *)
Theorem download_broken_leaves_partial (e : env) (url : string) (dest : path)
        (total : json) (w : world) (r : response) (key : list string) :
  http e (List.length (http_log w)) url = Responded r ->
  is_error_status (status_code r) = false ->
  pathlib.locate e (fs w) dest = Ok key ->
  pathlib.node_at (fs w) key <> Some Dir ->
  tqdm_accepts e total = true ->
  stream_ok r = false ->
  snd (download e url dest total w) = Raise RequestException
  /\ fs (fst (download e url dest total w))
     = <[key := File (List.concat (content_chunks r))]> (fs w).
Proof.
  intros H S L Nd T K.
  rewrite (download_streamed e url dest total w r key H S L Nd T).
  now rewrite K.
Qed.

(** X9: when the connection fails or the server answers with a 4xx or 5xx
    status, [download] raises before it opens the destination: no file is
    created, emptied or changed. *)
Theorem download_refused_writes_nothing (e : env) (url : string) (dest : path)
        (total : json) (w : world) :
  (http e (List.length (http_log w)) url = ConnectionFailed
   \/ exists r, http e (List.length (http_log w)) url = Responded r
                /\ is_error_status (status_code r) = true) ->
  fs (fst (download e url dest total w)) = fs w
  /\ http_log (fst (download e url dest total w)) = http_log w ++ [url]
  /\ exists x, snd (download e url dest total w) = Raise x.
Proof.
  intros H. unfold download, bind, requests.get, lift.
  destruct H as [H|(r & H & S)]; rewrite H.
  - repeat split. now exists RequestException.
  - unfold requests.raise_for_status. unfold is_error_status in S. rewrite S.
    repeat split. now exists (HTTPError (status_code r)).
Qed.

End Downloader.

(* ===================================================================== *)
(** ** The whole run *)
(* ===================================================================== *)

Section WholeRun.

Lemma get_metadata_world (e : env) (fid : string) (w : world) :
  fst (get_metadata e fid w)
  = MkWorld (fs w) (http_log w ++ [metadata_url fid]) (stdout w) (progress w).
Proof.
  unfold get_metadata, bind, lift, metadata_url.
  rewrite API_FILE_value, format_API_FILE. unfold requests.get.
  destruct (http e _ _) as [|r]; [reflexivity |].
  destruct (requests.raise_for_status r); [| reflexivity].
  destruct (requests.json_of r); reflexivity.
Qed.

Lemma get_metadata_Ok (e : env) (fid : string) (w w' : world) (meta : json) :
  get_metadata e fid w = (w', Ok meta) ->
  exists r,
    http e (List.length (http_log w)) (metadata_url fid) = Responded r
    /\ json_body r = Some meta.
Proof.
  intros G. apply get_metadata_Ok_inv in G as (_ & r & H & _ & J).
  now exists r.
Qed.

(** [download] in all its cases. *)
Lemma download_unfold (e : env) (url : string) (dest : path) (total : json)
      (w : world) :
  download e url dest total w
  = let w1 := MkWorld (fs w) (http_log w ++ [url]) (stdout w) (progress w) in
    match http e (List.length (http_log w)) url with
    | ConnectionFailed => (w1, Raise RequestException)
    | Responded r =>
        if is_error_status (status_code r)
        then (w1, Raise (HTTPError (status_code r)))
        else
          match pathlib.locate e (fs w) dest with
          | Raise x => (w1, Raise x)
          | Ok key =>
              match pathlib.node_at (fs w) key with
              | Some Dir => (w1, Raise IsADirectoryError)
              | _ =>
                  if tqdm_accepts e total then
                    (MkWorld (<[key := File (List.concat (content_chunks r))]>
                                (fs w))
                       (http_log w ++ [url]) (stdout w)
                       (progress w ++ chunk_lengths (content_chunks r)),
                     if stream_ok r then Ok tt else Raise RequestException)
                  else
                    (MkWorld (<[key := File []]> (fs w))
                       (http_log w ++ [url]) (stdout w) (progress w),
                     Raise TypeError)
              end
          end
    end.
Proof.
  cbv zeta.
  destruct (http e (List.length (http_log w)) url) as [|r] eqn:H.
  - unfold download, bind, requests.get. now rewrite H.
  - destruct (is_error_status (status_code r)) eqn:S.
    + unfold download, bind, requests.get, lift, requests.raise_for_status.
      unfold is_error_status in S. now rewrite H, S.
    + destruct (pathlib.locate e (fs w) dest) as [key|x] eqn:L.
      * destruct (tqdm_accepts e total) eqn:T.
        -- destruct (pathlib.node_at (fs w) key) as [[c|]|] eqn:Nd.
           ++ apply (download_streamed e url dest total w r key H S L);
                [congruence | exact T].
           ++ unfold download, bind, requests.get, lift,
                requests.raise_for_status, pathlib.open_wb.
              unfold is_error_status in S. rewrite H, S. cbn [fs].
              now rewrite L, Nd.
           ++ apply (download_streamed e url dest total w r key H S L);
                [congruence | exact T].
        -- unfold download, bind, requests.get, lift,
             requests.raise_for_status, pathlib.open_wb, raise.
           unfold is_error_status in S. rewrite H, S. cbn [fs].
           rewrite L, T.
           destruct (pathlib.node_at (fs w) key) as [[c|]|]; reflexivity.
      * unfold download, bind, requests.get, lift,
          requests.raise_for_status, pathlib.open_wb.
        unfold is_error_status in S. rewrite H, S. cbn [fs]. now rewrite L.
Qed.

(** Whatever [download] does, it makes one request and changes at most the
    file at its destination, which it then leaves a regular file. *)
Lemma download_cases (e : env) (url : string) (dest : path) (total : json)
      (w w' : world) (res : result unit) :
  download e url dest total w = (w', res) ->
  http_log w' = http_log w ++ [url]
  /\ (fs w' = fs w
      \/ exists key c,
           pathlib.locate e (fs w) dest = Ok key
           /\ pathlib.node_at (fs w) key <> Some Dir
           /\ fs w' = <[key := File c]> (fs w)).
Proof.
  rewrite download_unfold. cbv zeta.
  assert (Same : forall (w1 : world) (r1 : result unit),
            fs w1 = fs w -> http_log w1 = http_log w ++ [url] ->
            (w1, r1) = (w', res) ->
            http_log w' = http_log w ++ [url]
            /\ (fs w' = fs w
                \/ exists key c,
                     pathlib.locate e (fs w) dest = Ok key
                     /\ pathlib.node_at (fs w) key <> Some Dir
                     /\ fs w' = <[key := File c]> (fs w))).
  { intros w1 r1 F L [= <- _]. split; [exact L | now left]. }
  destruct (http e _ url) as [|r]; [now apply Same |].
  destruct (is_error_status _); [now apply Same |].
  destruct (pathlib.locate e (fs w) dest) as [key|x]; [| now apply Same].
  destruct (pathlib.node_at (fs w) key) as [[c|]|] eqn:Nd;
    try (now apply Same);
    destruct (tqdm_accepts e total); intros [= <- _];
    (split; [reflexivity |]); right; eexists key, _;
    (split; [reflexivity |]); (split; [congruence | reflexivity]).
Qed.

Lemma download_Ok (e : env) (url : string) (dest : path) (total : json)
      (w w' : world) :
  download e url dest total w = (w', Ok tt) ->
  exists r key,
    http e (List.length (http_log w)) url = Responded r
    /\ pathlib.locate e (fs w) dest = Ok key
    /\ pathlib.node_at (fs w) key <> Some Dir
    /\ fs w' = <[key := File (List.concat (content_chunks r))]> (fs w).
Proof.
  rewrite download_unfold. cbv zeta.
  destruct (http e _ url) as [|r]; [discriminate |].
  destruct (is_error_status _); [discriminate |].
  destruct (pathlib.locate e (fs w) dest) as [key|x]; [| discriminate].
  destruct (pathlib.node_at (fs w) key) as [[c|]|] eqn:Nd;
    try discriminate;
    (destruct (tqdm_accepts e total); [| discriminate]);
    intros [= <- _]; exists r, key; repeat split; congruence.
Qed.

End WholeRun.

Section FetchCases.

Lemma bind_lift_cases {A B} (r0 : result A) (k : A -> M B) (w : world) :
  bind (lift r0) k w
  = match r0 with
    | Ok a => k a w
    | Raise x => (w, Raise x)
    end.
Proof. unfold bind, lift. now destruct r0. Qed.

Lemma bind_print_cases {B} (e : env) (s : string) (k : unit -> M B) (w : world) :
  bind (print e s) k w
  = if Str.all_chars is_ascii s || stdout_encodes e s
    then k tt (MkWorld (fs w) (http_log w) (stdout w ++ [s]) (progress w))
    else (w, Raise UnicodeEncodeError).
Proof. unfold bind, print. now destruct (_ || _). Qed.

Lemma sha256sum_world (e : env) (p : path) (w : world) :
  fst (sha256sum e p w) = w.
Proof.
  unfold sha256sum, bind, ret, pathlib.open_rb.
  destruct (pathlib.locate e (fs w) p) as [key|x]; [| reflexivity].
  now destruct (pathlib.node_at (fs w) key) as [[c|]|].
Qed.

Lemma joinpath_Ok (outdir target : path) (v : json) :
  pathlib.joinpath outdir v = Ok target -> exists f, v = JStr f.
Proof. destruct v; try discriminate. intros _. now eexists. Qed.

(** A run of [main_fetch] either stops before the download, having made
    the metadata request only and changed no file, or has complete
    metadata and goes through [download], after which it changes no file
    and makes no request. *)
Lemma main_fetch_cases (e : env) (fid : string) (outdir : path)
      (w w' : world) (res : result (path * json * string)) :
  main_fetch e fid outdir w = (w', res) ->
  (fs w' = fs w
   /\ http_log w' = http_log w ++ [metadata_url fid]
   /\ exists x, res = Raise x)
  \/ exists r meta f expected size href target w5 w6 dres,
       http e (List.length (http_log w)) (metadata_url fid) = Responded r
       /\ json_body r = Some meta
       /\ complete_metadata meta f expected size href
       /\ pathlib.joinpath outdir (JStr f) = Ok target
       /\ fs w5 = fs w
       /\ http_log w5 = http_log w ++ [metadata_url fid]
       /\ download e (download_url e href) target size w5 = (w6, dres)
       /\ fs w' = fs w6
       /\ http_log w' = http_log w6
       /\ (forall v, res = Ok v ->
             dres = Ok tt
             /\ exists actual, v = (target, expected, actual)
                  /\ sha256sum e target w' = (w', Ok actual)).
Proof.
  unfold main_fetch. unfold bind at 1.
  pose proof (get_metadata_world e fid w) as W.
  destruct (get_metadata e fid w) as [w1 [meta|x]] eqn:G; cbn [fst] in W;
    subst w1; [| intros [= <- <-]; left; cbn; eauto].
  destruct (get_metadata_Ok _ _ _ _ _ G) as (r & Hr & J). clear G.
  rewrite bind_print_cases.
  destruct (_ || _); [| intros [= <- <-]; left; cbn; eauto].
  rewrite bind_lift_cases.
  destruct (subscript meta "path") as [filename|x] eqn:Hpath;
    [| intros [= <- <-]; left; cbn; eauto].
  rewrite bind_lift_cases.
  destruct (subscript meta "digest") as [expected|x] eqn:Hdigest;
    [| intros [= <- <-]; left; cbn; eauto].
  rewrite bind_lift_cases.
  destruct (subscript meta "size") as [size|x] eqn:Hsize;
    [| intros [= <- <-]; left; cbn; eauto].
  rewrite bind_lift_cases.
  destruct (pathlib.joinpath outdir filename) as [target|x] eqn:Hjoin;
    [| intros [= <- <-]; left; cbn; eauto].
  destruct (joinpath_Ok _ _ _ Hjoin) as [f ->].
  rewrite bind_print_cases.
  destruct (_ || _); [| intros [= <- <-]; left; cbn; eauto].
  rewrite bind_lift_cases.
  destruct (subscript meta "_links") as [links|x] eqn:Hlinks;
    [| intros [= <- <-]; left; cbn; eauto].
  rewrite bind_lift_cases.
  destruct (subscript links "stash:download") as [stash|x] eqn:Hstash;
    [| intros [= <- <-]; left; cbn; eauto].
  rewrite bind_lift_cases.
  destruct (subscript stash "href") as [href|x] eqn:Hhref;
    [| intros [= <- <-]; left; cbn; eauto].
  rewrite bind_lift_cases, format_DATADRYAD_URL.
  fold (download_url e href).
  match goal with
  | |- bind (download _ _ _ _) _ ?w5 = _ -> _ => set (w5' := w5)
  end.
  intros Run. right.
  destruct (download e (download_url e href) target size w5')
    as [w6 dres] eqn:D.
  exists r, meta, f, expected, size, href, target, w5', w6, dres.
  assert (C : complete_metadata meta f expected size href).
  { repeat split; try assumption. now exists links, stash. }
  unfold bind at 1 in Run. rewrite D in Run.
  destruct dres as [[]|x].
  - rewrite bind_print_cases in Run. destruct (_ || _).
    + unfold bind in Run.
      pose proof (sha256sum_world e target
        (MkWorld (fs w6) (http_log w6)
           (stdout w6 ++ ["↪ download complete, verifying checksum..."])
           (progress w6))) as Wsha.
      destruct (sha256sum e target _) as [w7 [actual|x]] eqn:Sha;
        cbn [fst] in Wsha; subst w7.
      * unfold ret in Run. injection Run as <- <-.
        do 9 (split; [first [assumption | reflexivity] |]).
        intros v [= <-]. split; [reflexivity |].
        exists actual. split; [reflexivity | exact Sha].
      * injection Run as <- <-.
        do 9 (split; [first [assumption | reflexivity] |]). discriminate.
    + injection Run as <- <-.
      do 9 (split; [first [assumption | reflexivity] |]). discriminate.
  - injection Run as <- <-.
    do 9 (split; [first [assumption | reflexivity] |]). discriminate.
Qed.

End FetchCases.

Section VerifyCases.

Lemma main_verify_Ok (e : env) (target : path) (expected : json)
      (actual : string) (w w' : world) (u : unit) :
  main_verify e target expected actual w = (w', Ok u) ->
  exists exp,
    expected = JStr exp
    /\ Str.lower actual = Str.lower exp
    /\ w' = MkWorld (fs w) (http_log w) (stdout w ++ ["OK - checksums match."])
              (progress w).
Proof.
  destruct expected as [| | |exp| |];
    try (rewrite main_verify_no_lower by discriminate; discriminate).
  destruct (String.eqb_spec (Str.lower actual) (Str.lower exp)) as [E|N].
  - rewrite (main_verify_match _ _ _ _ _ E). intros [= <-]. now exists exp.
  - rewrite main_verify_test. unfold digests_differ.
    apply String.eqb_neq in N. rewrite N. cbn [negb].
    unfold bind, raise.
    destruct (pathlib.unlink e true target w) as [w1 [[]|x]]; discriminate.
Qed.

(** The last block of [main] makes no request and changes no file, but
    for the target when it deletes it. *)
Lemma main_verify_cases (e : env) (target : path) (expected : json)
      (actual : string) (w w' : world) (res : result unit) :
  main_verify e target expected actual w = (w', res) ->
  http_log w' = http_log w
  /\ (fs w' = fs w
      \/ exists key c,
           pathlib.locate e (fs w) target = Ok key
           /\ pathlib.node_at (fs w) key = Some (File c)
           /\ fs w' = delete key (fs w)).
Proof.
  destruct expected as [| | |exp| |];
    try (rewrite main_verify_no_lower by discriminate;
         intros [= <- _]; split; [reflexivity | now left]).
  rewrite main_verify_test. destruct (digests_differ actual exp).
  - unfold bind, raise, pathlib.unlink.
    destruct (pathlib.locate e (fs w) target) as [key|x] eqn:L.
    + destruct (pathlib.node_at (fs w) key) as [[c|]|] eqn:Nd;
        intros [= <- _]; (split; [reflexivity |]);
        [right; now exists key, c | now left | now left].
    + destruct (pathlib.is_FileNotFoundError x); intros [= <- _];
        (split; [reflexivity | now left]).
  - unfold bind at 1. unfold ret at 1. unfold print.
    destruct (_ || _); intros [= <- _]; (split; [reflexivity | now left]).
Qed.

Lemma walk_same_dirs (m m' : gmap (list string) node) (l : list string) :
  same_dirs m m' ->
  forall racc key,
    pathlib.walk m racc l = Ok key -> pathlib.walk m' racc l = Ok key.
Proof.
  intros S. induction l as [|c r IH]; intros racc key; [trivial |].
  cbn [pathlib.walk]. destruct (String.eqb c ".."); [apply IH |].
  destruct r as [|c' r']; [trivial |].
  destruct (pathlib.node_at m (rev (c :: racc))) as [[f|]|] eqn:Nd;
    try discriminate.
  apply S in Nd. rewrite Nd. apply IH.
Qed.

Lemma same_dirs_insert_file (m : gmap (list string) node) (key : list string)
      (c : list byte) :
  pathlib.node_at m key <> Some Dir -> same_dirs m (<[key := File c]> m).
Proof.
  intros N k. destruct k as [|x k]; [reflexivity |].
  cbn [pathlib.node_at]. destruct (decide (x :: k = key)) as [<-|Q].
  - rewrite lookup_insert_eq. cbn [pathlib.node_at] in N.
    split; [contradiction | discriminate].
  - now rewrite lookup_insert_ne.
Qed.

Lemma locate_after_write (e : env) (m : gmap (list string) node)
      (p : path) (key k : list string) (c : list byte) :
  pathlib.node_at m k <> Some Dir ->
  pathlib.locate e m p = Ok key ->
  pathlib.locate e (<[k := File c]> m) p = Ok key.
Proof.
  intros N. unfold pathlib.locate. apply walk_same_dirs.
  now apply same_dirs_insert_file.
Qed.

End VerifyCases.

Section MainCases.

Variable e : env.
Variable a : args.

(** The ways a run of [main] goes: the output directory cannot be made;
    or the run stops before the download, with the metadata request made
    and no file changed; or the metadata are complete and the run goes
    through [download] and, if that ends well, through the comparison. *)
Lemma main_cases (w w' : world) (res : result unit) :
  main e a w = (w', res) ->
  (w' = w /\ exists x, res = Raise x)
  \/ exists outdir w1,
       main_setup e a w = (w1, Ok (extract_file_id (arg_fid a), outdir))
       /\ ((fs w' = fs w1
            /\ http_log w' = http_log w
                             ++ [metadata_url (extract_file_id (arg_fid a))]
            /\ exists x, res = Raise x)
           \/ exists r meta f expected size href target w5 w6 dres,
                http e (List.length (http_log w))
                     (metadata_url (extract_file_id (arg_fid a)))
                = Responded r
                /\ json_body r = Some meta
                /\ complete_metadata meta f expected size href
                /\ pathlib.joinpath outdir (JStr f) = Ok target
                /\ fs w5 = fs w1
                /\ http_log w5
                   = http_log w ++ [metadata_url (extract_file_id (arg_fid a))]
                /\ download e (download_url e href) target size w5 = (w6, dres)
                /\ http_log w' = http_log w6
                /\ (fs w' = fs w6
                    \/ exists key c,
                         dres = Ok tt
                         /\ pathlib.locate e (fs w6) target = Ok key
                         /\ pathlib.node_at (fs w6) key = Some (File c)
                         /\ fs w' = delete key (fs w6))
                /\ (res = Ok tt ->
                    dres = Ok tt
                    /\ fs w' = fs w6
                    /\ last (stdout w') = Some "OK - checksums match."
                    /\ exists exp key content,
                         expected = JStr exp
                         /\ pathlib.locate e (fs w6) target = Ok key
                         /\ pathlib.node_at (fs w6) key = Some (File content)
                         /\ Str.lower (SHA256.hexdigest content)
                            = Str.lower exp)).
Proof.
  unfold main. unfold bind at 1.
  destruct (main_setup e a w) as [w1 [[fid outdir]|x]] eqn:S;
    destruct (main_setup_inv _ _ _ _ _ S) as (Log & _ & R).
  2: { subst w1. intros [= <- <-]. left. eauto. }
  destruct R as (-> & _ & _). intros Run. right. exists outdir, w1.
  split; [reflexivity |]. unfold bind at 1 in Run.
  destruct (main_fetch e (extract_file_id (arg_fid a)) outdir w1)
    as [w2 fres] eqn:F.
  destruct (main_fetch_cases _ _ _ _ _ _ F)
    as [(Ffs & Flog & x & ->)
       |(r & meta & f & expected & size & href & target & w5 & w6 & dres
         & Hr & J & C & Hjoin & F5 & L5 & D & F2 & L2 & V)].
  - injection Run as <- <-. left. rewrite Log in Flog. eauto.
  - right. exists r, meta, f, expected, size, href, target, w5, w6, dres.
    rewrite Log in Hr, L5.
    do 7 (split; [assumption |]).
    destruct fres as [v|x].
    + destruct (V v eq_refl) as (-> & actual & -> & Sha).
      destruct (main_verify_cases _ _ _ _ _ _ _ Run) as [VL VF].
      split; [congruence |]. split.
      * destruct VF as [VF|(key & c & Lk & Nd & Del)]; [left; congruence |].
        right. exists key, c. rewrite F2 in Lk, Nd, Del. now repeat split.
      * intros ->.
        destruct (main_verify_Ok _ _ _ _ _ _ _ Run) as (exp & -> & E & ->).
        cbn [fs stdout]. split; [reflexivity |]. split; [exact F2 |].
        split; [apply last_snoc |].
        apply sha256sum_Ok_inv in Sha as (_ & key & content & Lk & Nd & ->).
        exists exp, key, content. rewrite F2 in Lk, Nd. now repeat split.
    + injection Run as <- <-. split; [exact L2 |].
      split; [now left | discriminate].
Qed.

End MainCases.

Section Requests.

Ltac print_step :=
  match goal with
  | |- context [bind (print ?e ?s) ?k ?w] => rewrite (bind_print_cases e s k w)
  end.

Lemma get_metadata_responded (e : env) (fid : string) (w : world)
      (r : response) (meta : json) :
  http e (List.length (http_log w)) (metadata_url fid) = Responded r ->
  is_error_status (status_code r) = false ->
  json_body r = Some meta ->
  get_metadata e fid w
  = (MkWorld (fs w) (http_log w ++ [metadata_url fid]) (stdout w) (progress w),
     Ok meta).
Proof.
  intros H S J. unfold get_metadata, bind, lift, metadata_url in *.
  rewrite API_FILE_value, format_API_FILE. unfold requests.get.
  rewrite H. unfold requests.raise_for_status.
  unfold is_error_status in S. rewrite S.
  unfold requests.json_of. now rewrite J.
Qed.

(** With complete metadata and a standard output that takes every line,
    [main_fetch] gets to the download. *)
Lemma main_fetch_downloads (e : env) (fid : string) (outdir : path)
      (w : world) (r : response) (meta : json) (f : string)
      (expected size href : json) :
  http e (List.length (http_log w)) (metadata_url fid) = Responded r ->
  is_error_status (status_code r) = false ->
  json_body r = Some meta ->
  complete_metadata meta f expected size href ->
  (forall s, stdout_encodes e s = true) ->
  http_log (fst (main_fetch e fid outdir w))
  = http_log w ++ [metadata_url fid; download_url e href].
Proof.
  intros H S J (Hpath & Hdigest & Hsize & links & stash & Hl & Hs & Hh) Enc.
  assert (Hj : exists target, pathlib.joinpath outdir (JStr f) = Ok target).
  { unfold pathlib.joinpath. destruct (is_absolute _); eauto. }
  destruct Hj as [target Hj].
  unfold main_fetch.
  rewrite (bind_Ok _ _ _ _ _ (get_metadata_responded _ _ _ _ _ H S J)).
  cbv beta. print_step. rewrite Enc, orb_true_r.
  rewrite bind_lift_cases, Hpath. cbv beta iota.
  rewrite bind_lift_cases, Hdigest. cbv beta iota.
  rewrite bind_lift_cases, Hsize. cbv beta iota.
  rewrite bind_lift_cases, Hj. cbv beta iota.
  print_step. rewrite Enc, orb_true_r.
  rewrite bind_lift_cases, Hl. cbv beta iota.
  rewrite bind_lift_cases, Hs. cbv beta iota.
  rewrite bind_lift_cases, Hh. cbv beta iota.
  rewrite bind_lift_cases, format_DATADRYAD_URL. cbv beta iota.
  fold (download_url e href). unfold bind at 1.
  match goal with
  | |- context [download e ?u ?t ?sz ?w5] =>
      destruct (download e u t sz w5) as [w6 dres] eqn:D
  end.
  destruct (download_cases _ _ _ _ _ _ _ D) as [L6 _]. cbn [http_log] in L6.
  assert (L : http_log w6
              = http_log w ++ [metadata_url fid; download_url e href])
    by (rewrite L6, <- app_assoc; reflexivity).
  destruct dres as [[]|y]; [| exact L].
  print_step. rewrite Enc, orb_true_r. unfold bind at 1.
  match goal with
  | |- context [sha256sum e ?t ?w7] =>
      pose proof (sha256sum_world e t w7) as W;
      destruct (sha256sum e t w7) as [w8 [actual|y]]
  end; cbn [fst] in W; subst w8; exact L.
Qed.

Lemma main_log_after_fetch (e : env) (a : args) (w w1 : world) (outdir : path) :
  main_setup e a w = (w1, Ok (extract_file_id (arg_fid a), outdir)) ->
  http_log (fst (main e a w))
  = http_log (fst (main_fetch e (extract_file_id (arg_fid a)) outdir w1)).
Proof.
  intros S. unfold main. rewrite (bind_Ok _ _ _ _ _ S). unfold bind.
  destruct (main_fetch e _ outdir w1) as [w2 [[[target expected] actual]|x]];
    [| reflexivity].
  cbn [fst].
  destruct (main_verify e target expected actual w2) as [w3 res] eqn:V.
  now destruct (main_verify_cases _ _ _ _ _ _ _ V) as [L _].
Qed.

(** C10: both URLs that [main] requests have two slashes after the host.
    When the output directory is there, the metadata answer is no error
    and has all its fields, with a download link [h] that begins with a
    slash, and every line can be printed, the run requests
    [https://datadryad.org//api/v2/files/] followed by the identifier and
    then [https://datadryad.org/] followed by [h], whatever the download
    and the comparison come to. The metadata fetcher asks that URL for
    every identifier. *)
Theorem urls_have_double_slash (e : env) (a : args) (w w1 : world)
        (outdir : path) (r : response) (meta : json) (f : string)
        (expected size : json) (h tail : string) :
  main_setup e a w = (w1, Ok (extract_file_id (arg_fid a), outdir)) ->
  http e (List.length (http_log w))
       ("https://datadryad.org//api/v2/files/" +:+ extract_file_id (arg_fid a))
  = Responded r ->
  is_error_status (status_code r) = false ->
  json_body r = Some meta ->
  complete_metadata meta f expected size (JStr h) ->
  (forall s, stdout_encodes e s = true) ->
  h = "/" +:+ tail ->
  http_log (fst (main e a w))
  = http_log w
    ++ ["https://datadryad.org//api/v2/files/" +:+ extract_file_id (arg_fid a);
        "https://datadryad.org/" +:+ h]
  /\ http_log (fst (main e a w))
     = http_log w
       ++ ["https://datadryad.org//api/v2/files/"
             +:+ extract_file_id (arg_fid a);
           "https://datadryad.org//" +:+ tail]
  /\ forall fid w0,
       http_log (fst (get_metadata e fid w0))
       = http_log w0 ++ ["https://datadryad.org//api/v2/files/" +:+ fid].
Proof.
  intros S H St J C Enc ->.
  destruct (main_setup_inv _ _ _ _ _ S) as (Log & _).
  assert (L : http_log (fst (main e a w))
              = http_log w
                ++ ["https://datadryad.org//api/v2/files/"
                      +:+ extract_file_id (arg_fid a);
                    "https://datadryad.org/" +:+ "/" +:+ tail]).
  { rewrite (main_log_after_fetch _ _ _ _ _ S). rewrite <- Log in H |- *.
    exact (main_fetch_downloads e _ outdir w1 r meta f expected size
             (JStr ("/" +:+ tail)) H St J C Enc). }
  split; [exact L |]. split; [exact L |]. intros fid w0. apply get_metadata_log.
Qed.

End Requests.

Section RunProperties.

(** X11: a run makes at most two requests: first the one for the metadata
    of the identifier extracted, then one download, from the base URL
    followed by the [href] that the metadata answer has under [_links]
    and [stash:download]. *)
Theorem main_requests (e : env) (a : args) (w : world) :
  http_log (fst (main e a w)) = http_log w
  \/ http_log (fst (main e a w))
     = http_log w ++ [metadata_url (extract_file_id (arg_fid a))]
  \/ exists r meta f expected size href,
       http e (List.length (http_log w))
            (metadata_url (extract_file_id (arg_fid a))) = Responded r
       /\ json_body r = Some meta
       /\ complete_metadata meta f expected size href
       /\ http_log (fst (main e a w))
          = http_log w ++ [metadata_url (extract_file_id (arg_fid a));
                           download_url e href].
Proof.
  destruct (main e a w) as [w' res] eqn:Run. cbn [fst].
  destruct (main_cases _ _ _ _ _ Run)
    as [[-> _]|(outdir & w1 & _ & [(_ & L & _)|B])].
  - now left.
  - right. now left.
  - destruct B as (r & meta & f & expected & size & href & target & w5 & w6
                   & dres & Hr & J & C & _ & _ & L5 & D & L' & _).
    right. right. exists r, meta, f, expected, size, href.
    destruct (download_cases _ _ _ _ _ _ _ D) as [L6 _].
    split; [exact Hr |]. split; [exact J |]. split; [exact C |].
    rewrite L', L6, L5, <- app_assoc. reflexivity.
Qed.

(** X12: no download with partial metadata. When a run has made a second
    request, the metadata answer had a JSON object with [path] (a string),
    [digest], [size] and the nested download link, and the request went to
    the URL made of that link. *)
Theorem download_needs_complete_metadata (e : env) (a : args) (w : world)
        (d : string) :
  http_log (fst (main e a w))
  = http_log w ++ [metadata_url (extract_file_id (arg_fid a)); d] ->
  exists r meta f expected size href,
    http e (List.length (http_log w))
         (metadata_url (extract_file_id (arg_fid a))) = Responded r
    /\ json_body r = Some meta
    /\ complete_metadata meta f expected size href
    /\ d = download_url e href.
Proof.
  destruct (main e a w) as [w' res] eqn:Run. cbn [fst]. intros L.
  destruct (main_cases _ _ _ _ _ Run)
    as [[-> _]|(outdir & w1 & _ & [(_ & L1 & _)|B])].
  - exfalso. apply (f_equal (@List.length string)) in L.
    rewrite length_app in L. simpl in L. lia.
  - rewrite L1 in L. apply app_inv_head in L. discriminate L.
  - destruct B as (r & meta & f & expected & size & href & target & w5 & w6
                   & dres & Hr & J & C & _ & _ & L5 & D & L' & _).
    destruct (download_cases _ _ _ _ _ _ _ D) as [L6 _].
    rewrite L', L6, L5, <- app_assoc in L. apply app_inv_head in L.
    injection L as <-. now exists r, meta, f, expected, size, href.
Qed.

(** X13: a digest in the metadata that is not a string is found out only
    after the download: the run ends with [AttributeError], status 1, and
    the downloaded file stays on disk, unverified. *)
Theorem non_string_digest_keeps_file (e : env) (a : args) (w w1 w2 : world)
        (fid : string) (outdir target : path) (expected : json)
        (actual : string) :
  main_setup e a w = (w1, Ok (fid, outdir)) ->
  main_fetch e fid outdir w1 = (w2, Ok (target, expected, actual)) ->
  (forall s, expected <> JStr s) ->
  main e a w = (w2, Raise AttributeError)
  /\ exit_status (snd (main e a w)) = 1%Z
  /\ exists key content,
       pathlib.locate e (fs w2) target = Ok key
       /\ pathlib.node_at (fs w2) key = Some (File content).
Proof.
  intros S F N.
  pose proof (main_after_fetch _ _ _ _ _ _ _ _ _ _ S F) as M.
  rewrite (main_verify_no_lower _ _ _ _ _ N) in M. rewrite M.
  split; [reflexivity |]. split; [reflexivity |].
  destruct (main_fetch_Ok_inv _ _ _ _ _ _ _ _ F)
    as (_ & key & content & L & Nd & _).
  now exists key, content.
Qed.

(** X14: status 0 is a guarantee. When a run ends well, the expected
    digest of the metadata was a string, the target holds exactly the
    bytes of the chunks the download answered with, their SHA-256 equals
    the expected digest up to case, and the last line printed says so. *)
Theorem success_means_verified (e : env) (a : args) (w w' : world) :
  main e a w = (w', Ok tt) ->
  exists r meta f exp size href dl target key,
    http e (List.length (http_log w))
         (metadata_url (extract_file_id (arg_fid a))) = Responded r
    /\ json_body r = Some meta
    /\ complete_metadata meta f (JStr exp) size href
    /\ http e (S (List.length (http_log w))) (download_url e href)
       = Responded dl
    /\ pathlib.locate e (fs w') target = Ok key
    /\ pathlib.node_at (fs w') key
       = Some (File (List.concat (content_chunks dl)))
    /\ Str.lower (SHA256.hexdigest (List.concat (content_chunks dl)))
       = Str.lower exp
    /\ last (stdout w') = Some "OK - checksums match.".
Proof.
  intros Run.
  destruct (main_cases _ _ _ _ _ Run)
    as [[_ [x X]]|(outdir & w1 & _ & [(_ & _ & x & X)|B])];
    try discriminate X.
  destruct B as (r & meta & f & expected & size & href & target & w5 & w6
                 & dres & Hr & J & C & _ & _ & L5 & D & _ & _ & V).
  destruct (V eq_refl)
    as (-> & F' & Out & exp & key & content & -> & Lk & Nd & E).
  destruct (download_Ok _ _ _ _ _ _ D) as (dl & key1 & Hd & L1 & N1 & F6).
  rewrite L5, length_app in Hd. cbn [List.length] in Hd.
  rewrite Nat.add_1_r in Hd.
  pose proof (locate_after_write e (fs w5) target key1 key1
                (List.concat (content_chunks dl)) N1 L1) as L6.
  rewrite <- F6 in L6. rewrite L6 in Lk. injection Lk as <-.
  assert (content = List.concat (content_chunks dl)) as ->.
  { rewrite F6 in Nd. destruct key1 as [|c1 k1]; [discriminate Nd |].
    cbn [pathlib.node_at] in Nd. rewrite lookup_insert_eq in Nd. congruence. }
  exists r, meta, f, exp, size, href, dl, target, key1.
  rewrite F'.
  exact (conj Hr (conj J (conj C (conj Hd (conj L6 (conj Nd (conj E Out))))))).
Qed.

(** X15: a run creates, changes or deletes at most one regular file, its
    target: every other file is after the run what it was before. *)
Theorem main_changes_one_file (e : env) (a : args) (w : world) :
  exists key,
    forall k content,
      k <> key ->
      (fs (fst (main e a w)) !! k = Some (File content)
       <-> fs w !! k = Some (File content)).
Proof.
  destruct (main e a w) as [w' res] eqn:Run. cbn [fst].
  destruct (main_cases _ _ _ _ _ Run)
    as [[-> _]|(outdir & w1 & S & B)].
  { exists []. reflexivity. }
  destruct (main_setup_inv _ _ _ _ _ S) as (_ & Added & _).
  destruct B as [(F' & _)|B].
  { exists []. intros k c _. rewrite F'. now apply only_dirs_added_files. }
  destruct B as (r & meta & f & expected & size & href & target & w5 & w6
                 & dres & _ & _ & _ & _ & F5 & _ & D & _ & Fv & _).
  destruct (download_cases _ _ _ _ _ _ _ D)
    as [_ [F6|(key1 & c1 & L1 & N1 & F6)]];
    destruct Fv as [F'|(key2 & c2 & -> & L2 & Nd2 & F')].
  - exists []. intros k c _. rewrite F', F6, F5.
    now apply only_dirs_added_files.
  - exists key2. intros k c Q. rewrite F', lookup_delete_ne by congruence.
    rewrite F6, F5. now apply only_dirs_added_files.
  - exists key1. intros k c Q. rewrite F', F6, lookup_insert_ne by congruence.
    rewrite F5. now apply only_dirs_added_files.
  - pose proof (locate_after_write e (fs w5) target key1 key1 c1 N1 L1) as L6.
    rewrite <- F6 in L6. rewrite L6 in L2. injection L2 as <-.
    exists key1. intros k c Q.
    rewrite F', lookup_delete_ne, F6, lookup_insert_ne by congruence.
    rewrite F5. now apply only_dirs_added_files.
Qed.

Lemma main_fetch_Ok_printed (e : env) (fid : string) (outdir : path)
      (w w' : world) (v : path * json * string) :
  main_fetch e fid outdir w = (w', Ok v) ->
  Str.all_chars is_ascii "↪ download complete, verifying checksum..."
  || stdout_encodes e "↪ download complete, verifying checksum..." = true.
Proof.
  unfold main_fetch. intros H.
  bind_inv H as meta w1 Hmeta. bind_inv H as u1 w2 Hp1.
  bind_inv H as filename w3 Hpath. bind_inv H as exp w4 Hdigest.
  bind_inv H as size w5 Hsize. bind_inv H as tgt w6 Htarget.
  bind_inv H as u2 w7 Hp2. bind_inv H as links w8 Hl.
  bind_inv H as stash w9 Hs. bind_inv H as href w10 Hh.
  bind_inv H as link w11 Hk. bind_inv H as u3 w12 Hdl.
  bind_inv H as u4 w13 Hp3.
  unfold print in Hp3. now destruct (_ || _).
Qed.

(** X16: the line printed after the download begins with an arrow, the
    character U+21AA. Where standard output cannot encode that line, every
    run ends with status 1, whatever the server sends. *)
Theorem arrow_needs_encoding (e : env) (a : args) (w : world) :
  stdout_encodes e "↪ download complete, verifying checksum..." = false ->
  exit_status (snd (main e a w)) = 1%Z.
Proof.
  intros Enc. unfold main. unfold bind at 1.
  destruct (main_setup e a w) as [w1 [[fid outdir]|x]]; [| reflexivity].
  unfold bind at 1.
  destruct (main_fetch e fid outdir w1) as [w2 [v|x]] eqn:F; [| reflexivity].
  apply main_fetch_Ok_printed in F. rewrite Enc in F. discriminate F.
Qed.

End RunProperties.

(* ===================================================================== *)
(** ** The target path *)
(* ===================================================================== *)

Section TargetPath.

(** X17: an empty file name makes the target the output directory itself,
    and a download to a path that is a directory fails with
    [IsADirectoryError] once the request is made, writing nothing. *)
Theorem download_to_directory (e : env) (url : string) (outdir : path)
        (total : json) (w : world) (r : response) (key : list string) :
  http e (List.length (http_log w)) url = Responded r ->
  is_error_status (status_code r) = false ->
  pathlib.locate e (fs w) outdir = Ok key ->
  pathlib.node_at (fs w) key = Some Dir ->
  pathlib.joinpath outdir (JStr "") = Ok outdir
  /\ download e url outdir total w
     = (MkWorld (fs w) (http_log w ++ [url]) (stdout w) (progress w),
        Raise IsADirectoryError).
Proof.
  intros H S L Nd. split.
  - destruct outdir as [ab ps]. cbn. now rewrite app_nil_r.
  - rewrite download_unfold. cbv zeta. now rewrite H, S, L, Nd.
Qed.

Lemma walk_into (m : gmap (list string) node) (l rest : list string) :
  forall racc,
    ".." ∉ l -> rest <> [] ->
    (forall q, q `prefix_of` l -> q <> [] ->
               pathlib.node_at m (rev racc ++ q) = Some Dir) ->
    pathlib.walk m racc (l ++ rest) = pathlib.walk m (rev l ++ racc) rest.
Proof.
  induction l as [|c r IH]; intros racc N R D; [reflexivity |].
  apply not_elem_of_cons in N as [Nc Nr].
  cbn [app pathlib.walk]. destruct (String.eqb_spec c ".."); [congruence |].
  assert (Nd : pathlib.node_at m (rev (c :: racc)) = Some Dir).
  { simpl. apply (D [c]); [| discriminate]. now exists r. }
  rewrite Nd.
  remember (r ++ rest) as l' eqn:E in |- *. destruct l' as [|x t].
  { symmetry in E. apply app_eq_nil in E as [_ E]. contradiction. }
  rewrite E. rewrite IH; [| assumption | assumption |].
  - simpl. now rewrite <- app_assoc.
  - intros q P Q. simpl. rewrite <- app_assoc. simpl.
    apply (D (c :: q)); [now apply prefix_cons | discriminate].
Qed.

(** X18: the file name of the metadata is not sanitised. With a name
    [../x] the target is not in the output directory but beside it, in its
    parent. *)
Theorem filename_not_sanitised (e : env) (m : gmap (list string) node)
        (ps : list string) (d x : string) (target : path) :
  ".." ∉ ps -> d <> ".." -> x <> ".." ->
  pathlib.Path x = MkPath false [x] ->
  dirs_down_to m (ps ++ [d]) ->
  pathlib.joinpath (MkPath true (ps ++ [d])) (JStr ("../" +:+ x)) = Ok target ->
  pathlib.locate e m target = Ok (ps ++ [x]).
Proof.
  intros Nps Nd Nx Px D J.
  assert (P : pathlib.Path ("../" +:+ x) = MkPath false [".."; x]).
  { unfold pathlib.Path in *. injection Px as Pa Pp.
    rewrite <- Pp. reflexivity. }
  unfold pathlib.joinpath in J. rewrite P in J. cbn in J.
  injection J as <-. unfold pathlib.locate. cbn [pathlib.start_of is_absolute parts].
  rewrite <- app_assoc. cbn [app].
  change (ps ++ d :: ".." :: [x]) with (ps ++ [d] ++ [".."; x]).
  rewrite app_assoc, walk_into.
  - cbn [pathlib.walk]. rewrite String.eqb_refl.
    rewrite app_nil_r, rev_app_distr. cbn [rev app tl].
    destruct (String.eqb_spec x ".."); [contradiction |].
    cbn. now rewrite rev_involutive.
  - intros H. apply elem_of_app in H as [H|H]; [contradiction |].
    apply list_elem_of_singleton in H. congruence.
  - discriminate.
  - intros q Q _. apply D. exact Q.
Qed.

End TargetPath.

(* ===================================================================== *)
(** ** Further sample runs *)
(* ===================================================================== *)

Section MoreSampleRuns.

Lemma download_writes_all_witness :
  fs (fst (download Sample.matching
             "https://datadryad.org//api/v2/files/7/download" Sample.target
             (JNum 3) Cases.old_file_world))
    !! ["home"; "u"; "data"; "f.bin"]
  = Some (File (list_byte_of_string "abc")).
Proof.
  assert (H : http Sample.matching
                (List.length (http_log Cases.old_file_world))
                "https://datadryad.org//api/v2/files/7/download"
              = Responded (MkResponse 200 None
                  [list_byte_of_string "a"; []; list_byte_of_string "bc"] true))
    by (vm_compute; reflexivity).
  assert (L : pathlib.locate Sample.matching (fs Cases.old_file_world)
                Sample.target = Ok ["home"; "u"; "data"; "f.bin"])
    by (vm_compute; reflexivity).
  assert (N : pathlib.node_at (fs Cases.old_file_world)
                ["home"; "u"; "data"; "f.bin"] <> Some Dir)
    by (vm_compute; discriminate).
  rewrite (proj1 (download_writes_all Sample.matching _ Sample.target (JNum 3)
                    Cases.old_file_world _ _ H eq_refl L N eq_refl eq_refl)).
  cbn [fst fs]. apply lookup_insert_eq.
Defined.

Lemma download_broken_leaves_partial_witness :
  snd (download Cases.broken_stream
         "https://datadryad.org//api/v2/files/7/download" Sample.target
         (JNum 3) Cases.old_file_world)
  = Raise RequestException
  /\ fs (fst (download Cases.broken_stream
                "https://datadryad.org//api/v2/files/7/download" Sample.target
                (JNum 3) Cases.old_file_world))
       !! ["home"; "u"; "data"; "f.bin"]
     = Some (File (list_byte_of_string "abc")).
Proof.
  assert (H : http Cases.broken_stream
                (List.length (http_log Cases.old_file_world))
                "https://datadryad.org//api/v2/files/7/download"
              = Responded (MkResponse 200 None
                  [list_byte_of_string "a"; []; list_byte_of_string "bc"] false))
    by (vm_compute; reflexivity).
  assert (L : pathlib.locate Cases.broken_stream (fs Cases.old_file_world)
                Sample.target = Ok ["home"; "u"; "data"; "f.bin"])
    by (vm_compute; reflexivity).
  assert (N : pathlib.node_at (fs Cases.old_file_world)
                ["home"; "u"; "data"; "f.bin"] <> Some Dir)
    by (vm_compute; discriminate).
  destruct (download_broken_leaves_partial Cases.broken_stream _ Sample.target
              (JNum 3) Cases.old_file_world _ _ H eq_refl L N eq_refl eq_refl)
    as [R F].
  split; [exact R |]. rewrite F. apply lookup_insert_eq.
Defined.

Lemma download_refused_writes_nothing_witness :
  fs (fst (download Sample.not_found "https://datadryad.org//api/v2/files/7"
             Sample.target (JNum 3) Cases.old_file_world))
  = fs Cases.old_file_world.
Proof.
  apply (download_refused_writes_nothing Sample.not_found
           "https://datadryad.org//api/v2/files/7" Sample.target (JNum 3)
           Cases.old_file_world).
  right.
  exists (MkResponse 404 (Some (Sample.metadata "f.bin" Sample.sha256_abc))
            [] true).
  split; vm_compute; reflexivity.
Defined.

Lemma download_needs_complete_metadata_witness :
  exists r meta f expected size href,
    http Sample.matching 0 (metadata_url "7") = Responded r
    /\ json_body r = Some meta
    /\ complete_metadata meta f expected size href
    /\ "https://datadryad.org//api/v2/files/7/download"
       = download_url Sample.matching href.
Proof.
  apply (download_needs_complete_metadata Sample.matching Sample.arguments
           Sample.empty_world "https://datadryad.org//api/v2/files/7/download").
  vm_compute. reflexivity.
Defined.

Lemma non_string_digest_keeps_file_witness :
  main Cases.null_digest Sample.arguments Sample.empty_world
  = (Sample.after_fetch Cases.null_digest, Raise AttributeError)
  /\ fs (Sample.after_fetch Cases.null_digest) !! ["home"; "u"; "data"; "f.bin"]
     = Some (File (list_byte_of_string "abc")).
Proof.
  assert (S : main_setup Cases.null_digest Sample.arguments Sample.empty_world
              = (Sample.after_setup Cases.null_digest, Ok ("7", Sample.outdir)))
    by (vm_compute; reflexivity).
  assert (F : main_fetch Cases.null_digest "7" Sample.outdir
                (Sample.after_setup Cases.null_digest)
              = (Sample.after_fetch Cases.null_digest,
                 Ok (Sample.target, JNull, Sample.sha256_abc)))
    by (vm_compute; reflexivity).
  assert (N : forall s, JNull <> JStr s) by discriminate.
  split.
  - exact (proj1 (non_string_digest_keeps_file _ _ _ _ _ _ _ _ _ _ S F N)).
  - vm_compute. reflexivity.
Defined.

Lemma success_means_verified_witness :
  exists w',
    main Sample.matching Sample.arguments Sample.empty_world = (w', Ok tt)
    /\ last (stdout w') = Some "OK - checksums match.".
Proof.
  assert (R : main Sample.matching Sample.arguments Sample.empty_world
              = (fst (main Sample.matching Sample.arguments Sample.empty_world),
                 Ok tt)) by (vm_compute; reflexivity).
  exists (fst (main Sample.matching Sample.arguments Sample.empty_world)).
  split; [exact R |].
  destruct (success_means_verified _ _ _ _ R)
    as (r & meta & f & exp & size & href & dl & target & key & H).
  exact (proj2 (proj2 (proj2 (proj2 (proj2 (proj2 (proj2 H))))))).
Defined.

Lemma arrow_needs_encoding_witness :
  exit_status (snd (main Cases.ascii_stdout Sample.arguments Sample.empty_world))
  = 1%Z
  /\ fs (fst (main Cases.ascii_stdout Sample.arguments Sample.empty_world))
       !! ["home"; "u"; "data"; "f.bin"]
     = Some (File (list_byte_of_string "abc")).
Proof.
  split.
  - apply (arrow_needs_encoding Cases.ascii_stdout Sample.arguments
             Sample.empty_world).
    reflexivity.
  - vm_compute. reflexivity.
Defined.

Lemma download_to_directory_witness :
  download Sample.matching "https://datadryad.org//api/v2/files/7/download"
    Sample.outdir (JNum 3) Cases.old_file_world
  = (MkWorld (fs Cases.old_file_world)
       ["https://datadryad.org//api/v2/files/7/download"] [] [],
     Raise IsADirectoryError).
Proof.
  assert (H : http Sample.matching
                (List.length (http_log Cases.old_file_world))
                "https://datadryad.org//api/v2/files/7/download"
              = Responded (MkResponse 200 None
                  [list_byte_of_string "a"; []; list_byte_of_string "bc"] true))
    by (vm_compute; reflexivity).
  assert (L : pathlib.locate Sample.matching (fs Cases.old_file_world)
                Sample.outdir = Ok ["home"; "u"; "data"])
    by (vm_compute; reflexivity).
  assert (N : pathlib.node_at (fs Cases.old_file_world) ["home"; "u"; "data"]
              = Some Dir) by (vm_compute; reflexivity).
  exact (proj2 (download_to_directory Sample.matching _ Sample.outdir (JNum 3)
                  Cases.old_file_world _ _ H eq_refl L N)).
Defined.

Lemma filename_not_sanitised_witness :
  pathlib.locate Sample.matching (fs Cases.old_file_world)
    (MkPath true ["home"; "u"; "data"; ".."; "x.bin"])
  = Ok ["home"; "u"; "x.bin"].
Proof.
  apply (filename_not_sanitised Sample.matching (fs Cases.old_file_world)
           ["home"; "u"] "data" "x.bin").
  - rewrite !not_elem_of_cons. repeat split; try discriminate.
    apply not_elem_of_nil.
  - discriminate.
  - discriminate.
  - reflexivity.
  - intros q [k E]. cbn in E. destruct q as [|q1 q]; [reflexivity |].
    destruct q as [|q2 q]; [injection E as <- _; vm_compute; reflexivity |].
    destruct q as [|q3 q];
      [injection E as <- <- _; vm_compute; reflexivity |].
    destruct q as [|q4 q];
      [injection E as <- <- <- _; vm_compute; reflexivity |].
    discriminate E.
  - reflexivity.
Defined.

Lemma urls_have_double_slash_witness :
  http_log (fst (main Sample.matching Sample.arguments Sample.empty_world))
  = ["https://datadryad.org//api/v2/files/7";
     "https://datadryad.org//api/v2/files/7/download"].
Proof.
  assert (S : main_setup Sample.matching Sample.arguments Sample.empty_world
              = (Sample.after_setup Sample.matching,
                 Ok (extract_file_id (arg_fid Sample.arguments), Sample.outdir)))
    by (vm_compute; reflexivity).
  assert (H : http Sample.matching (List.length (http_log Sample.empty_world))
                ("https://datadryad.org//api/v2/files/"
                   +:+ extract_file_id (arg_fid Sample.arguments))
              = Responded (MkResponse 200
                  (Some (Sample.metadata "f.bin" Sample.sha256_abc_upper))
                  [] true))
    by (vm_compute; reflexivity).
  assert (C : complete_metadata
                (Sample.metadata "f.bin" Sample.sha256_abc_upper) "f.bin"
                (JStr Sample.sha256_abc_upper) (JNum 3)
                (JStr "/api/v2/files/7/download")).
  { split; [reflexivity |]. split; [reflexivity |]. split; [reflexivity |].
    exists (JObj [("stash:download",
                    JObj [("href", JStr "/api/v2/files/7/download")])]),
           (JObj [("href", JStr "/api/v2/files/7/download")]).
    split; [reflexivity |]. split; reflexivity. }
  assert (Enc : forall s, stdout_encodes Sample.matching s = true)
    by (intros s; reflexivity).
  exact (proj1 (proj2 (urls_have_double_slash Sample.matching Sample.arguments
                  Sample.empty_world _ Sample.outdir _ _ "f.bin" _ _
                  "/api/v2/files/7/download" "api/v2/files/7/download"
                  S H eq_refl eq_refl C Enc eq_refl))).
Defined.

End MoreSampleRuns.
